(** * Ordering, traversal, date rebase, recurrence and cloning of the
      project-management hierarchy (a_pm_rapi)

    A shallow embedding of the hierarchy core of [a_pm_rapi]:
    - [models.py]: the [Task] and [TaskStatus] rows, their recursive
      queries ([get_child_branch], [get_ancestors], the conflict queries),
      [get_full_order] and the [pre_save] order hooks;
    - [api/utils.py]: [rebase_tasks_order], [rebase_the_task_dates],
      [get_sub_tasks], [create_tasks_from_parent_for_new_parent],
      [repeated_task_creator], [duplicate_task_v2_for_project] and
      [duplicate_project] for the task statuses and tasks of a project.

    Conventions.
    - A table is the list of its rows, in the order the database scans it.
      Primary keys are unique in a real table; lemmas that need it say so
      ([pk_unique]).
    - A [uuid] is a natural number; [uuid4()] draws the next number of a
      counter kept in the world.
    - A [datetime] is a number of microseconds on one time line (all stored
      datetimes are timezone-aware instants), a [timedelta] a signed number
      of microseconds.
      [timedelta.total_seconds()] followed by [timedelta(seconds=...)] is
      taken as exact.
    - A recursive SQL query is run level by level with a bound on the number
      of levels; [None] means the bound was hit (on a cyclic parent graph the
      real query does not terminate).  Recursive Python functions take the
      interpreter's recursion limit and raise [RecursionError] beyond it.
    - Where SQL leaves an order open (rows of one level of a recursive
      query, ties of [ORDER BY], a queryset under [Meta.ordering]) the model
      follows the table order; the results below are stated on membership,
      sortedness and positions, and the examples have no ties. *)

From stdpp Require Import base option list gmap strings pretty sorting.
From Stdlib Require Import ZArith Lia Ascii.

Abbreviation uuid := nat (only parsing).
Abbreviation datetime := Z (only parsing).
Abbreviation timedelta := Z (only parsing).

(** ** The external recurrence evaluator

    [instance.rrule] is a [recurrence.Recurrence]; the code reads two things
    from it: the generator [rrule.occurrences(dtstart=...)] and, through
    [rrulestr(str(rrule))], the private attribute [_count] of the parsed rule. *)
Record Recurrence := mkRecurrence {
  occurrences : string -> datetime -> nat -> option datetime;
  _count : option nat
}.

(** ** Rows *)

Module Task.
Record t := mk {
  id : uuid;
  parent_task : option uuid;
  dependency : option uuid;
  predecessor : option uuid;
  project : option uuid;
  client : option uuid;
  name : string;
  status : option uuid;
  status_assigned_date : option datetime;
  started : option datetime;
  deadline : option datetime;
  duration_estimate : option Z;
  duration_unit : option string;
  order : Z;
  rrule : option Recurrence;
  is_deleted : bool;
  _template : bool
}.

Definition set_id (v : uuid) (x : t) : t :=
  mk v (parent_task x) (dependency x) (predecessor x) (project x) (client x)
     (name x) (status x) (status_assigned_date x) (started x) (deadline x)
     (duration_estimate x) (duration_unit x) (order x) (rrule x)
     (is_deleted x) (_template x).
Definition set_parent_task (v : option uuid) (x : t) : t :=
  mk (id x) v (dependency x) (predecessor x) (project x) (client x)
     (name x) (status x) (status_assigned_date x) (started x) (deadline x)
     (duration_estimate x) (duration_unit x) (order x) (rrule x)
     (is_deleted x) (_template x).
Definition set_dependency (v : option uuid) (x : t) : t :=
  mk (id x) (parent_task x) v (predecessor x) (project x) (client x)
     (name x) (status x) (status_assigned_date x) (started x) (deadline x)
     (duration_estimate x) (duration_unit x) (order x) (rrule x)
     (is_deleted x) (_template x).
Definition set_predecessor (v : option uuid) (x : t) : t :=
  mk (id x) (parent_task x) (dependency x) v (project x) (client x)
     (name x) (status x) (status_assigned_date x) (started x) (deadline x)
     (duration_estimate x) (duration_unit x) (order x) (rrule x)
     (is_deleted x) (_template x).
Definition set_project (v : option uuid) (x : t) : t :=
  mk (id x) (parent_task x) (dependency x) (predecessor x) v (client x)
     (name x) (status x) (status_assigned_date x) (started x) (deadline x)
     (duration_estimate x) (duration_unit x) (order x) (rrule x)
     (is_deleted x) (_template x).
Definition set_client (v : option uuid) (x : t) : t :=
  mk (id x) (parent_task x) (dependency x) (predecessor x) (project x) v
     (name x) (status x) (status_assigned_date x) (started x) (deadline x)
     (duration_estimate x) (duration_unit x) (order x) (rrule x)
     (is_deleted x) (_template x).
Definition set_name (v : string) (x : t) : t :=
  mk (id x) (parent_task x) (dependency x) (predecessor x) (project x)
     (client x) v (status x) (status_assigned_date x) (started x)
     (deadline x) (duration_estimate x) (duration_unit x) (order x)
     (rrule x) (is_deleted x) (_template x).
Definition set_status_assigned_date (v : option datetime) (x : t) : t :=
  mk (id x) (parent_task x) (dependency x) (predecessor x) (project x)
     (client x) (name x) (status x) v (started x) (deadline x)
     (duration_estimate x) (duration_unit x) (order x) (rrule x)
     (is_deleted x) (_template x).
Definition set_started (v : option datetime) (x : t) : t :=
  mk (id x) (parent_task x) (dependency x) (predecessor x) (project x)
     (client x) (name x) (status x) (status_assigned_date x) v (deadline x)
     (duration_estimate x) (duration_unit x) (order x) (rrule x)
     (is_deleted x) (_template x).
Definition set_deadline (v : option datetime) (x : t) : t :=
  mk (id x) (parent_task x) (dependency x) (predecessor x) (project x)
     (client x) (name x) (status x) (status_assigned_date x) (started x) v
     (duration_estimate x) (duration_unit x) (order x) (rrule x)
     (is_deleted x) (_template x).
Definition set_order (v : Z) (x : t) : t :=
  mk (id x) (parent_task x) (dependency x) (predecessor x) (project x)
     (client x) (name x) (status x) (status_assigned_date x) (started x)
     (deadline x) (duration_estimate x) (duration_unit x) v (rrule x)
     (is_deleted x) (_template x).
Definition set_status (v : option uuid) (x : t) : t :=
  mk (id x) (parent_task x) (dependency x) (predecessor x) (project x)
     (client x) (name x) v (status_assigned_date x) (started x)
     (deadline x) (duration_estimate x) (duration_unit x) (order x)
     (rrule x) (is_deleted x) (_template x).
Definition set_rrule (v : option Recurrence) (x : t) : t :=
  mk (id x) (parent_task x) (dependency x) (predecessor x) (project x)
     (client x) (name x) (status x) (status_assigned_date x) (started x)
     (deadline x) (duration_estimate x) (duration_unit x) (order x) v
     (is_deleted x) (_template x).
Definition set__template (v : bool) (x : t) : t :=
  mk (id x) (parent_task x) (dependency x) (predecessor x) (project x)
     (client x) (name x) (status x) (status_assigned_date x) (started x)
     (deadline x) (duration_estimate x) (duration_unit x) (order x)
     (rrule x) (is_deleted x) v.
End Task.

Module TaskStatus.
Record t := mk {
  id : uuid;
  parent : option uuid;
  name : string;
  project : option uuid;
  client : option uuid;
  order : Z;
  final_stage : bool;
  is_deleted : bool;
  _template : bool
}.

Definition set_id (v : uuid) (x : t) : t :=
  mk v (parent x) (name x) (project x) (client x) (order x) (final_stage x)
     (is_deleted x) (_template x).
Definition set_project (v : option uuid) (x : t) : t :=
  mk (id x) (parent x) (name x) v (client x) (order x) (final_stage x)
     (is_deleted x) (_template x).
Definition set_client (v : option uuid) (x : t) : t :=
  mk (id x) (parent x) (name x) (project x) v (order x) (final_stage x)
     (is_deleted x) (_template x).
Definition set_order (v : Z) (x : t) : t :=
  mk (id x) (parent x) (name x) (project x) (client x) v (final_stage x)
     (is_deleted x) (_template x).
Definition set__template (v : bool) (x : t) : t :=
  mk (id x) (parent x) (name x) (project x) (client x) (order x)
     (final_stage x) (is_deleted x) v.
End TaskStatus.

Module TaskBacklog.
Record t := mk {
  id : uuid; task : uuid; backlog : uuid; is_deleted : bool; _template : bool
}.
Definition set_id (v : uuid) (x : t) : t :=
  mk v (task x) (backlog x) (is_deleted x) (_template x).
Definition set_task (v : uuid) (x : t) : t :=
  mk (id x) v (backlog x) (is_deleted x) (_template x).
End TaskBacklog.

Module TaskResource.
Record t := mk {
  id : uuid; task : uuid; resource : uuid; is_deleted : bool; _template : bool
}.
Definition set_id (v : uuid) (x : t) : t :=
  mk v (task x) (resource x) (is_deleted x) (_template x).
Definition set_task (v : uuid) (x : t) : t :=
  mk (id x) v (resource x) (is_deleted x) (_template x).
End TaskResource.

Module Project.
Record t := mk {
  id : uuid; started : option datetime; is_deleted : bool; _template : bool
}.
End Project.

(** ** The query layer *)

Module Sql.
Section Engine.
Context {A : Type}.

(** [WITH RECURSIVE q AS (anchor UNION ALL step(q)) SELECT * FROM q]:
    the working table starts as the anchor rows; each round evaluates the
    recursive term against the working table only, appends the working
    table to the result, and stops when a round yields no row. *)
Fixpoint with_recursive (step : list A -> list A) (levels : nat)
    (working : list A) : option (list A) :=
  match working with
  | [] => Some []
  | _ :: _ =>
      match levels with
      | O => None
      | S n => app working <$> with_recursive step n (step working)
      end
  end.

(** [FROM table AS tk, q AS t WHERE on tk t]: one output row per matching
    pair, enumerated working row by working row. *)
Definition join (on : A -> A -> bool) (table working : list A) : list A :=
  t ← working; filter (fun tk => on tk t) table.

(** Python's [rows[1:]]. *)
Definition tail_from_1 (rows : list A) : list A := drop 1 rows.
End Engine.

(** [ORDER BY key] and [ORDER BY -key], then [.first()]. *)
Definition asc {A} (key : A -> Z) (a b : A) : Prop := (key a <= key b)%Z.
Definition desc {A} (key : A -> Z) (a b : A) : Prop := (key b <= key a)%Z.

#[global] Instance asc_dec {A} (key : A -> Z) : RelDecision (asc key).
Proof. intros a b; unfold asc; apply _. Defined.
#[global] Instance desc_dec {A} (key : A -> Z) : RelDecision (desc key).
Proof. intros a b; unfold desc; apply _. Defined.

Definition order_by {A} (key : A -> Z) (rows : list A) : list A :=
  merge_sort (asc key) rows.
Definition order_by_desc {A} (key : A -> Z) (rows : list A) : list A :=
  merge_sort (desc key) rows.
Definition first {A} (rows : list A) : option A := head rows.

(** [DATE_TRUNC('minute', ts)] and Python's
    [dt.replace(second=0, microsecond=0)]. *)
Definition minute : Z := 60000000.
Definition date_trunc_minute (ts : datetime) : datetime :=
  (minute * (ts / minute))%Z.

(** SQL equality of a nullable column with a nullable parameter: never true
    when either side is NULL. *)
Definition sql_eq (a b : option uuid) : bool :=
  match a, b with
  | Some x, Some y => bool_decide (x = y)
  | _, _ => false
  end.

(** Django's [filter(field=value)]: [value=None] is turned into
    [field IS NULL]. *)
Definition orm_eq (a b : option uuid) : bool := bool_decide (a = b).
End Sql.

(** ** Managers ([softdelete/models.py]) *)

(** [SoftDeleteManager.get_queryset]: [filter(is_deleted=False, _template=False)]. *)
Definition task_objects (table : list Task.t) : list Task.t :=
  filter (fun r => negb (Task.is_deleted r) && negb (Task._template r)) table.

Definition task_status_objects (table : list TaskStatus.t) : list TaskStatus.t :=
  filter
    (fun r => negb (TaskStatus.is_deleted r) && negb (TaskStatus._template r))
    table.

(** ** Recursive queries of [models.py] *)

Module TaskQueries.
(** [Task.get_ancestors]. *)
Definition get_ancestors (levels : nat) (table : list Task.t) (self : Task.t)
    : option (list Task.t) :=
  Sql.with_recursive
    (Sql.join (fun tk t => bool_decide (Task.parent_task t = Some (Task.id tk)))
              table)
    levels
    (filter (fun r => bool_decide (Task.id r = Task.id self)) table).

(** [Task.get_child_branch]: the raw query does not go through the manager;
    the recursive term tests [is_deleted] only. *)
Definition child_step (table : list Task.t) : list Task.t -> list Task.t :=
  Sql.join
    (fun tk t => bool_decide (Task.parent_task tk = Some (Task.id t))
                 && negb (Task.is_deleted tk))
    table.

Definition get_child_branch (levels : nat) (table : list Task.t)
    (self : Task.t) : option (list Task.t) :=
  Sql.tail_from_1 <$>
    Sql.with_recursive (child_step table) levels
      (filter (fun r => bool_decide (Task.id r = Task.id self)) table).

(** [Task.get_child_branch_conflict_started_tasks]. *)
Definition conflict_started_step (table : list Task.t) (param : datetime)
    (client : option uuid) : list Task.t -> list Task.t :=
  Sql.join
    (fun tk t =>
       bool_decide (Task.parent_task tk = Some (Task.id t))
       && match Task.started tk with
          | Some s => bool_decide (param < Sql.date_trunc_minute s)%Z
          | None => false
          end
       && negb (Task.is_deleted tk)
       && Sql.sql_eq (Task.client tk) client)
    table.

Definition get_child_branch_conflict_started_tasks (levels : nat)
    (table : list Task.t) (self : Task.t) (started : datetime)
    (client : option uuid) : option (list Task.t) :=
  Sql.tail_from_1 <$>
    Sql.with_recursive
      (conflict_started_step table (Sql.date_trunc_minute started) client)
      levels
      (filter (fun r => bool_decide (Task.id r = Task.id self)) table).

(** [Task.get_child_branch_conflict_deadline_tasks]. *)
Definition conflict_deadline_step (table : list Task.t) (param : datetime)
    (client : option uuid) : list Task.t -> list Task.t :=
  Sql.join
    (fun tk t =>
       bool_decide (Task.parent_task tk = Some (Task.id t))
       && match Task.deadline tk with
          | Some d => bool_decide (param < Sql.date_trunc_minute d)%Z
          | None => false
          end
       && negb (Task.is_deleted tk)
       && Sql.sql_eq (Task.client tk) client)
    table.

Definition get_child_branch_conflict_deadline_tasks (levels : nat)
    (table : list Task.t) (self : Task.t) (deadline : datetime)
    (client : option uuid) : option (list Task.t) :=
  Sql.tail_from_1 <$>
    Sql.with_recursive
      (conflict_deadline_step table (Sql.date_trunc_minute deadline) client)
      levels
      (filter (fun r => bool_decide (Task.id r = Task.id self)) table).
End TaskQueries.

Module TaskStatusQueries.
Definition live (r : TaskStatus.t) : bool :=
  negb (TaskStatus.is_deleted r) && negb (TaskStatus._template r).

(** [TaskStatus.get_ancestors]. *)
Definition ancestor_step (table : list TaskStatus.t)
    : list TaskStatus.t -> list TaskStatus.t :=
  Sql.join
    (fun task_status t =>
       bool_decide (TaskStatus.parent t = Some (TaskStatus.id task_status))
       && live task_status)
    table.

Definition get_ancestors (levels : nat) (table : list TaskStatus.t)
    (self : TaskStatus.t) : option (list TaskStatus.t) :=
  Sql.with_recursive (ancestor_step table) levels
    (filter
       (fun r => bool_decide (TaskStatus.id r = TaskStatus.id self) && live r)
       table).

(** [TaskStatus.get_child_branch]. *)
Definition child_step (table : list TaskStatus.t)
    : list TaskStatus.t -> list TaskStatus.t :=
  Sql.join
    (fun ts t =>
       bool_decide (TaskStatus.parent ts = Some (TaskStatus.id t)) && live ts)
    table.

Definition get_child_branch (levels : nat) (table : list TaskStatus.t)
    (self : TaskStatus.t) : option (list TaskStatus.t) :=
  Sql.tail_from_1 <$>
    Sql.with_recursive (child_step table) levels
      (Sql.order_by TaskStatus.order
         (filter
            (fun r => bool_decide (TaskStatus.id r = TaskStatus.id self)
                      && live r)
            table)).

(** [TaskStatus.get_full_order]. *)
Definition str_int (n : Z) : string := pretty n.

Definition join_dot (parts : list string) : string :=
  String.concat "." parts.

Definition get_full_order (levels : nat) (table : list TaskStatus.t)
    (self : TaskStatus.t) : option string :=
  ancestors ← get_ancestors levels table self;
  let orders := reverse (fmap (fun r => str_int (TaskStatus.order r)) ancestors) in
  let but_last := removelast orders in
  Some (if bool_decide (1 < length but_last)
        then join_dot but_last
        else default "" (head but_last)).
End TaskStatusQueries.


(** ** The world: tables, the uuid source, the clock and the write path *)

Inductive exn :=
  | TypeError
  | UnboundLocalError
  | RecursionError
  | DoesNotExist
  | DatabaseError.

Record world := mkWorld {
  task_table : list Task.t;
  task_status_table : list TaskStatus.t;
  task_backlog_table : list TaskBacklog.t;
  task_resource_table : list TaskResource.t;
  project_table : list Project.t;
  (** the next value of [uuid4()] *)
  next_uuid : uuid;
  (** [timezone.now()] *)
  now : datetime;
  (** number of write statements sent so far *)
  statements : nat;
  (** the write statements the database rejects, by their number *)
  fails : nat -> bool
}.

(** What is stored. *)
Definition stored (w : world) :=
  (task_table w, task_status_table w, task_backlog_table w,
   task_resource_table w, project_table w).

Definition with_task_table (v : list Task.t) (w : world) : world :=
  mkWorld v (task_status_table w) (task_backlog_table w)
    (task_resource_table w) (project_table w) (next_uuid w)
    (now w) (statements w) (fails w).
Definition with_task_status_table (v : list TaskStatus.t) (w : world) : world :=
  mkWorld (task_table w) v (task_backlog_table w) (task_resource_table w)
    (project_table w) (next_uuid w) (now w) (statements w)
    (fails w).
Definition with_task_backlog_table (v : list TaskBacklog.t) (w : world) : world :=
  mkWorld (task_table w) (task_status_table w) v (task_resource_table w)
    (project_table w) (next_uuid w) (now w) (statements w)
    (fails w).
Definition with_task_resource_table (v : list TaskResource.t) (w : world)
    : world :=
  mkWorld (task_table w) (task_status_table w) (task_backlog_table w) v
    (project_table w) (next_uuid w) (now w) (statements w)
    (fails w).
Definition with_project_table (v : list Project.t) (w : world) : world :=
  mkWorld (task_table w) (task_status_table w) (task_backlog_table w)
    (task_resource_table w) v (next_uuid w) (now w)
    (statements w) (fails w).
Definition with_next_uuid (v : uuid) (w : world) : world :=
  mkWorld (task_table w) (task_status_table w) (task_backlog_table w)
    (task_resource_table w) (project_table w) v (now w)
    (statements w) (fails w).
Definition with_statements (v : nat) (w : world) : world :=
  mkWorld (task_table w) (task_status_table w) (task_backlog_table w)
    (task_resource_table w) (project_table w) (next_uuid w)
    (now w) v (fails w).

(** The tables of [old] with the counters of [new]: what a rollback leaves. *)
Definition rolled_back (old new : world) : world :=
  mkWorld (task_table old) (task_status_table old) (task_backlog_table old)
    (task_resource_table old) (project_table old) (next_uuid new) (now new) (statements new) (fails new).

Inductive outcome (A : Type) :=
  | Ok (a : A) (w : world)
  | Raise (e : exn) (w : world)
  | Hang.
Arguments Ok {A} a w.
Arguments Raise {A} e w.
Arguments Hang {A}.

Definition M (A : Type) : Type := world -> outcome A.

Definition ret {A} (a : A) : M A := fun w => Ok a w.
Definition bind {A B} (m : M A) (k : A -> M B) : M B :=
  fun w =>
    match m w with
    | Ok a w' => k a w'
    | Raise e w' => Raise e w'
    | Hang => Hang
    end.
Definition raise {A} (e : exn) : M A := fun w => Raise e w.
Definition hang {A} : M A := fun _ => Hang.
Definition get_world : M world := fun w => Ok w w.

Declare Scope db_scope.
Delimit Scope db_scope with db.
Notation "x <- m ;; k" := (bind m (fun x => k))
  (at level 100, m at next level, right associativity) : db_scope.
Notation "m ;;; k" := (bind m (fun _ => k))
  (at level 100, right associativity) : db_scope.
Open Scope db_scope.

Fixpoint for_each {A} (f : A -> M unit) (l : list A) : M unit :=
  match l with
  | [] => ret tt
  | x :: rest => f x ;;; for_each f rest
  end.

Fixpoint map_m {A B} (f : A -> M B) (l : list A) : M (list B) :=
  match l with
  | [] => ret []
  | x :: rest => y <- f x ;; ys <- map_m f rest ;; ret (y :: ys)
  end.

(** Python's [enumerate]. *)
Definition enumerate {A} (l : list A) : list (nat * A) :=
  imap (fun i x => (i, x)) l.

Definition uuid4 : M uuid :=
  fun w => Ok (next_uuid w) (with_next_uuid (S (next_uuid w)) w).

(** One write statement: rejected as a whole, or applied as a whole. *)
Definition write (apply : world -> world) : M unit :=
  fun w =>
    let w1 := with_statements (S (statements w)) w in
    if fails w (statements w) then Raise DatabaseError w1 else Ok tt (apply w1).

(** [with transaction.atomic(): body]. *)
Definition atomic {A} (body : M A) : M A :=
  fun w =>
    match body w with
    | Raise e w' => Raise e (rolled_back w w')
    | o => o
    end.

(** [Model.save()] after the [pre_save] hook: [UPDATE ... WHERE id = pk] on
    the base manager, and [INSERT] when no row was updated. *)
Definition upsert {A} (pk : A -> uuid) (row : A) (table : list A) : list A :=
  if bool_decide (pk row ∈ fmap pk table)
  then fmap (fun r => if bool_decide (pk r = pk row) then row else r) table
  else table ++ [row].

(** ** [pre_save] hooks ([models.py]) *)

(** [set_order_for_task_and_status_date]; [no_order_signal] tells whether the
    instance carries the attribute of that name. *)
Definition set_order_for_task_and_status_date (clock : datetime)
    (table : list Task.t) (no_order_signal : bool) (instance : Task.t)
    : Task.t :=
  if no_order_signal then instance else
  let task :=
    Sql.first
      (filter (fun r => bool_decide (Task.id r = Task.id instance))
              (task_objects table)) in
  let instance :=
    match task with
    | None => Task.set_status_assigned_date (Some clock) instance
    | Some t =>
        if bool_decide (is_Some (Task.status t))
           && bool_decide (Task.status_assigned_date t = None)
        then Task.set_status_assigned_date (Some clock) instance
        else instance
    end in
  let instance :=
    match task with
    | Some t =>
        if bool_decide (is_Some (Task.status instance))
           && bool_decide (Task.status t <> Task.status instance)
        then Task.set_status_assigned_date (Some clock) instance
        else instance
    | None => instance
    end in
  if bool_decide (Task.order instance = 0%Z) then
    let task :=
      Sql.first
        (Sql.order_by_desc Task.order
           (filter (fun r => bool_decide (Task.id r <> Task.id instance))
              (filter (fun r => Sql.orm_eq (Task.project r) (Task.project instance))
                 (task_objects table)))) in
    let order := match task with Some t => Task.order t | None => 0%Z end in
    Task.set_order (Task.order instance + (order + 1))%Z instance
  else instance.

(** [set_order_for_task_status]. *)
Definition set_order_for_task_status (table : list TaskStatus.t)
    (instance : TaskStatus.t) : TaskStatus.t :=
  if bool_decide (TaskStatus.order instance = 0%Z)
     && bool_decide (is_Some (TaskStatus.project instance)) then
    let task_status :=
      Sql.first
        (Sql.order_by_desc TaskStatus.order
           (filter (fun r => bool_decide (TaskStatus.id r <> TaskStatus.id instance))
              (filter (fun r => Sql.orm_eq (TaskStatus.project r)
                                           (TaskStatus.project instance))
                 (task_status_objects table)))) in
    let order :=
      match task_status with Some t => TaskStatus.order t | None => 0%Z end in
    TaskStatus.set_order (TaskStatus.order instance + (order + 1))%Z instance
  else instance.

(** [task.save()] and [task_status.save()]. *)
Definition task_save (no_order_signal : bool) (instance : Task.t) : M Task.t :=
  w <- get_world ;;
  let instance :=
    set_order_for_task_and_status_date (now w) (task_table w) no_order_signal
      instance in
  write (fun w => with_task_table (upsert Task.id instance (task_table w)) w) ;;;
  ret instance.

Definition task_status_save (instance : TaskStatus.t) : M TaskStatus.t :=
  w <- get_world ;;
  let instance := set_order_for_task_status (task_status_table w) instance in
  write (fun w =>
           with_task_status_table
             (upsert TaskStatus.id instance (task_status_table w)) w) ;;;
  ret instance.

(** ** Order rebase ([api/utils.py]) *)

Definition rebase_task_status (instance : TaskStatus.t) (order : Z)
    (project client : option uuid) : M unit :=
  w <- get_world ;;
  let next_task_statuses :=
    Sql.order_by TaskStatus.order
      (filter (fun r => bool_decide (TaskStatus.id r <> TaskStatus.id instance))
         (filter
            (fun r => Sql.orm_eq (TaskStatus.parent r) (TaskStatus.parent instance)
                      && bool_decide (order <= TaskStatus.order r)%Z
                      && Sql.orm_eq (TaskStatus.project r) project
                      && Sql.orm_eq (TaskStatus.client r) client)
            (task_status_objects (task_status_table w)))) in
  for_each
    (fun '(idx, task_status) =>
       task_status_save
         (TaskStatus.set_order (order + (Z.of_nat idx + 1))%Z task_status) ;;;
       ret tt)
    (enumerate next_task_statuses).

Definition rebase_tasks_order (instance : Task.t) (order : Z)
    (parent_task project client : option uuid) : M unit :=
  w <- get_world ;;
  let next_tasks :=
    Sql.order_by Task.order
      (filter (fun r => bool_decide (Task.id r <> Task.id instance))
         (filter
            (fun r => bool_decide (order <= Task.order r)%Z
                      && Sql.orm_eq (Task.parent_task r) parent_task
                      && Sql.orm_eq (Task.project r) project
                      && Sql.orm_eq (Task.client r) client)
            (task_objects (task_table w)))) in
  for_each
    (fun '(idx, task) =>
       task_save true (Task.set_order (order + (Z.of_nat idx + 1))%Z task) ;;;
       ret tt)
    (enumerate next_tasks).

(** ** Date rebase ([api/utils.py]) *)

(** [Task.objects.bulk_update(objs, ["started", "deadline"])]: nothing is sent
    for an empty list; otherwise Django runs its batches inside one
    [transaction.atomic], here one write statement, on the manager's queryset
    (so on the non-deleted, non-template rows whose pk is among the objects);
    it sets the two columns from the first object with the row's pk. *)
Definition bulk_update_dates (objs : list Task.t) : M unit :=
  match objs with
  | [] => ret tt
  | _ :: _ =>
      write (fun w =>
        with_task_table
          (fmap (fun r =>
                  if negb (Task.is_deleted r) && negb (Task._template r) then
                    match
                      head (filter (fun o => bool_decide (Task.id o = Task.id r)) objs)
                    with
                    | Some o =>
                        Task.set_deadline (Task.deadline o)
                          (Task.set_started (Task.started o) r)
                    | None => r
                    end
                  else r)
               (task_table w))
          w)
  end.

(** [None + timedelta] raises [TypeError]. *)
Definition add_timedelta (d : option datetime) (difference : timedelta)
    : M (option datetime) :=
  match d with
  | Some v => ret (Some (v + difference)%Z)
  | None => raise TypeError
  end.

Definition rebase_the_task_dates (levels : nat) (parent_task : Task.t)
    (difference : timedelta) (by_ : string) : M unit :=
  w <- get_world ;;
  match TaskQueries.get_child_branch levels (task_table w) parent_task with
  | None => hang
  | Some branch =>
      tasks_to_update <-
        map_m
          (fun task =>
             if String.eqb by_ "started" then
               v <- add_timedelta (Task.started task) difference ;;
               ret (Task.set_started v task)
             else
               v <- add_timedelta (Task.deadline task) difference ;;
               ret (Task.set_deadline v task))
          branch ;;
      bulk_update_dates tasks_to_update
  end.

(** ** Recurrence ([api/utils.py]) *)

(** The nested dictionary built by [get_sub_tasks]: one entry per sub task,
    in insertion order (the keys are the primary keys of distinct rows). *)
Inductive SubTasks :=
  | SubTask (task : Task.t) (task_backlogs : list TaskBacklog.t)
            (task_resources : list TaskResource.t) (sub_tasks : list SubTasks).

Definition task_backlog_objects (table : list TaskBacklog.t) :=
  filter (fun r => negb (TaskBacklog.is_deleted r) && negb (TaskBacklog._template r))
         table.
Definition task_resource_objects (table : list TaskResource.t) :=
  filter (fun r => negb (TaskResource.is_deleted r) && negb (TaskResource._template r))
         table.

(** [get_sub_tasks]; [depth] is the number of Python frames still available. *)
Fixpoint get_sub_tasks (depth : nat) (w : world) (parent_task : uuid)
    : option (list SubTasks) :=
  match depth with
  | O => None
  | S d =>
      mapM
        (fun task =>
           subs ← get_sub_tasks d w (Task.id task);
           Some (SubTask task
                   (filter (fun b => bool_decide (TaskBacklog.task b = Task.id task))
                      (task_backlog_objects (task_backlog_table w)))
                   (filter (fun r => bool_decide (TaskResource.task r = Task.id task))
                      (task_resource_objects (task_resource_table w)))
                   subs))
        (filter (fun r => bool_decide (Task.parent_task r = Some parent_task))
           (task_objects (task_table w)))
  end.

Definition Created : Type :=
  list Task.t * list TaskBacklog.t * list TaskResource.t.

Definition created_app (a b : Created) : Created :=
  (a.1.1 ++ b.1.1, a.1.2 ++ b.1.2, a.2 ++ b.2).

(** One iteration of the loop of [create_tasks_from_parent_for_new_parent],
    with the recursive call on the entry's own sub tasks. *)
Fixpoint clone_sub_task (new_parent_task : uuid) (entry : SubTasks)
    : M Created :=
  match entry with
  | SubTask task task_backlogs task_resources sub_tasks =>
      pk <- uuid4 ;;
      let sub_task_parent :=
        Task.set_parent_task (Some new_parent_task) (Task.set_id pk task) in
      new_backlogs <-
        map_m (fun b => i <- uuid4 ;;
                        ret (TaskBacklog.set_task pk (TaskBacklog.set_id i b)))
              task_backlogs ;;
      new_resources <-
        map_m (fun r => i <- uuid4 ;;
                        ret (TaskResource.set_task pk (TaskResource.set_id i r)))
              task_resources ;;
      below <-
        (fix loop (entries : list SubTasks) : M Created :=
           match entries with
           | [] => ret ([], [], [])
           | e :: rest =>
               c <- clone_sub_task pk e ;;
               cs <- loop rest ;;
               ret (created_app c cs)
           end) sub_tasks ;;
      ret (created_app ([sub_task_parent], new_backlogs, new_resources) below)
  end.

Fixpoint create_tasks_from_parent_for_new_parent (subtasks : list SubTasks)
    (new_parent_task : uuid) : M Created :=
  match subtasks with
  | [] => ret ([], [], [])
  | e :: rest =>
      c <- clone_sub_task new_parent_task e ;;
      cs <- create_tasks_from_parent_for_new_parent rest new_parent_task ;;
      ret (created_app c cs)
  end.

(** Python truthiness of a nullable integer and of a nullable string. *)
Definition truthy_int (v : option Z) : bool :=
  match v with Some z => negb (Z.eqb z 0) | None => false end.
Definition truthy_str (v : option string) : bool :=
  match v with Some s => negb (String.eqb s "") | None => false end.

Definition second : Z := 1000000.
Definition hour : Z := 3600 * second.
Definition day : Z := 24 * hour.

(** [unit_map.get(instance.duration_unit, (None, None))] turned into the
    [timedelta] it is used for. *)
Definition unit_map (duration_unit : string) (duration_estimate : Z)
    : option timedelta :=
  if String.eqb duration_unit "Weeks" then Some (duration_estimate * 7 * day)%Z
  else if String.eqb duration_unit "Days" then Some (duration_estimate * day)%Z
  else if String.eqb duration_unit "Hours" then Some (duration_estimate * hour)%Z
  else if String.eqb duration_unit "Minutes" then Some (duration_estimate * Sql.minute)%Z
  else None.

(** [ensure_timezone_aware]: the stored instant, seen in another zone. *)
Definition ensure_timezone_aware (dt : datetime) (timezone_str : string)
    : datetime := dt.

Record Generated := mkGenerated {
  tasks : list Task.t;
  task_backlogs : list TaskBacklog.t;
  task_resources : list TaskResource.t
}.

Definition bulk_create_tasks (objs : list Task.t) : M (list Task.t) :=
  match objs with
  | [] => ret []
  | _ :: _ =>
      write (fun w => with_task_table (task_table w ++ objs) w) ;;; ret objs
  end.
Definition bulk_create_task_backlogs (objs : list TaskBacklog.t)
    : M (list TaskBacklog.t) :=
  match objs with
  | [] => ret []
  | _ :: _ =>
      write (fun w => with_task_backlog_table (task_backlog_table w ++ objs) w) ;;;
      ret objs
  end.
Definition bulk_create_task_resources (objs : list TaskResource.t)
    : M (list TaskResource.t) :=
  match objs with
  | [] => ret []
  | _ :: _ =>
      write (fun w => with_task_resource_table (task_resource_table w ++ objs) w) ;;;
      ret objs
  end.

(** The [for i, recurrence_dt in enumerate(dates)] loop.  [budget] bounds the
    number of iterations of the model; [max_count + 2] always suffices. *)
Fixpoint occurrence_loop (budget : nat) (dates : nat -> option datetime)
    (rule_count : option nat) (instance : Task.t) (by_ : string)
    (time_diff : timedelta) (latest_order : Z) (max_count : nat)
    (all_sub_tasks : list SubTasks)
    (parent_task_backlogs : list TaskBacklog.t)
    (parent_task_resources : list TaskResource.t)
    (i count : nat) (acc : Created) : M Created :=
  match budget with
  | O => hang
  | S budget' =>
      let continue_ i count acc :=
        occurrence_loop budget' dates rule_count instance by_ time_diff
          latest_order max_count all_sub_tasks parent_task_backlogs
          parent_task_resources i count acc in
      match dates i with
      | None => ret acc
      | Some recurrence_dt =>
          if bool_decide (i = 0) then continue_ (S i) count acc
          else if bool_decide (max_count <= count)
                  || match rule_count with
                     | Some c => negb (Nat.eqb c 0) && bool_decide (c <= count)
                     | None => false
                     end
          then ret acc
          else
            pk <- uuid4 ;;
            let new_task :=
              Task.set_parent_task (Some (Task.id instance))
                (Task.set_order (latest_order + Z.of_nat count + 1)%Z
                   (Task.set_rrule None
                      (Task.set_name
                         ("[" +:+ pretty (count + 1) +:+ "] " +:+ Task.name instance)
                         (Task.set_id pk instance)))) in
            let new_task :=
              if String.eqb by_ "deadline" then
                Task.set_started (Some (recurrence_dt - time_diff)%Z)
                  (Task.set_deadline (Some recurrence_dt) new_task)
              else
                Task.set_deadline (Some (recurrence_dt + time_diff)%Z)
                  (Task.set_started (Some recurrence_dt) new_task) in
            new_backlogs <-
              map_m (fun b => k <- uuid4 ;;
                       ret (TaskBacklog.set_task pk (TaskBacklog.set_id k b)))
                    parent_task_backlogs ;;
            new_resources <-
              map_m (fun r => k <- uuid4 ;;
                       ret (TaskResource.set_task pk (TaskResource.set_id k r)))
                    parent_task_resources ;;
            sub <- create_tasks_from_parent_for_new_parent all_sub_tasks pk ;;
            continue_ (S i) (S count)
              (created_app
                 (created_app acc ([new_task], new_backlogs, new_resources))
                 sub)
      end
  end.

(** [repeated_task_creator]; the result [None] is Python's bare [return]. *)
Definition repeated_task_creator (depth : nat) (instance : Task.t)
    (timezone : string) (by_ : string) (commit : bool) (max_count : nat)
    : M (option Generated) :=
  match Task.rrule instance, Task.deadline instance with
  | Some rrule, Some deadline =>
      if negb (bool_decide (is_Some (Task.started instance))
               || (truthy_int (Task.duration_estimate instance)
                   && truthy_str (Task.duration_unit instance)))
      then ret None
      else
        w <- get_world ;;
        match get_sub_tasks depth w (Task.id instance) with
        | None => raise RecursionError
        | Some all_sub_tasks =>
            let parent_task_backlogs :=
              filter (fun b => bool_decide (TaskBacklog.task b = Task.id instance))
                (task_backlog_objects (task_backlog_table w)) in
            let parent_task_resources :=
              filter (fun r => bool_decide (TaskResource.task r = Task.id instance))
                (task_resource_objects (task_resource_table w)) in
            let '(started, time_diff_sec) :=
              match Task.started instance with
              | Some s => (Some s, Some (deadline - s)%Z)
              | None =>
                  if truthy_str (Task.duration_unit instance)
                     && truthy_int (Task.duration_estimate instance)
                  then
                    match unit_map (default "" (Task.duration_unit instance))
                                   (default 0%Z (Task.duration_estimate instance))
                    with
                    | Some delta => (Some (deadline - delta)%Z, Some delta)
                    | None => (None, None)
                    end
                  else (None, None)
              end in
            match started, time_diff_sec with
            | Some started, Some time_diff =>
                if Z.eqb time_diff 0 then ret None
                else
                  let dtstart :=
                    ensure_timezone_aware
                      (if String.eqb by_ "deadline" then deadline else started)
                      timezone in
                  let dates := occurrences rrule timezone dtstart in
                  let latest_task :=
                    Sql.first
                      (Sql.order_by_desc Task.order
                         (filter
                            (fun r => bool_decide
                                        (Task.parent_task r = Some (Task.id instance)))
                            (task_objects (task_table w)))) in
                  let latest_order :=
                    match latest_task with
                    | Some t => Task.order t
                    | None => 0%Z
                    end in
                  created <-
                    occurrence_loop (max_count + 2) dates (_count rrule) instance
                      by_ time_diff latest_order max_count all_sub_tasks
                      parent_task_backlogs parent_task_resources 0 0
                      ([], [], []) ;;
                  let '(tasks_objects, task_backlogs_objects,
                        task_resources_objects) := created in
                  if commit then
                    atomic
                      (tasks <- bulk_create_tasks tasks_objects ;;
                       task_backlogs <-
                         bulk_create_task_backlogs task_backlogs_objects ;;
                       task_resources <-
                         bulk_create_task_resources task_resources_objects ;;
                       ret (Some (mkGenerated tasks task_backlogs task_resources)))
                  else
                    ret (Some (mkGenerated tasks_objects task_backlogs_objects
                                 task_resources_objects))
            | _, _ => ret None
            end
        end
  | _, _ => ret None
  end.

(** ** Cloning ([api/utils.py]) *)

(** A Python dictionary keyed by the old primary key, in insertion order. *)
Definition dict_get {V} (k : uuid) (d : list (uuid * V)) : option V :=
  snd <$> head (filter (fun kv => bool_decide (kv.1 = k)) d).

Definition dict_set {V} (k : uuid) (v : V) (d : list (uuid * V))
    : list (uuid * V) :=
  if bool_decide (k ∈ fmap fst d)
  then fmap (fun kv => if bool_decide (kv.1 = k) then (k, v) else kv) d
  else d ++ [(k, v)].

(** The two entries of [records] that the task rows of this model reach. *)
Record Records := mkRecords {
  task_status_to_create : list (uuid * TaskStatus.t);
  tasks_to_create : list (uuid * Task.t)
}.

(** The related object behind a foreign key, fetched through the base
    manager. *)
Definition related_task (pk : uuid) : M Task.t :=
  w <- get_world ;;
  match head (filter (fun r => bool_decide (Task.id r = pk)) (task_table w)) with
  | Some r => ret r
  | None => raise DoesNotExist
  end.

Definition related_task_status (pk : uuid) : M TaskStatus.t :=
  w <- get_world ;;
  match
    head (filter (fun r => bool_decide (TaskStatus.id r = pk)) (task_status_table w))
  with
  | Some r => ret r
  | None => raise DoesNotExist
  end.

(** [duplicate_task_v2_for_project].  The blocks for [task_type] and [hlr]
    concern columns that the row model does not carry; they neither read nor
    write the three self-referential fields or [tasks_to_create]. *)
Fixpoint duplicate_task_v2_for_project (depth : nat) (records : Records)
    (request_client : option uuid) (task : Task.t) (new_project : Project.t)
    (old_project_start_date : option datetime) (_template : bool)
    : M (Task.t * Records) :=
  match depth with
  | O => raise RecursionError
  | S d =>
      let old_task_id := Task.id task in
      let old_task_status_id := Task.status task in
      let old_task_parent_task_id := Task.parent_task task in
      let old_task_dependency_id := Task.dependency task in
      let old_task_predecessor_id := Task.predecessor task in
      pk <- uuid4 ;;
      let new_task :=
        Task.set_client request_client
          (Task.set__template _template
             (Task.set_project (Some (Project.id new_project))
                (Task.set_id pk task))) in
      let moved (v : option datetime) : option datetime :=
        match old_project_start_date, Project.started new_project, v with
        | Some old_start, Some new_start, Some x =>
            Some (new_start + (x - old_start))%Z
        | _, _, _ => v
        end in
      let new_task :=
        Task.set_status_assigned_date (moved (Task.status_assigned_date new_task))
          new_task in
      let new_task := Task.set_started (moved (Task.started new_task)) new_task in
      let new_task := Task.set_deadline (moved (Task.deadline new_task)) new_task in
      (* if new_task.status: *)
      r <-
        match old_task_status_id with
        | None => ret (new_task, records)
        | Some sid =>
            status <- related_task_status sid ;;
            match dict_get sid (task_status_to_create records) with
            | Some new_task_status =>
                ret (Task.set_status (Some (TaskStatus.id new_task_status)) new_task,
                     records)
            | None =>
                spk <- uuid4 ;;
                let new_task_status :=
                  TaskStatus.set_client request_client
                    (TaskStatus.set__template _template
                       (TaskStatus.set_project (Some (Project.id new_project))
                          (TaskStatus.set_id spk status))) in
                ret (Task.set_status (Some spk) new_task,
                     mkRecords
                       (dict_set sid new_task_status (task_status_to_create records))
                       (tasks_to_create records))
            end
        end ;;
      let '(new_task, records) := r in
      (* if new_task.parent_task: *)
      r <-
        match old_task_parent_task_id with
        | None => ret (new_task, records)
        | Some p =>
            related <- related_task p ;;
            if bool_decide (p = old_task_id)
            then ret (Task.set_parent_task (Some pk) new_task, records)
            else
              match dict_get p (tasks_to_create records) with
              | Some parent_task =>
                  ret (Task.set_parent_task (Some (Task.id parent_task)) new_task,
                       records)
              | None =>
                  c <- duplicate_task_v2_for_project d records request_client
                         related new_project old_project_start_date _template ;;
                  ret (Task.set_parent_task (Some (Task.id c.1)) new_task, c.2)
              end
        end ;;
      let '(new_task, records) := r in
      (* if new_task.dependency: *)
      new_task <-
        match old_task_dependency_id with
        | None => ret new_task
        | Some dep =>
            related <- related_task dep ;;
            if bool_decide (dep = old_task_id)
            then ret (Task.set_dependency (Some pk) new_task)
            else
              (* parent_task = records["tasks_to_create"].get(...) ;
                 if not dependency: -- the name is read before any binding *)
              let parent_task := dict_get dep (tasks_to_create records) in
              raise UnboundLocalError
        end ;;
      (* if new_task.predecessor: *)
      new_task <-
        match old_task_predecessor_id with
        | None => ret new_task
        | Some pre =>
            related <- related_task pre ;;
            if bool_decide (pre = old_task_id)
            then ret (Task.set_predecessor (Some pk) new_task)
            else
              let parent_task := dict_get pre (tasks_to_create records) in
              raise UnboundLocalError
        end ;;
      ret (new_task,
           mkRecords (task_status_to_create records)
             (dict_set old_task_id new_task (tasks_to_create records)))
  end.

(** [TemplateManager.get_queryset]. *)
Definition task_template_objects (table : list Task.t) : list Task.t :=
  filter (fun r => negb (Task.is_deleted r) && Task._template r) table.
Definition task_status_template_objects (table : list TaskStatus.t)
    : list TaskStatus.t :=
  filter (fun r => negb (TaskStatus.is_deleted r) && TaskStatus._template r) table.

Definition bulk_create_task_statuses (objs : list TaskStatus.t) : M unit :=
  match objs with
  | [] => ret tt
  | _ :: _ =>
      write (fun w => with_task_status_table (task_status_table w ++ objs) w)
  end.

(** [bulk_update(tasks_to_update, ["parent_task", "dependency", "predecessor"])]
    on the manager named by [task_manager]. *)
Definition bulk_update_links (visible : Task.t -> bool)
    (links : list (uuid * (option uuid * option uuid * option uuid)))
    (tasks_to_update : list Task.t) : M unit :=
  match tasks_to_update with
  | [] => ret tt
  | _ :: _ =>
      write (fun w =>
        with_task_table
          (fmap (fun r =>
                  if visible r
                     && bool_decide (Task.id r ∈ fmap Task.id tasks_to_update)
                  then
                    match dict_get (Task.id r) links with
                    | Some refs =>
                        Task.set_predecessor refs.2
                          (Task.set_dependency refs.1.2
                             (Task.set_parent_task refs.1.1 r))
                    | None => r
                    end
                  else r)
               (task_table w))
          w)
  end.

(** [duplicate_project], for a project whose related rows are task statuses
    and tasks: the loops over the other related models then run over empty
    querysets and their [bulk_create] calls get empty lists, which send
    nothing.  [attrs] only overrides columns of the project row. *)
Definition duplicate_project (depth : nat) (project : Project.t)
    (request_client : option uuid) (_template : bool) : M Project.t :=
  let old_project_start_date := Project.started project in
  (* new_project.pk = None ; ... ; new_project.save() *)
  pk <- uuid4 ;;
  let new_project :=
    Project.mk pk (Project.started project) (Project.is_deleted project)
      _template in
  write (fun w => with_project_table (project_table w ++ [new_project]) w) ;;;
  w <- get_world ;;
  let source_statuses :=
    filter (fun r => Sql.orm_eq (TaskStatus.project r) (Some (Project.id project)))
      ((if _template then task_status_objects else task_status_template_objects)
         (task_status_table w)) in
  let source_tasks :=
    filter (fun r => Sql.orm_eq (Task.project r) (Some (Project.id project)))
      ((if _template then task_objects else task_template_objects)
         (task_table w)) in
  records <-
    (fix statuses (l : list TaskStatus.t) (records : Records) : M Records :=
       match l with
       | [] => ret records
       | task_status :: rest =>
           match dict_get (TaskStatus.id task_status)
                   (task_status_to_create records) with
           | Some _ => statuses rest records
           | None =>
               spk <- uuid4 ;;
               let new_task_status :=
                 TaskStatus.set_client request_client
                   (TaskStatus.set__template _template
                      (TaskStatus.set_project (Some pk)
                         (TaskStatus.set_id spk task_status))) in
               statuses rest
                 (mkRecords
                    (dict_set (TaskStatus.id task_status) new_task_status
                       (task_status_to_create records))
                    (tasks_to_create records))
           end
       end) source_statuses (mkRecords [] []) ;;
  records <-
    (fix tasks (l : list Task.t) (records : Records) : M Records :=
       match l with
       | [] => ret records
       | task :: rest =>
           match dict_get (Task.id task) (tasks_to_create records) with
           | Some _ => tasks rest records
           | None =>
               c <- duplicate_task_v2_for_project depth records request_client
                      task new_project old_project_start_date _template ;;
               tasks rest c.2
           end
       end) source_tasks records ;;
  bulk_create_task_statuses (fmap snd (task_status_to_create records)) ;;;
  let values := fmap snd (tasks_to_create records) in
  let link_task_foreign_keys :=
    fmap (fun t => (Task.id t,
                   (Task.parent_task t, Task.dependency t, Task.predecessor t)))
        values in
  let detached :=
    fmap (fun t => Task.set_predecessor None
                    (Task.set_dependency None (Task.set_parent_task None t)))
        values in
  bulk_create_tasks detached ;;;
  w <- get_world ;;
  let visible :=
    if _template
    then (fun r => negb (Task.is_deleted r) && Task._template r)
    else (fun r => negb (Task.is_deleted r) && negb (Task._template r)) in
  let tasks_to_update :=
    filter (fun r => bool_decide (Task.id r ∈ fmap fst link_task_foreign_keys))
      (filter (fun r => visible r) (task_table w)) in
  bulk_update_links visible link_task_foreign_keys tasks_to_update ;;;
  ret new_project.

(** ** Well-formed tables *)

(** Primary keys are unique. *)
Definition pk_unique {A} (pk : A -> uuid) (table : list A) : Prop :=
  NoDup (fmap pk table).

(** The parent pointers of the task table form no cycle: some rank grows
    strictly from every parent to its children. *)
Definition acyclic {A} (pk : A -> uuid) (parent : A -> option uuid)
    (rank : uuid -> nat) (table : list A) : Prop :=
  Forall (fun r => match parent r with
                   | Some p => rank p < rank (pk r)
                   | None => True
                   end) table.

(** ... and [bound] exceeds every rank. *)
Definition ranked_below {A} (pk : A -> uuid) (rank : uuid -> nat) (bound : nat)
    (table : list A) : Prop :=
  Forall (fun r => rank (pk r) < bound) table.

Definition well_formed_tasks (rank : uuid -> nat) (bound : nat)
    (table : list Task.t) : Prop :=
  pk_unique Task.id table
  /\ acyclic Task.id Task.parent_task rank table
  /\ ranked_below Task.id rank bound table.

Definition well_formed_task_statuses (rank : uuid -> nat) (bound : nat)
    (table : list TaskStatus.t) : Prop :=
  pk_unique TaskStatus.id table
  /\ acyclic TaskStatus.id TaskStatus.parent rank table
  /\ ranked_below TaskStatus.id rank bound table.

(** Rows linked to the anchor rows by [n] applications of a join. *)
Inductive linked {A} (on : A -> A -> bool) (table anchor : list A)
    : nat -> A -> Prop :=
  | linked_anchor x : x ∈ anchor -> linked on table anchor 0 x
  | linked_step n t x :
      linked on table anchor n t -> x ∈ table -> on x t = true ->
      linked on table anchor (S n) x.

(** ** Conflicts, as the specification and as the query see them *)

(** The row-local part of the conflict test on deadlines. *)
Definition deadline_conflicts (d : datetime) (client : option uuid)
    (x : Task.t) : Prop :=
  (exists dl, Task.deadline x = Some dl /\ (d < Sql.date_trunc_minute dl)%Z)
  /\ Task.is_deleted x = false
  /\ (exists c, client = Some c /\ Task.client x = Some c).

(** Rows hanging below [top] through rows that all conflict. *)
Inductive conflict_chain (table : list Task.t) (d : datetime)
    (client : option uuid) (top : uuid) : Task.t -> Prop :=
  | conflict_child x :
      x ∈ table -> Task.parent_task x = Some top ->
      deadline_conflicts d client x ->
      conflict_chain table d client top x
  | conflict_below t x :
      conflict_chain table d client top t ->
      x ∈ table -> Task.parent_task x = Some (Task.id t) ->
      deadline_conflicts d client x ->
      conflict_chain table d client top x.

(** ** Example rows *)

Definition example_task (i : uuid) (p : option uuid) (order : Z)
    (started deadline : option datetime) (deleted template : bool) : Task.t :=
  Task.mk i p None None (Some 100) (Some 7) "task" None None started deadline
    None None order None deleted template.

Definition example_status (i : uuid) (p : option uuid) (order : Z)
    (deleted template : bool) : TaskStatus.t :=
  TaskStatus.mk i p "status" (Some 100) (Some 7) order false deleted template.

(** A root, a template child, and a live grandchild below the template. *)
Definition template_branch_tasks : list Task.t :=
  [ example_task 1 None 1 None None false false;
    example_task 2 (Some 1) 1 None None false true;
    example_task 3 (Some 2) 1 None None false false ].

Definition template_branch_statuses : list TaskStatus.t :=
  [ example_status 1 None 1 false false;
    example_status 2 (Some 1) 1 false true;
    example_status 3 (Some 2) 1 false false ].

(** 10:00, 11:00 and 12:00 of day 0. *)
Definition at_10 : datetime := (10 * hour)%Z.
Definition at_11 : datetime := (11 * hour)%Z.
Definition at_12 : datetime := (12 * hour)%Z.

(** A root, a child due at 10:00 and a grandchild due at 12:00. *)
Definition late_grandchild_tasks : list Task.t :=
  [ example_task 1 None 1 None (Some at_12) false false;
    example_task 2 (Some 1) 1 None (Some at_10) false false;
    example_task 3 (Some 2) 1 None (Some at_12) false false ].

(** ** Ancestor chains and labels *)

(** The live ancestors of a row, parent first: the chain stops at a row whose
    parent is absent, deleted or a template. *)
Inductive live_ancestors (table : list TaskStatus.t)
    : TaskStatus.t -> list TaskStatus.t -> Prop :=
  | ancestors_stop r :
      (forall a, a ∈ table -> TaskStatus.parent r = Some (TaskStatus.id a) ->
                 TaskStatusQueries.live a = false) ->
      live_ancestors table r []
  | ancestors_up r a chain :
      a ∈ table -> TaskStatus.parent r = Some (TaskStatus.id a) ->
      TaskStatusQueries.live a = true ->
      live_ancestors table a chain ->
      live_ancestors table r (a :: chain).

(** Python's [label.split(".")]. *)
Fixpoint split_dot (s : string) : list string :=
  match s with
  | EmptyString => [EmptyString]
  | String c rest =>
      if Ascii.eqb c "."%char then EmptyString :: split_dot rest
      else match split_dot rest with
           | [] => [String c EmptyString]
           | h :: t => String c h :: t
           end
  end.

Fixpoint has_dot (s : string) : bool :=
  match s with
  | EmptyString => false
  | String c rest => Ascii.eqb c "."%char || has_dot rest
  end.

(** The label as the specification words it: the orders of the ancestors
    strictly between the node and the root, root-adjacent first.  [chain] is
    the chain of proper ancestors, parent first and root last. *)
Definition spec_full_order_label (chain : list TaskStatus.t) : string :=
  TaskStatusQueries.join_dot
    (reverse ((fun r => TaskStatusQueries.str_int (TaskStatus.order r))
                <$> removelast chain)).

(** A root of order 3, its child of order 1 and a grandchild of order 2. *)
Definition three_level_statuses : list TaskStatus.t :=
  [ example_status 1 None 3 false false;
    example_status 2 (Some 1) 1 false false;
    example_status 3 (Some 2) 2 false false ].

(** ** Default order, as the specification and as the hook see it *)

(** The rows the hook takes the maximum over: the visible rows of the
    instance's project, the instance itself apart. *)
Definition project_peer (table : list Task.t) (instance r : Task.t) : Prop :=
  r ∈ table
  /\ Task.is_deleted r = false /\ Task._template r = false
  /\ Task.project r = Task.project instance
  /\ Task.id r <> Task.id instance.

Definition status_project_peer (table : list TaskStatus.t)
    (instance r : TaskStatus.t) : Prop :=
  r ∈ table
  /\ TaskStatus.is_deleted r = false /\ TaskStatus._template r = false
  /\ TaskStatus.project r = TaskStatus.project instance
  /\ TaskStatus.id r <> TaskStatus.id instance.

(** The siblings of the specification: same project, same parent task and
    same tenant. *)
Definition full_scope_siblings (table : list Task.t) (instance : Task.t)
    : list Task.t :=
  filter (fun r => bool_decide (Task.id r <> Task.id instance))
    (filter (fun r => Sql.orm_eq (Task.project r) (Task.project instance)
                      && Sql.orm_eq (Task.parent_task r) (Task.parent_task instance)
                      && Sql.orm_eq (Task.client r) (Task.client instance))
       (task_objects table)).

Definition spec_default_order (table : list Task.t) (instance : Task.t) : Z :=
  match Sql.first (Sql.order_by_desc Task.order (full_scope_siblings table instance)) with
  | Some m => (Task.order m + 1)%Z
  | None => 1%Z
  end.

(** A top-level task of order 7 and, below it, a task of order 2. *)
Definition two_scope_tasks : list Task.t :=
  [ example_task 1 None 7 None None false false;
    example_task 2 (Some 1) 2 None None false false ].

(** ** Order rebase, as the specification and as the code see it *)

(** No write statement is rejected. *)
Definition never_fails (w : world) : Prop := forall n, fails w n = false.

(** The rows [rebase_tasks_order] renumbers: the visible tasks of the scope
    whose order is at least the target, the instance apart. *)
Definition shifted_sibling (table : list Task.t) (instance : Task.t) (order : Z)
    (parent_task project client : option uuid) (r : Task.t) : Prop :=
  r ∈ table
  /\ Task.is_deleted r = false /\ Task._template r = false
  /\ (order <= Task.order r)%Z
  /\ Task.parent_task r = parent_task
  /\ Task.project r = project
  /\ Task.client r = client
  /\ Task.id r <> Task.id instance.

(** The instance at order 5, and two siblings at orders 5 and 9. *)
Definition gapped_sibling_tasks : list Task.t :=
  [ example_task 1 None 5 None None false false;
    example_task 2 None 5 None None false false;
    example_task 3 None 9 None None false false;
    example_task 4 None 2 None None false false ].

Definition example_world (tasks : list Task.t) (fails : nat -> bool) : world :=
  mkWorld tasks [] [] [] [] 1000 0%Z 0 fails.

(** Observations of an outcome. *)
Definition returned {A} (o : outcome A) : option A :=
  match o with Ok a _ => Some a | _ => None end.
Definition raised {A} (o : outcome A) : option exn :=
  match o with Raise e _ => Some e | _ => None end.
Definition final_world {A} (o : outcome A) : option world :=
  match o with Ok _ w | Raise _ w => Some w | Hang => None end.

(** ** Date rebase: the field a call moves *)

(** [by == "started"] selects [started]; any other value selects [deadline]. *)
Definition anchored (by_ : string) (r : Task.t) : option datetime :=
  if String.eqb by_ "started" then Task.started r else Task.deadline r.
Definition set_anchored (by_ : string) (v : option datetime) (r : Task.t)
    : Task.t :=
  if String.eqb by_ "started" then Task.set_started v r else Task.set_deadline v r.
(** The other field of the pair. *)
Definition unanchored (by_ : string) (r : Task.t) : option datetime :=
  if String.eqb by_ "started" then Task.deadline r else Task.started r.

(** A parent and a child that runs from 10:00 to 12:00. *)
Definition parent_and_child_tasks : list Task.t :=
  [ example_task 1 None 1 (Some at_10) (Some at_12) false false;
    example_task 2 (Some 1) 1 (Some at_10) (Some at_12) false false ].

(** ** Recurrence: shapes and freshness *)

(** All that happened between two worlds is that uuids were drawn. *)
Definition only_drew_uuids (w w' : world) : Prop :=
  stored w' = stored w
  /\ statements w' = statements w
  /\ fails w' = fails w
  /\ now w' = now w
  /\ next_uuid w <= next_uuid w'.

(** Number of tasks in a dictionary of sub tasks. *)
Fixpoint sub_task_count (entry : SubTasks) : nat :=
  match entry with
  | SubTask _ _ _ sub_tasks =>
      S ((fix total (l : list SubTasks) : nat :=
            match l with
            | [] => 0
            | e :: rest => sub_task_count e + total rest
            end) sub_tasks)
  end.

Definition forest_size (entries : list SubTasks) : nat :=
  foldr (fun e n => sub_task_count e + n) 0 entries.

(** [clone_forest p clones entries]: the flat list [clones] is a copy of the
    forest [entries] hung below [p]: one clone per task, in pre-order, each
    equal to its original but for its key and its parent pointer, the clones
    of the sub tasks of a task pointing to the clone of that task. *)
Inductive clone_forest : uuid -> list Task.t -> list SubTasks -> Prop :=
  | clone_forest_nil p : clone_forest p [] []
  | clone_forest_cons p c below rest task backlogs resources sub_tasks entries :
      c = Task.set_parent_task (Some p) (Task.set_id (Task.id c) task) ->
      clone_forest (Task.id c) below sub_tasks ->
      clone_forest p rest entries ->
      clone_forest p (c :: below ++ rest)
        (SubTask task backlogs resources sub_tasks :: entries).

(** [sub_tasks_of w p entries]: [entries] holds, in table order, the visible
    tasks whose parent is [p], each with its visible links and, level by
    level, the visible tasks below it. *)
Inductive sub_tasks_of (w : world) : uuid -> list SubTasks -> Prop :=
  | sub_tasks_of_children p entries :
      Forall2
        (fun task entry =>
           exists below,
             entry
             = SubTask task
                 (filter (fun b => bool_decide (TaskBacklog.task b = Task.id task))
                    (task_backlog_objects (task_backlog_table w)))
                 (filter (fun r => bool_decide (TaskResource.task r = Task.id task))
                    (task_resource_objects (task_resource_table w)))
                 below
             /\ sub_tasks_of w (Task.id task) below)
        (filter (fun r => bool_decide (Task.parent_task r = Some p))
           (task_objects (task_table w)))
        entries ->
      sub_tasks_of w p entries.

(** The clones carry keys drawn from [n] on, and point either to [p] or to
    such a key. *)
Definition fresh_below (n : uuid) (p : uuid) (clones : list Task.t) : Prop :=
  Forall (fun c => n <= Task.id c
                   /\ (Task.parent_task c = Some p
                       \/ exists q, Task.parent_task c = Some q /\ n <= q))
         clones.

(** A recurrence that yields its start and then one date every seven days. *)
Definition weekly : Recurrence :=
  mkRecurrence (fun _ dtstart i => Some (dtstart + Z.of_nat i * (7 * day))%Z) None.

(** The [i]-th generated instance of [seed], for an occurrence on [date]
    (the day of the occurrence at 00:00): a child of the seed, due at 12:00
    and starting at 10:00 of that day, named after the seed, without rule. *)
Definition weekly_instance (seed : Task.t) (i : nat) (date : datetime)
    (t : Task.t) : Prop :=
  Task.parent_task t = Some (Task.id seed)
  /\ Task.deadline t = Some (date + at_12)%Z
  /\ Task.started t = Some (date + at_10)%Z
  /\ Task.rrule t = None
  /\ Task.name t = "[" +:+ pretty i +:+ "] " +:+ Task.name seed.

(** A seed from 10:00 to 12:00 of day 0 with two sub tasks, one below the
    other. *)
Definition weekly_seed : Task.t :=
  Task.set_rrule (Some weekly)
    (example_task 1 None 1 (Some at_10) (Some at_12) false false).

Definition weekly_seed_tasks : list Task.t :=
  [ weekly_seed;
    example_task 2 (Some 1) 1 None None false false;
    example_task 3 (Some 2) 1 None None false false ].

(** ** Cloning and atomicity: examples *)

(** An operation is atomic when a run that raises leaves what is stored as
    it found it. *)
Definition atomic_on_error {A} (m : M A) : Prop :=
  forall w e w', m w = Raise e w' -> stored w' = stored w.

(** A template project and the project it is cloned into. *)
Definition example_project : Project.t := Project.mk 100 None false true.
Definition new_example_project : Project.t := Project.mk 200 None false false.

(** Task 1 depends on task 2; task 3 depends on itself; task 5 is a child of
    task 4. *)
Definition dependent_tasks : list Task.t :=
  [ Task.set_dependency (Some 2) (example_task 1 None 1 None None false false);
    example_task 2 None 2 None None false false;
    Task.set_dependency (Some 3) (example_task 3 None 3 None None false false);
    example_task 4 None 4 None None false false;
    example_task 5 (Some 4) 1 None None false false ].

(** The template project with one template task. *)
Definition template_project_world (fails : nat -> bool) : world :=
  mkWorld [example_task 1 None 1 None None false true] [] [] []
    [example_project] 1000 0%Z 0 fails.

(** Two statuses after the one being moved to order 1. *)
Definition sibling_statuses : list TaskStatus.t :=
  [ example_status 1 None 1 false false;
    example_status 2 None 1 false false;
    example_status 3 None 2 false false ].

Definition status_world (fails : nat -> bool) : world :=
  mkWorld [] sibling_statuses [] [] [] 1000 0%Z 0 fails.

(** The seed of the weekly example with one backlog link. *)
Definition linked_seed_world (fails : nat -> bool) : world :=
  mkWorld weekly_seed_tasks [] [TaskBacklog.mk 50 1 60 false false] [] []
    1000 0%Z 0 fails.

(** The database rejects the second write statement. *)
Definition second_write_fails (n : nat) : bool := Nat.eqb n 1.

(** ** Sequences of saves and of updates by primary key *)

(** The effect of a sequence of [task.save()] calls that skip the hook. *)
Definition after_saves (updates : list Task.t) (w : world) : world :=
  foldl (fun w u =>
           with_task_table (upsert Task.id u (task_table w))
             (with_statements (S (statements w)) w))
        w updates.


(** The update that applies to a row, if any. *)
Definition patch {A} (pk : A -> uuid) (updates : list A) (r : A) : A :=
  default r (head (filter (fun u => bool_decide (pk u = pk r)) updates)).

(** ** Tactics for tables given row by row *)

(** Membership in a table given row by row. *)
Ltac solve_elem_of := vm_compute; repeat constructor.

(** Well-formedness of a table given row by row. *)
Ltac solve_well_formed :=
  split_and!;
  [ unfold pk_unique; by apply (bool_decide_unpack _)
  | unfold acyclic; repeat (apply Forall_cons; split; [simpl; try done; lia|]);
    by apply Forall_nil
  | unfold ranked_below; repeat (apply Forall_cons; split; [simpl; lia|]);
    by apply Forall_nil ].

(** ** Descendants and ancestors of a task *)

(** Rows hanging below the row of key [top] through rows that all satisfy
    [keep]. *)
Inductive descends {A} (pk : A -> uuid) (parent : A -> option uuid)
    (keep : A -> Prop) (table : list A) (top : uuid) : A -> Prop :=
  | descends_child x :
      x ∈ table -> parent x = Some top -> keep x ->
      descends pk parent keep table top x
  | descends_below t x :
      descends pk parent keep table top t ->
      x ∈ table -> parent x = Some (pk t) -> keep x ->
      descends pk parent keep table top x.

(** The row-local part of the conflict test on start dates. *)
Definition started_conflicts (d : datetime) (client : option uuid)
    (x : Task.t) : Prop :=
  (exists s, Task.started x = Some s /\ (d < Sql.date_trunc_minute s)%Z)
  /\ Task.is_deleted x = false
  /\ (exists c, client = Some c /\ Task.client x = Some c).

(** The chain of ancestors of a task, parent first: it stops at a task that
    has no parent, or whose parent is not stored. *)
Inductive task_ancestors (table : list Task.t) : Task.t -> list Task.t -> Prop :=
  | task_ancestors_stop r :
      (forall a, a ∈ table -> Task.parent_task r <> Some (Task.id a)) ->
      task_ancestors table r []
  | task_ancestors_up r a chain :
      a ∈ table -> Task.parent_task r = Some (Task.id a) ->
      task_ancestors table a chain ->
      task_ancestors table r (a :: chain).

(** [Task.get_task_level] ([models.py]). *)
Definition get_task_level (levels : nat) (table : list Task.t) (self : Task.t)
    : option string :=
  ancestors ← TaskQueries.get_ancestors levels table self;
  let orders :=
    reverse (fmap (fun r => TaskStatusQueries.str_int (Task.order r)) ancestors) in
  Some (TaskStatusQueries.join_dot (removelast orders)).

(** [get_only_subtasks] ([utils.py]): the rows of the branch for which
    [next((x for x in tasks if x.parent_task_id == task.id), None)] finds
    nothing. *)
Definition get_only_subtasks (levels : nat) (table : list Task.t)
    (instance : Task.t) : option (list Task.t) :=
  tasks ← TaskQueries.get_child_branch levels table instance;
  Some (filter
          (fun task =>
             let child_task :=
               head (filter
                       (fun x => bool_decide (Task.parent_task x = Some (Task.id task)))
                       tasks) in
             (* if child_task: continue *)
             negb (bool_decide (is_Some child_task)))
          tasks).

(** [parent_task.task_set.all()]: the reverse relation goes through the
    default manager. *)
Definition task_set (table : list Task.t) (parent_task : uuid) : list Task.t :=
  filter (fun r => bool_decide (Task.parent_task r = Some parent_task))
    (task_objects table).

(** [get_all_tasks] ([api/utils.py]) appends to the list it is given; [depth]
    is the number of Python frames still available.  The result is the list
    as the call leaves it, and the exception it raised, if any. *)
Fixpoint get_all_tasks (depth : nat) (table : list Task.t) (parent_task : uuid)
    (all_tasks : list Task.t) : list Task.t * option exn :=
  match depth with
  | O => (all_tasks, Some RecursionError)
  | S d =>
      foldl
        (fun state task =>
           match state.2 with
           | Some e => state
           | None => get_all_tasks d table (Task.id task) (state.1 ++ [task])
           end)
        (all_tasks, None)
        (task_set table parent_task)
  end.

(** A deleted root of order 3, its template child of order 1 and a
    grandchild of order 2. *)
Definition hidden_ancestor_tasks : list Task.t :=
  [ example_task 1 None 3 None None true false;
    example_task 2 (Some 1) 1 None None false true;
    example_task 3 (Some 2) 2 None None false false ].

(** A root with two children, the second of which has a child of its own. *)
Definition two_leaf_tasks : list Task.t :=
  [ example_task 1 None 1 None None false false;
    example_task 2 (Some 1) 1 None None false false;
    example_task 3 (Some 1) 2 None None false false;
    example_task 4 (Some 3) 1 None None false false ].

(** What the default manager shows. *)
Definition visible_task (r : Task.t) : Prop :=
  Task.is_deleted r = false /\ Task._template r = false.

(** ** Order rebase of task statuses, date rebase of a project *)

(** The rows [rebase_task_status] renumbers: the visible statuses of the
    scope whose order is at least the target, the instance apart. *)
Definition shifted_status_sibling (table : list TaskStatus.t)
    (instance : TaskStatus.t) (order : Z) (project client : option uuid)
    (r : TaskStatus.t) : Prop :=
  r ∈ table
  /\ TaskStatus.is_deleted r = false /\ TaskStatus._template r = false
  /\ TaskStatus.parent r = TaskStatus.parent instance
  /\ (order <= TaskStatus.order r)%Z
  /\ TaskStatus.project r = project
  /\ TaskStatus.client r = client
  /\ TaskStatus.id r <> TaskStatus.id instance.

(** The effect of a sequence of [task_status.save()] calls that the hook
    leaves alone. *)
Definition after_status_saves (updates : list TaskStatus.t) (w : world) : world :=
  foldl (fun w u =>
           with_task_status_table (upsert TaskStatus.id u (task_status_table w))
             (with_statements (S (statements w)) w))
        w updates.

(** [rebase_the_project_dates] ([api/utils.py]); a [datetime] is always
    truthy, so [if task.started] and [if task.deadline] test for [None]. *)
Definition rebase_the_project_dates (project : Project.t)
    (difference : timedelta) : M unit :=
  w <- get_world ;;
  let tasks_to_update :=
    fmap
      (fun task =>
         let task :=
           match Task.started task with
           | Some started => Task.set_started (Some (started + difference)%Z) task
           | None => task
           end in
         match Task.deadline task with
         | Some deadline => Task.set_deadline (Some (deadline + difference)%Z) task
         | None => task
         end)
      (filter
         (fun r => Sql.orm_eq (Task.project r) (Some (Project.id project))
                   && bool_decide (is_Some (Task.started r)))
         (task_objects (task_table w))) in
  bulk_update_dates tasks_to_update.

(** Two tasks of project 100, one from 10:00 to 12:00 and one without start,
    and a task of another project. *)
Definition project_dates_tasks : list Task.t :=
  [ example_task 1 None 1 (Some at_10) (Some at_12) false false;
    example_task 2 None 2 None (Some at_12) false false;
    Task.set_project (Some 200)
      (example_task 3 None 3 (Some at_10) (Some at_12) false false) ].

(** ** Recurrence: what a run generates *)

(** The instance made for the occurrence [recurrence_dt], as the [count]-th
    one (from zero) and under the key [pk]. *)
Definition instance_for (instance : Task.t) (by_ : string)
    (time_diff : timedelta) (latest_order : Z) (count : nat)
    (recurrence_dt : datetime) (pk : uuid) : Task.t :=
  let new_task :=
    Task.set_parent_task (Some (Task.id instance))
      (Task.set_order (latest_order + Z.of_nat count + 1)%Z
         (Task.set_rrule None
            (Task.set_name
               ("[" +:+ pretty (count + 1) +:+ "] " +:+ Task.name instance)
               (Task.set_id pk instance)))) in
  if String.eqb by_ "deadline" then
    Task.set_started (Some (recurrence_dt - time_diff)%Z)
      (Task.set_deadline (Some recurrence_dt) new_task)
  else
    Task.set_deadline (Some (recurrence_dt + time_diff)%Z)
      (Task.set_started (Some recurrence_dt) new_task).

(** [generated ... k tasks n]: the flat list [tasks] holds, for the
    occurrences number [k + 1], ..., [k + n] in turn, the instance made for
    the occurrence followed by a clone of the sub tasks hung below it. *)
Inductive generated (instance : Task.t) (by_ : string) (time_diff : timedelta)
    (latest_order : Z) (sub_tasks : list SubTasks)
    (dates : nat -> option datetime) : nat -> list Task.t -> nat -> Prop :=
  | generated_nil k :
      generated instance by_ time_diff latest_order sub_tasks dates k [] 0
  | generated_cons k recurrence_dt t below rest n :
      dates (S k) = Some recurrence_dt ->
      t = instance_for instance by_ time_diff latest_order k recurrence_dt (Task.id t) ->
      clone_forest (Task.id t) below sub_tasks ->
      fresh_below (Task.id t) (Task.id t) below ->
      generated instance by_ time_diff latest_order sub_tasks dates (S k) rest n ->
      generated instance by_ time_diff latest_order sub_tasks dates k
        (t :: below ++ rest) (S n).

(** The test on [rule._count] lets the loop go on after [count] instances:
    there is no count, the count is zero, or it is not reached. *)
Definition rule_allows (rule_count : option nat) (count : nat) : Prop :=
  match rule_count with
  | Some c => c = 0 \/ count < c
  | None => True
  end.

(** The order the generated instances continue from. *)
Definition latest_child_order (table : list Task.t) (instance : Task.t) : Z :=
  match
    Sql.first
      (Sql.order_by_desc Task.order
         (filter (fun r => bool_decide (Task.parent_task r = Some (Task.id instance)))
            (task_objects table)))
  with
  | Some t => Task.order t
  | None => 0%Z
  end.

(** The last step of [repeated_task_creator]: the commit, or the plain
    result. *)
Definition finish_generated (commit : bool) (created : Created)
    : M (option Generated) :=
  let '(tasks_objects, task_backlogs_objects, task_resources_objects) := created in
  if commit then
    atomic
      (tasks <- bulk_create_tasks tasks_objects ;;
       task_backlogs <- bulk_create_task_backlogs task_backlogs_objects ;;
       task_resources <- bulk_create_task_resources task_resources_objects ;;
       ret (Some (mkGenerated tasks task_backlogs task_resources)))
  else
    ret (Some (mkGenerated tasks_objects task_backlogs_objects
                 task_resources_objects)).

(** The start and the span that [repeated_task_creator] works with. *)
Definition start_and_span (instance : Task.t) (deadline : datetime)
    : option datetime * option timedelta :=
  match Task.started instance with
  | Some s => (Some s, Some (deadline - s)%Z)
  | None =>
      if truthy_str (Task.duration_unit instance)
         && truthy_int (Task.duration_estimate instance)
      then
        match unit_map (default "" (Task.duration_unit instance))
                       (default 0%Z (Task.duration_estimate instance))
        with
        | Some delta => (Some (deadline - delta)%Z, Some delta)
        | None => (None, None)
        end
      else (None, None)
  end.

(** The children of the seed among the tasks of a run. *)
Definition instances_of (seed : Task.t) (tasks : list Task.t) : list Task.t :=
  filter (fun t => bool_decide (Task.parent_task t = Some (Task.id seed))) tasks.

(** A seed due at 12:00 with an estimate of two units and no start. *)
Definition estimated_seed (duration_unit : string) : Task.t :=
  Task.mk 1 None None None (Some 100) (Some 7) "task" None None None (Some at_12)
    (Some 2%Z) (Some duration_unit) 1 (Some weekly) false false.

(** ** Sprints generated from a sprint meta ([models.py])

    A [date] is a number of days; [timedelta(days=n)] added to a date adds
    [n]. *)

Module SprintMeta.
Record t := mk {
id : uuid;
started : datetime;
sprint_to_generate : nat;
days : Z;
client : option uuid;
is_deleted : bool;
_template : bool
}.
End SprintMeta.

Module Sprint.
Record t := mk {
id : uuid;
sprint_meta : uuid;
start_date : option Z;
end_date : option Z;
client : option uuid;
is_deleted : bool;
_template : bool
}.
End Sprint.

Definition sprint_meta_objects (table : list SprintMeta.t) : list SprintMeta.t :=
  filter (fun r => negb (SprintMeta.is_deleted r) && negb (SprintMeta._template r))
    table.
Definition sprint_objects (table : list Sprint.t) : list Sprint.t :=
  filter (fun r => negb (Sprint.is_deleted r) && negb (Sprint._template r)) table.

(** [instance.started.date()], all datetimes being kept on one time line. *)
Definition datetime_date (dt : datetime) : Z := (dt / day)%Z.

(** [ORDER BY start_date DESC]: PostgreSQL puts the rows without date
    first. *)
Definition later_start (a b : Sprint.t) : Prop :=
  match Sprint.start_date a, Sprint.start_date b with
  | None, _ => True
  | Some _, None => False
  | Some x, Some y => (y <= x)%Z
  end.

#[global] Instance later_start_dec : RelDecision later_start.
Proof.
  intros a b. unfold later_start.
  destruct (Sprint.start_date a), (Sprint.start_date b); apply _.
Defined.

(** What the hook raises: the [ValidationError] of its own, or an exception
    of the interpreter. *)
Inductive sprint_exn :=
  | ValidationError
  | Raised (e : exn).

(** The loop [for sprint in range(sprints_to_generate): Sprint.objects.create(...)];
    the keys are drawn from [next_uuid] on. *)
Fixpoint create_sprints (sprints_to_generate : nat) (instance : SprintMeta.t)
    (last_date : Z) (next_uuid : uuid) : list Sprint.t :=
  match sprints_to_generate with
  | O => []
  | S n =>
      Sprint.mk next_uuid (SprintMeta.id instance) (Some last_date)
        (Some (last_date + (SprintMeta.days instance - 1))%Z)
        (SprintMeta.client instance) false false
      :: create_sprints n instance (last_date + SprintMeta.days instance)%Z
           (S next_uuid)
  end.

(** [create_sprints_from_sprint_meta], the [post_save] hook of [SprintMeta]:
    [metas] and [sprints] are the two tables once the instance is saved; the
    result is the list of the sprints the hook inserts, writes being taken to
    succeed. *)
Definition create_sprints_from_sprint_meta (metas : list SprintMeta.t)
    (sprints : list Sprint.t) (next_uuid : uuid) (no_sprint_meta_signal : bool)
    (instance : SprintMeta.t) : sprint_exn + list Sprint.t :=
  if no_sprint_meta_signal then inr [] else
  let before_updation :=
    Sql.first
      (filter (fun r => bool_decide (SprintMeta.id r = SprintMeta.id instance))
         (sprint_meta_objects metas)) in
  let current_sprints :=
    merge_sort later_start
      (filter (fun r => bool_decide (Sprint.sprint_meta r = SprintMeta.id instance))
         (sprint_objects sprints)) in
  let sprint_meta_date := datetime_date (SprintMeta.started instance) in
  let days := SprintMeta.days instance in
  let sprints_to_generate := SprintMeta.sprint_to_generate instance in
  let count := length current_sprints in
  match before_updation with
  | Some _ =>
      if bool_decide (sprints_to_generate < count) then inl ValidationError
      else if bool_decide (count < sprints_to_generate) then
        let sprints_to_generate := sprints_to_generate - count in
        let last_date :=
          match Sql.first current_sprints with
          | Some s => Sprint.start_date s
          | None => Some sprint_meta_date
          end in
        (* if current_sprints.count(): last_date += timedelta(days=days) *)
        match last_date with
        | Some d =>
            inr (create_sprints sprints_to_generate instance
                   (if bool_decide (count <> 0) then (d + days)%Z else d)
                   next_uuid)
        | None => inl (Raised TypeError)
        end
      else inr []
  | None =>
      inr (create_sprints sprints_to_generate instance sprint_meta_date next_uuid)
  end.

(** The visible sprints of a sprint meta, as the hook counts them. *)
Definition current_sprints (sprints : list Sprint.t) (instance : SprintMeta.t)
    : list Sprint.t :=
  filter (fun r => bool_decide (Sprint.sprint_meta r = SprintMeta.id instance))
    (sprint_objects sprints).

(** The sprint meta is stored and visible. *)
Definition stored_visible (metas : list SprintMeta.t) (instance : SprintMeta.t)
    : Prop :=
  exists r, r ∈ metas /\ SprintMeta.id r = SprintMeta.id instance
            /\ SprintMeta.is_deleted r = false /\ SprintMeta._template r = false.

(** A sprint meta of three sprints of 14 days from day 100, and its first
    sprint. *)
Definition example_sprint_meta : SprintMeta.t :=
  SprintMeta.mk 1 (100 * day)%Z 3 14 (Some 7) false false.
Definition example_sprint : Sprint.t :=
  Sprint.mk 10 1 (Some 100%Z) (Some 113%Z) (Some 7) false false.

(** ** Cloning a task: the steps of [duplicate_task_v2_for_project] *)

(** A task that [duplicate_task_v2_for_project] clones without error: it is
    stored; its status, if any, is stored; its dependency and its predecessor
    are absent or the task itself; its parent, if any, is stored and is such
    a task. *)
Inductive clonable (tasks : list Task.t) (statuses : list TaskStatus.t)
    : Task.t -> Prop :=
  | clonable_task task :
      task ∈ tasks ->
      (forall sid, Task.status task = Some sid ->
                   sid ∈ TaskStatus.id <$> statuses) ->
      (Task.dependency task = None \/ Task.dependency task = Some (Task.id task)) ->
      (Task.predecessor task = None \/ Task.predecessor task = Some (Task.id task)) ->
      (forall p, Task.parent_task task = Some p ->
         exists parent, parent ∈ tasks /\ Task.id parent = p
                        /\ clonable tasks statuses parent) ->
      clonable tasks statuses task.

(** The dates of a clone: kept at the same distance from the start of the
    project. *)
Definition moved_date (old_project_start_date : option datetime)
    (new_project : Project.t) (v : option datetime) : option datetime :=
  match old_project_start_date, Project.started new_project, v with
  | Some old_start, Some new_start, Some x => Some (new_start + (x - old_start))%Z
  | _, _, _ => v
  end.

(** The copy made at the top of [duplicate_task_v2_for_project], before the
    related rows are looked at. *)
Definition flat_clone (pk : uuid) (request_client : option uuid) (task : Task.t)
    (new_project : Project.t) (old_project_start_date : option datetime)
    (_template : bool) : Task.t :=
  let new_task :=
    Task.set_client request_client
      (Task.set__template _template
         (Task.set_project (Some (Project.id new_project))
            (Task.set_id pk task))) in
  let new_task :=
    Task.set_status_assigned_date
      (moved_date old_project_start_date new_project
         (Task.status_assigned_date new_task))
      new_task in
  let new_task :=
    Task.set_started
      (moved_date old_project_start_date new_project (Task.started new_task))
      new_task in
  Task.set_deadline
    (moved_date old_project_start_date new_project (Task.deadline new_task))
    new_task.

(** [if new_task.status: ...]. *)
Definition status_step (request_client : option uuid) (new_project : Project.t)
    (_template : bool) (old_task_status_id : option uuid) (new_task : Task.t)
    (records : Records) : M (Task.t * Records) :=
  match old_task_status_id with
  | None => ret (new_task, records)
  | Some sid =>
      status <- related_task_status sid ;;
      match dict_get sid (task_status_to_create records) with
      | Some new_task_status =>
          ret (Task.set_status (Some (TaskStatus.id new_task_status)) new_task,
               records)
      | None =>
          spk <- uuid4 ;;
          let new_task_status :=
            TaskStatus.set_client request_client
              (TaskStatus.set__template _template
                 (TaskStatus.set_project (Some (Project.id new_project))
                    (TaskStatus.set_id spk status))) in
          ret (Task.set_status (Some spk) new_task,
               mkRecords
                 (dict_set sid new_task_status (task_status_to_create records))
                 (tasks_to_create records))
      end
  end.

(** [if new_task.parent_task: ...]; [clone] is the recursive call. *)
Definition parent_step (clone : Records -> Task.t -> M (Task.t * Records))
    (pk old_task_id : uuid) (old_task_parent_task_id : option uuid)
    (new_task : Task.t) (records : Records) : M (Task.t * Records) :=
  match old_task_parent_task_id with
  | None => ret (new_task, records)
  | Some p =>
      related <- related_task p ;;
      if bool_decide (p = old_task_id)
      then ret (Task.set_parent_task (Some pk) new_task, records)
      else
        match dict_get p (tasks_to_create records) with
        | Some parent_task =>
            ret (Task.set_parent_task (Some (Task.id parent_task)) new_task,
                 records)
        | None =>
            c <- clone records related ;;
            ret (Task.set_parent_task (Some (Task.id c.1)) new_task, c.2)
        end
  end.

(** [if new_task.dependency: ...] and [if new_task.predecessor: ...]: a
    reference to another task reads a name that is not bound. *)
Definition self_reference_step (set : option uuid -> Task.t -> Task.t)
    (pk old_task_id : uuid) (old_reference : option uuid) (new_task : Task.t)
    (records : Records) : M Task.t :=
  match old_reference with
  | None => ret new_task
  | Some target =>
      related <- related_task target ;;
      if bool_decide (target = old_task_id)
      then ret (set (Some pk) new_task)
      else
        let parent_task := dict_get target (tasks_to_create records) in
        raise UnboundLocalError
  end.

(** Task 3 is a child of task 2, itself a child of task 1; tasks 2 and 3 have
    status 50, and task 3 depends on itself. *)
Definition chained_tasks : list Task.t :=
  [ example_task 1 None 1 None None false false;
    Task.set_status (Some 50) (example_task 2 (Some 1) 1 (Some 500%Z) None false false);
    Task.set_dependency (Some 3)
      (Task.set_status (Some 50) (example_task 3 (Some 2) 1 None None false false)) ].

Definition chained_world : world :=
  mkWorld chained_tasks [example_status 50 None 1 false false] [] [] [] 1000 0%Z 0
    (fun _ => false).

(** ** The tasks of a status, in tree order ([models.py]) *)

(** One element of the [path] column: the row [(n.order, n.id)]. *)
Definition path_entry (n : Task.t) : Z * uuid := (Task.order n, Task.id n).

(** PostgreSQL's order on rows, field by field, and on arrays of rows,
    element by element, an array before the arrays it is a prefix of. *)
Definition entry_lt (a b : Z * uuid) : Prop :=
  (a.1 < b.1)%Z \/ (a.1 = b.1 /\ a.2 < b.2).

Fixpoint path_le (p q : list (Z * uuid)) : Prop :=
  match p, q with
  | [], _ => True
  | _ :: _, [] => False
  | a :: p, b :: q => entry_lt a b \/ (a = b /\ path_le p q)
  end.

#[global] Instance entry_lt_dec : RelDecision entry_lt.
Proof. intros a b. unfold entry_lt. apply _. Defined.

#[global] Instance path_le_dec : RelDecision path_le.
Proof.
  intros p. induction p as [|a p IH]; intros [|b q]; simpl; apply _.
Defined.

(** [ORDER BY path] on the rows of the recursive query. *)
Definition by_path (a b : Task.t * list (Z * uuid)) : Prop := path_le a.2 b.2.

#[global] Instance by_path_dec : RelDecision by_path.
Proof. intros a b. unfold by_path. apply _. Defined.

(** [Task.get_all_tasks_of_a_status] without [owner].  A row of the recursive
    query is a task with its [path]; the [depth] column is not read. *)
Definition get_all_tasks_of_a_status (levels : nat) (table : list Task.t)
    (project_id task_status_id : uuid) : option (list Task.t) :=
  let anchor :=
    (fun n => (n, [path_entry n]))
      <$> filter (fun n => bool_decide (Task.parent_task n = None)
                           && bool_decide (Task.project n = Some project_id)
                           && negb (Task._template n)
                           && negb (Task.is_deleted n))
            table in
  let step (working : list (Task.t * list (Z * uuid))) :=
    r ← working;
    (fun n => (n, r.2 ++ [path_entry n]))
      <$> filter (fun n => bool_decide (Task.parent_task n = Some (Task.id r.1))
                           && bool_decide (Task.project n = Some project_id)
                           && negb (Task.is_deleted n)
                           && negb (Task._template n))
            table in
  tasks ← Sql.with_recursive step levels anchor;
  Some (fst <$> merge_sort by_path
                  (filter (fun r => bool_decide (Task.status r.1 = Some task_status_id))
                     tasks)).

(** A task of the project that is neither deleted nor a template. *)
Definition shown (project_id : uuid) (n : Task.t) : Prop :=
  Task.project n = Some project_id
  /\ Task.is_deleted n = false /\ Task._template n = false.

(** The tasks reached from a top-level task of the project through shown
    tasks only, each with the orders and keys met on the way down. *)
Inductive in_project_tree (table : list Task.t) (project_id : uuid)
    : Task.t -> list (Z * uuid) -> Prop :=
  | in_project_tree_root n :
      n ∈ table -> Task.parent_task n = None -> shown project_id n ->
      in_project_tree table project_id n [path_entry n]
  | in_project_tree_child t path n :
      in_project_tree table project_id t path ->
      n ∈ table -> Task.parent_task n = Some (Task.id t) -> shown project_id n ->
      in_project_tree table project_id n (path ++ [path_entry n]).

(** [a] comes before [b] in [rows]. *)
Definition comes_before {A} (rows : list A) (a b : A) : Prop :=
  exists l1 l2 l3, rows = l1 ++ a :: l2 ++ b :: l3.

(** Project 100 on a board: task 1 (order 2) with children 3 and 4, task 2
    (order 1) with child 5 of another project, and task 7 below the deleted
    task 6.  Tasks 1, 3, 4, 2 and 7 have status 50. *)
Definition board_tasks : list Task.t :=
  [ Task.set_status (Some 50) (example_task 1 None 2 None None false false);
    Task.set_status (Some 50) (example_task 2 None 1 None None false false);
    Task.set_status (Some 50) (example_task 3 (Some 1) 2 None None false false);
    Task.set_status (Some 50) (example_task 4 (Some 1) 1 None None false false);
    Task.set_project (Some 101)
      (Task.set_status (Some 50) (example_task 5 (Some 2) 1 None None false false));
    example_task 6 None 3 None None true false;
    Task.set_status (Some 50) (example_task 7 (Some 6) 1 None None false false) ].

(** * Facts about the query layer *)

Section EngineFacts.
Context {A : Type}.
Implicit Types (step : list A -> list A) (on : A -> A -> bool).

Lemma with_recursive_nil step levels : Sql.with_recursive step levels [] = Some [].
Proof. by destruct levels. Qed.

Lemma with_recursive_cons step levels x working :
  Sql.with_recursive step (S levels) (x :: working)
  = app (x :: working) <$> Sql.with_recursive step levels (step (x :: working)).
Proof. done. Qed.

(** A result does not depend on the bound that produced it. *)
Lemma with_recursive_more step n m working rows :
  Sql.with_recursive step n working = Some rows -> n <= m ->
  Sql.with_recursive step m working = Some rows.
Proof.
  revert m working rows.
  induction n as [|n IH]; intros m working rows Hrun Hle.
  - destruct working; simplify_eq/=. apply with_recursive_nil.
  - destruct working as [|x working]; simplify_eq/=; [apply with_recursive_nil|].
    destruct m as [|m]; [lia|]. simpl.
    destruct (Sql.with_recursive step n (step (x :: working))) as [r|] eqn:E;
      simplify_eq/=.
    by rewrite (IH m _ r E) by lia.
Qed.

(** Termination: if a measure bounded by [bound] grows along the recursive
    term, [bound] levels are enough. *)
Lemma with_recursive_terminates step (measure : A -> nat) bound :
  (forall working x, x ∈ step working ->
      measure x < bound /\ exists t, t ∈ working /\ measure t < measure x) ->
  forall levels k working,
    (forall x, x ∈ working -> k <= measure x < bound) ->
    bound <= k + levels ->
    is_Some (Sql.with_recursive step levels working).
Proof.
  intros Hstep levels.
  induction levels as [|n IH]; intros k working Hk Hb.
  - destruct working as [|x working]; [by eexists|].
    specialize (Hk x (list_elem_of_here _ _)). lia.
  - destruct working as [|x working]; [by eexists|]. simpl.
    destruct (IH (S k) (step (x :: working))) as [rows Hrows]; [|lia|].
    + intros y Hy. destruct (Hstep _ _ Hy) as (Hlt & t & Ht & Hm).
      specialize (Hk t Ht). lia.
    + rewrite Hrows. by eexists.
Qed.

Lemma elem_of_join on (table working : list A) x :
  x ∈ Sql.join on table working <->
  exists t, t ∈ working /\ x ∈ table /\ on x t = true.
Proof.
  unfold Sql.join. rewrite list_elem_of_bind. split.
  - intros (t & Hx & Ht). apply list_elem_of_filter in Hx as [Hon Hx].
    exists t. split_and!; try done. by apply Is_true_true.
  - intros (t & Ht & Hx & Hon). exists t. split; [|done].
    apply list_elem_of_filter. split; [|done]. by apply Is_true_true.
Qed.

Lemma join_nil on (table : list A) : Sql.join on table [] = [].
Proof. done. Qed.

Lemma elem_of_iter_join on (table anchor : list A) n x :
  x ∈ Nat.iter n (Sql.join on table) anchor <-> linked on table anchor n x.
Proof.
  revert x. induction n as [|n IH]; intros x; simpl.
  - split; [by constructor|by inversion 1].
  - rewrite elem_of_join. split.
    + intros (t & Ht & Hx & Hon). apply IH in Ht. by econstructor.
    + inversion 1; subst. eexists. split_and!; try done. by apply IH.
Qed.

Lemma iter_join_nil on (table : list A) n :
  Nat.iter n (Sql.join on table) [] = [].
Proof. induction n as [|n IH]; simpl; [done|]. by rewrite IH. Qed.

(** The rows of a recursive query are the rows of all its levels. *)
Lemma elem_of_with_recursive on (table : list A) levels working rows x :
  Sql.with_recursive (Sql.join on table) levels working = Some rows ->
  x ∈ rows <-> exists n, x ∈ Nat.iter n (Sql.join on table) working.
Proof.
  revert working rows.
  induction levels as [|l IH]; intros working rows Hrun.
  - destruct working; simplify_eq/=. split; [by inversion 1|].
    intros [n Hn]. by rewrite iter_join_nil in Hn.
  - destruct working as [|w0 working]; simplify_eq/=.
    { split; [by inversion 1|].
      intros [n Hn]. by rewrite iter_join_nil in Hn. }
    destruct (Sql.with_recursive _ l _) as [r|] eqn:E; simplify_eq/=.
    change (x ∈ (w0 :: working) ++ r <->
            exists n, x ∈ Nat.iter n (Sql.join on table) (w0 :: working)).
    rewrite elem_of_app, (IH _ _ E). split.
    + intros [Hx|[n Hn]]; [by exists 0|]. exists (S n).
      by rewrite Nat.iter_succ_r.
    + intros [[|n] Hn]; [by left|]. right. exists n.
      by rewrite Nat.iter_succ_r in Hn.
Qed.
End EngineFacts.

Section Descent.
Context {A : Type} (pk : A -> uuid) (parent : A -> option uuid).
Context (on : A -> A -> bool) (table : list A).
Context (rank : uuid -> nat) (bound : nat).
Hypothesis on_parent : forall x t, on x t = true -> parent x = Some (pk t).
Hypothesis acyclic :
  forall r p, r ∈ table -> parent r = Some p -> rank p < rank (pk r).
Hypothesis bounded : forall r, r ∈ table -> rank (pk r) < bound.

(** A downward recursive query over an acyclic table terminates. *)
Lemma descent_terminates anchor :
  (forall a, a ∈ anchor -> a ∈ table) ->
  is_Some (Sql.with_recursive (Sql.join on table) bound anchor).
Proof.
  intros Hanchor.
  apply (with_recursive_terminates _ (fun x => rank (pk x)) bound) with (k := 0).
  - intros working x (t & Ht & Hx & Hon)%elem_of_join. split; [by apply bounded|].
    exists t. split; [done|]. apply acyclic; [done|]. by apply on_parent.
  - intros x Hx. split; [lia|]. by apply bounded, Hanchor.
  - lia.
Qed.

(** A row [n] levels below the anchor ranks at least [n] above it. *)
Lemma linked_rank anchor self n x :
  (forall a, a ∈ anchor -> pk a = self) ->
  linked on table anchor n x -> rank self + n <= rank (pk x).
Proof.
  intros Hanchor. induction 1 as [x Hx|n t x _ IH Hx Hon].
  - rewrite (Hanchor _ Hx). lia.
  - pose proof (acyclic _ _ Hx (on_parent _ _ Hon)). lia.
Qed.
End Descent.

Lemma filter_none {A} (P : A -> Prop) `{forall x, Decision (P x)} (l : list A) :
  (forall x, x ∈ l -> ~ P x) -> filter P l = [].
Proof.
  induction l as [|a l IH]; intros Hl; [done|].
  rewrite filter_cons_False by (apply Hl; left).
  apply IH. intros x Hx. apply Hl. by right.
Qed.

(** The anchor of a query by primary key has at most one row. *)
Lemma filter_pk_length {A} (pk : A -> uuid) (P : A -> bool) (table : list A) k :
  pk_unique pk table ->
  length (filter (fun r => bool_decide (pk r = k) && P r) table) <= 1.
Proof.
  unfold pk_unique. induction table as [|r table IH]; simpl; [lia|].
  intros [Hr Hnd]%NoDup_cons. rewrite filter_cons.
  destruct (decide _) as [Hk|_]; [|by apply IH].
  apply andb_True in Hk as [Hk%bool_decide_unpack _]. simpl.
  rewrite filter_none; [simpl; lia|].
  intros x Hx [Hxk%bool_decide_unpack _]%andb_True.
  apply Hr. rewrite Hk, <- Hxk. by apply list_elem_of_fmap_2.
Qed.

Lemma filter_pk_length' {A} (pk : A -> uuid) (table : list A) k :
  pk_unique pk table ->
  length (filter (fun r => bool_decide (pk r = k)) table) <= 1.
Proof.
  intros Hu. pose proof (filter_pk_length pk (fun _ => true) table k Hu) as H.
  erewrite list_filter_iff; [exact H|]. intros x; simpl.
  rewrite andb_True. naive_solver.
Qed.

(** Behind the anchor row come the rows of the levels one and beyond. *)
Lemma elem_of_tail_from_1 {A} (on : A -> A -> bool) table levels anchor rows x :
  Sql.with_recursive (Sql.join on table) levels anchor = Some rows ->
  length anchor <= 1 ->
  x ∈ Sql.tail_from_1 rows <-> exists n, linked on table anchor (S n) x.
Proof.
  intros Hrun Hlen. unfold Sql.tail_from_1.
  destruct anchor as [|a [|b anchor]]; simpl in Hlen; [| |lia].
  - destruct levels; simplify_eq/=; (split; [by inversion 1|]);
      intros [n Hn%elem_of_iter_join]; by rewrite iter_join_nil in Hn.
  - destruct levels as [|l]; simplify_eq/=.
    destruct (Sql.with_recursive _ l _) as [r|] eqn:E; simplify_eq/=.
    rewrite drop_0, (elem_of_with_recursive _ _ _ _ _ _ E).
    split; intros [n Hn]; exists n.
    + apply elem_of_iter_join. by rewrite Nat.iter_succ_r.
    + apply elem_of_iter_join in Hn. by rewrite Nat.iter_succ_r in Hn.
Qed.

Section WellFormed.
Context {A : Type} (pk : A -> uuid) (parent : A -> option uuid).
Context (rank : uuid -> nat) (bound : nat) (table : list A).

Lemma acyclic_elim r p :
  acyclic pk parent rank table -> r ∈ table -> parent r = Some p ->
  rank p < rank (pk r).
Proof.
  unfold acyclic. rewrite Forall_forall. intros H Hr Hp.
  specialize (H r Hr). by rewrite Hp in H.
Qed.

Lemma ranked_below_elim r :
  ranked_below pk rank bound table -> r ∈ table -> rank (pk r) < bound.
Proof. unfold ranked_below. rewrite Forall_forall. auto. Qed.
End WellFormed.

(** * Descendant branch *)

Section TaskStatusBranch.
Import TaskStatusQueries.

(** [TaskStatus.get_child_branch] filters at every level. *)
Lemma task_status_branch_live levels table self rows x :
  get_child_branch levels table self = Some rows ->
  x ∈ rows ->
  TaskStatus.is_deleted x = false /\ TaskStatus._template x = false.
Proof.
  unfold get_child_branch, child_step. intros Hrun Hx.
  destruct (Sql.with_recursive _ _ _) as [all|] eqn:E; simplify_eq/=.
  assert (x ∈ all) as Hall.
  { unfold Sql.tail_from_1 in Hx. by apply subseteq_drop in Hx. }
  apply (elem_of_with_recursive _ _ _ _ _ _ E) in Hall as [n Hn].
  assert (live x = true) as Hlive.
  { apply elem_of_iter_join in Hn. inversion Hn as [? Ha|? t ? _ _ Hon]; subst.
    - unfold Sql.order_by in Ha. rewrite merge_sort_Permutation in Ha.
      apply list_elem_of_filter in Ha as [Ha _].
      by apply andb_True in Ha as [_ ?%Is_true_true].
    - by apply andb_true_iff in Hon as [_ ?]. }
  unfold live in Hlive. apply andb_true_iff in Hlive as [H1 H2].
  by apply negb_true_iff in H1, H2.
Qed.

(** ... and never returns the node it starts from. *)
Lemma task_status_branch_not_self rank bound levels table self rows x :
  well_formed_task_statuses rank bound table ->
  get_child_branch levels table self = Some rows ->
  x ∈ rows -> TaskStatus.id x <> TaskStatus.id self.
Proof.
  unfold get_child_branch, child_step. intros (Hu & Hacyc & _) Hrun Hx.
  destruct (Sql.with_recursive _ _ _) as [all|] eqn:E; simplify_eq/=.
  apply (elem_of_tail_from_1 _ _ _ _ _ _ E) in Hx as [n Hn].
  - enough (rank (TaskStatus.id self) + S n <= rank (TaskStatus.id x))
      by (intros Heq; rewrite Heq in *; lia).
    eapply (linked_rank TaskStatus.id TaskStatus.parent);
      [| intros r p; by apply acyclic_elim | | exact Hn].
    + by intros y t [Hp%bool_decide_eq_true _]%andb_true_iff.
    + intros a Ha. unfold Sql.order_by in Ha. rewrite merge_sort_Permutation in Ha.
      apply list_elem_of_filter in Ha as [Ha _].
      by apply andb_True in Ha as [?%bool_decide_unpack _].
  - unfold Sql.order_by. rewrite merge_sort_Permutation.
    by apply filter_pk_length.
Qed.
End TaskStatusBranch.



Section TaskBranch.
Import TaskQueries.

Lemma task_branch_terminates rank bound table self :
  well_formed_tasks rank bound table ->
  is_Some (get_child_branch bound table self).
Proof.
  intros (Hu & Hacyc & Hb). unfold get_child_branch, child_step.
  destruct (descent_terminates Task.id Task.parent_task
              (fun tk t => bool_decide (Task.parent_task tk = Some (Task.id t))
                           && negb (Task.is_deleted tk))
              table rank bound) with
    (anchor := filter (fun r => bool_decide (Task.id r = Task.id self)) table)
    as [rows Hrows].
  - by intros x t [Hp%bool_decide_eq_true _]%andb_true_iff.
  - intros r p. by apply acyclic_elim.
  - intros r. by apply ranked_below_elim.
  - by intros a [_ Ha]%list_elem_of_filter.
  - rewrite Hrows. by eexists.
Qed.

(** [Task.get_child_branch] drops deleted rows at every level ... *)
Lemma task_branch_not_deleted levels table self rows x :
  pk_unique Task.id table ->
  get_child_branch levels table self = Some rows ->
  x ∈ rows -> Task.is_deleted x = false.
Proof.
  unfold get_child_branch, child_step. intros Hu Hrun Hx.
  destruct (Sql.with_recursive _ _ _) as [all|] eqn:E; simplify_eq/=.
  apply (elem_of_tail_from_1 _ _ _ _ _ _ E) in Hx as [n Hn];
    [|by apply filter_pk_length'].
  inversion Hn as [|? t ? _ _ Hon]; subst.
  apply andb_true_iff in Hon as [_ Hd]. by apply negb_true_iff in Hd.
Qed.

(** ... and never returns the node it starts from. *)
Lemma task_branch_not_self rank bound levels table self rows x :
  well_formed_tasks rank bound table ->
  get_child_branch levels table self = Some rows ->
  x ∈ rows -> Task.id x <> Task.id self.
Proof.
  unfold get_child_branch, child_step. intros (Hu & Hacyc & _) Hrun Hx.
  destruct (Sql.with_recursive _ _ _) as [all|] eqn:E; simplify_eq/=.
  apply (elem_of_tail_from_1 _ _ _ _ _ _ E) in Hx as [n Hn];
    [|by apply filter_pk_length'].
  enough (rank (Task.id self) + S n <= rank (Task.id x))
    by (intros Heq; rewrite Heq in *; lia).
  eapply (linked_rank Task.id Task.parent_task); [| | | exact Hn].
  - by intros y t [Hp%bool_decide_eq_true _]%andb_true_iff.
  - intros r p. by apply acyclic_elim.
  - by intros a [?%bool_decide_unpack _]%list_elem_of_filter.
Qed.
End TaskBranch.

(** C5. GetDescendantBranch is claimed to exclude template nodes for every
    entity kind.  [TaskStatus.get_child_branch] does; [Task.get_child_branch]
    tests [is_deleted] only: below a live root it returns the template child
    and the live grandchild that is reached only through that template,
    where the task-status query over the same shape returns nothing. *)
Theorem C5_task_branch_returns_template_rows :
  let root := example_task 1 None 1 None None false false in
  (Task.id <$>
     default [] (TaskQueries.get_child_branch 3 template_branch_tasks root)
   = [2; 3])
  /\ (exists x,
        x ∈ default [] (TaskQueries.get_child_branch 3 template_branch_tasks root)
        /\ Task._template x = true)
  /\ TaskStatusQueries.get_child_branch 3 template_branch_statuses
       (example_status 1 None 1 false false) = Some [].
Proof.
  split_and!.
  - reflexivity.
  - exists (example_task 2 (Some 1) 1 None None false true). split; [|done].
    vm_compute. left.
  - reflexivity.
Qed.

(** * Conflict detection *)

Lemma date_trunc_minute_lt d x :
  (Sql.date_trunc_minute d < Sql.date_trunc_minute x)%Z
  <-> (d < Sql.date_trunc_minute x)%Z.
Proof.
  unfold Sql.date_trunc_minute, Sql.minute.
  pose proof (Z.mul_div_le d 60000000 eq_refl).
  pose proof (Z.mul_succ_div_gt d 60000000 eq_refl).
  revert H H0. generalize (d / 60000000)%Z (x / 60000000)%Z. lia.
Qed.

Lemma sql_eq_true a b :
  Sql.sql_eq a b = true <-> exists c, b = Some c /\ a = Some c.
Proof.
  destruct a as [x|], b as [y|]; simpl; try (split; [done|by intros (? & ? & ?)]).
  rewrite bool_decide_eq_true. naive_solver.
Qed.

Section ConflictFacts.
Import TaskQueries.
Context (table : list Task.t) (d : datetime) (client : option uuid).

Let on (tk t : Task.t) : bool :=
  bool_decide (Task.parent_task tk = Some (Task.id t))
  && match Task.deadline tk with
     | Some dl => bool_decide (Sql.date_trunc_minute d < Sql.date_trunc_minute dl)%Z
     | None => false
     end
  && negb (Task.is_deleted tk)
  && Sql.sql_eq (Task.client tk) client.

Lemma conflict_on_spec tk t :
  on tk t = true <->
  Task.parent_task tk = Some (Task.id t) /\ deadline_conflicts d client tk.
Proof.
  unfold on, deadline_conflicts.
  rewrite !andb_true_iff, bool_decide_eq_true, negb_true_iff, sql_eq_true.
  destruct (Task.deadline tk) as [dl|].
  - rewrite bool_decide_eq_true, date_trunc_minute_lt. naive_solver.
  - naive_solver.
Qed.

Lemma linked_conflict_chain anchor top n x :
  (forall a, a ∈ anchor -> Task.id a = top) ->
  linked on table anchor (S n) x -> conflict_chain table d client top x.
Proof.
  intros Hanchor. revert x. induction n as [|n IH]; intros x Hx;
    inversion Hx as [|? t ? Ht Hin Hon]; subst;
    apply conflict_on_spec in Hon as [Hp Hc].
  - inversion Ht; subst. apply conflict_child; try done.
    by rewrite Hp, (Hanchor t).
  - eapply conflict_below; eauto.
Qed.

Lemma conflict_chain_linked a top x :
  a ∈ table -> Task.id a = top ->
  conflict_chain table d client top x ->
  exists n, linked on table [a] (S n) x.
Proof.
  intros Ha Hid. induction 1 as [x Hx Hp Hc|t x _ [n IH] Hx Hp Hc].
  - exists 0. econstructor; [by constructor; left|done|].
    apply conflict_on_spec. by rewrite Hid.
  - exists (S n). econstructor; [exact IH|done|]. by apply conflict_on_spec.
Qed.
End ConflictFacts.

Lemma filter_pk_singleton {A} (pk : A -> uuid) (table : list A) k :
  pk_unique pk table -> k ∈ pk <$> table ->
  exists a, a ∈ table /\ pk a = k
            /\ filter (fun r => bool_decide (pk r = k)) table = [a].
Proof.
  intros Hu (a & -> & Ha)%list_elem_of_fmap.
  pose proof (filter_pk_length' pk table (pk a) Hu) as Hlen.
  assert (a ∈ filter (fun r => bool_decide (pk r = pk a)) table) as Hin.
  { apply list_elem_of_filter. split; [|done]. by apply bool_decide_pack. }
  exists a. split_and!; try done.
  destruct (filter _ table) as [|b [|c l]]; simpl in Hlen; [|  |lia].
  - by inversion Hin.
  - apply elem_of_cons in Hin as [->|Hin]; [done|by inversion Hin].
Qed.

(** C2, as amended.  On a well-formed table and for a stored node,
    [get_child_branch_conflict_deadline_tasks] returns a result, whose rows
    are exactly the rows hanging below the node through rows that are all
    non-deleted, of the given client, and due (minute-truncated) strictly
    after the proposed date; it is empty when no child of the node is such a
    row. *)
Theorem C2_conflict_deadline_tasks_follow_conflicting_chains
    rank bound table self d client :
  well_formed_tasks rank bound table ->
  Task.id self ∈ Task.id <$> table ->
  exists rows,
    TaskQueries.get_child_branch_conflict_deadline_tasks bound table self d client
      = Some rows
    /\ (forall x, x ∈ rows <-> conflict_chain table d client (Task.id self) x)
    /\ ((forall x, x ∈ table -> Task.parent_task x = Some (Task.id self) ->
                   ~ deadline_conflicts d client x) -> rows = []).
Proof.
  intros (Hu & Hacyc & Hb) Hself.
  unfold TaskQueries.get_child_branch_conflict_deadline_tasks,
    TaskQueries.conflict_deadline_step.
  destruct (filter_pk_singleton Task.id table (Task.id self) Hu Hself)
    as (a & Ha & Hid & Hanchor).
  rewrite Hanchor.
  match goal with |- context [Sql.join ?f table] => set (on := f) end.
  destruct (descent_terminates Task.id Task.parent_task on table rank bound)
    with (anchor := [a]) as [all Hall].
  { intros x t Hon. by apply (conflict_on_spec d client) in Hon as [? _]. }
  { intros r p. by apply acyclic_elim. }
  { intros r. by apply ranked_below_elim. }
  { by intros ? ->%list_elem_of_singleton. }
  rewrite Hall. eexists. split; [done|].
  assert (forall x, x ∈ Sql.tail_from_1 all
                    <-> conflict_chain table d client (Task.id self) x) as Hchar.
  { intros x. rewrite (elem_of_tail_from_1 _ _ _ _ _ _ Hall) by (simpl; lia).
    split.
    - intros [n Hn]. eapply linked_conflict_chain; [|exact Hn].
      by intros ? ->%list_elem_of_singleton.
    - by apply conflict_chain_linked. }
  split; [done|].
  intros Hnone. destruct (Sql.tail_from_1 all) as [|x l] eqn:E; [done|].
  exfalso. assert (conflict_chain table d client (Task.id self) x) as Hx.
  { apply Hchar. by left. }
  clear -Hx Hnone. induction Hx; [by eapply Hnone|done].
Qed.

Lemma late_grandchild_tasks_well_formed :
  well_formed_tasks (fun i => i) 4 late_grandchild_tasks.
Proof. solve_well_formed. Qed.

Lemma C2_witness :
  exists rows,
    TaskQueries.get_child_branch_conflict_deadline_tasks 4 late_grandchild_tasks
      (example_task 1 None 1 None (Some at_12) false false) at_11 (Some 7)
      = Some rows
    /\ (forall x, x ∈ rows <->
                  conflict_chain late_grandchild_tasks at_11 (Some 7) 1 x)
    /\ rows = [].
Proof.
  destruct (C2_conflict_deadline_tasks_follow_conflicting_chains (fun i => i) 4
              late_grandchild_tasks
              (example_task 1 None 1 None (Some at_12) false false) at_11 (Some 7))
    as (rows & Hrun & Hrows & Hempty).
  - apply late_grandchild_tasks_well_formed.
  - by apply (bool_decide_unpack _).
  - exists rows. split_and!; [done|done|]. apply Hempty.
    intros x Hx Hparent [(dl & Hdl & Hlate) _].
    unfold late_grandchild_tasks in Hx.
    repeat (apply elem_of_cons in Hx as [->|Hx]); simplify_eq/=.
    + vm_compute in Hlate. discriminate.
    + by inversion Hx.
Defined.

(** C2 as stated fails: the grandchild is a descendant, it is due at 12:00,
    after the proposed 11:00, and the query does not return it, because its
    parent, due at 10:00, does not conflict. *)
Lemma C2_counterexample :
  let root := example_task 1 None 1 None (Some at_12) false false in
  let grandchild := example_task 3 (Some 2) 1 None (Some at_12) false false in
  TaskQueries.get_child_branch 4 late_grandchild_tasks root
    = Some [example_task 2 (Some 1) 1 None (Some at_10) false false; grandchild]
  /\ (at_11 < Sql.date_trunc_minute at_12)%Z
  /\ TaskQueries.get_child_branch_conflict_deadline_tasks 4
       late_grandchild_tasks root at_11 (Some 7) = Some [].
Proof. split_and!; reflexivity. Qed.

(** * Ancestors and the dotted label *)

Lemma singleton_of_short {A} (l : list A) a : length l <= 1 -> a ∈ l -> l = [a].
Proof.
  destruct l as [|b [|c l]]; simpl; intros Hlen Hin; [by inversion Hin| |lia].
  by apply list_elem_of_singleton in Hin as ->.
Qed.

Section Ancestors.
Import TaskStatusQueries.
Context (table : list TaskStatus.t).
Hypothesis Hu : pk_unique TaskStatus.id table.

Lemma ancestor_step_up r a :
  a ∈ table -> TaskStatus.parent r = Some (TaskStatus.id a) ->
  live a = true -> ancestor_step table [r] = [a].
Proof.
  intros Ha Hp Hlive. unfold ancestor_step, Sql.join. simpl.
  rewrite app_nil_r. apply singleton_of_short.
  - erewrite list_filter_iff; [apply (filter_pk_length TaskStatus.id live _ (TaskStatus.id a) Hu)|].
    intros x. rewrite Hp, !andb_True, !bool_decide_spec. naive_solver.
  - apply list_elem_of_filter. split; [|done].
    rewrite Hlive, andb_true_r. by apply bool_decide_pack.
Qed.

Lemma ancestor_step_stop r :
  (forall a, a ∈ table -> TaskStatus.parent r = Some (TaskStatus.id a) ->
             live a = false) ->
  ancestor_step table [r] = [].
Proof.
  intros Hstop. unfold ancestor_step, Sql.join. simpl. rewrite app_nil_r.
  apply filter_none. intros a Ha [Hp%bool_decide_unpack Hl%Is_true_true]%andb_True.
  by rewrite (Hstop a Ha Hp) in Hl.
Qed.

(** Level by level, the query walks the chain of live ancestors. *)
Lemma with_recursive_ancestors r chain levels :
  live_ancestors table r chain -> length chain < levels ->
  Sql.with_recursive (ancestor_step table) levels [r] = Some (r :: chain).
Proof.
  intros Hchain. revert levels.
  induction Hchain as [r Hstop|r a chain Ha Hp Hlive _ IH]; intros levels Hlen.
  - destruct levels as [|n]; [simpl in Hlen; lia|].
    rewrite with_recursive_cons, ancestor_step_stop by done.
    by rewrite with_recursive_nil.
  - destruct levels as [|n]; [simpl in Hlen; lia|].
    rewrite with_recursive_cons, (ancestor_step_up r a) by done.
    rewrite IH by (simpl in Hlen; lia). done.
Qed.

(** Every stored row has a chain of live ancestors, no longer than its rank. *)
Lemma live_ancestors_exist rank r :
  acyclic TaskStatus.id TaskStatus.parent rank table -> r ∈ table ->
  exists chain, live_ancestors table r chain
                /\ length chain <= rank (TaskStatus.id r).
Proof.
  intros Hacyc. remember (rank (TaskStatus.id r)) as k eqn:Hk.
  revert r Hk. induction (lt_wf k) as [k _ IH]. intros r -> Hr.
  destruct (decide (Exists (fun a => TaskStatus.parent r = Some (TaskStatus.id a)
                                     /\ live a = true) table)) as [Hex|Hno].
  - apply Exists_exists in Hex as (a & Ha & Hp & Hlive).
    pose proof (acyclic_elim _ _ _ _ _ _ Hacyc Hr Hp) as Hrank.
    destruct (IH _ Hrank a eq_refl Ha) as (chain & Hchain & Hlen).
    exists (a :: chain). split; [by eapply ancestors_up|simpl; lia].
  - exists []. split; [|simpl; lia]. apply ancestors_stop. intros a Ha Hp.
    destruct (live a) eqn:E; [|done]. exfalso. apply Hno, Exists_exists.
    by exists a.
Qed.
End Ancestors.

Lemma join_dot_cons x l :
  TaskStatusQueries.join_dot (x :: l)
  = match l with [] => x | _ :: _ => x +:+ "." +:+ TaskStatusQueries.join_dot l end.
Proof. by destruct l. Qed.

(** What [get_full_order] makes of the rows of [get_ancestors]. *)
Lemma full_order_of_rows (orders : list string) (own : string) :
  let but_last := removelast (orders ++ [own]) in
  (if bool_decide (1 < length but_last)
   then TaskStatusQueries.join_dot but_last
   else default "" (head but_last))
  = TaskStatusQueries.join_dot orders.
Proof.
  simpl. rewrite removelast_last.
  by destruct orders as [|a [|b l]].
Qed.

(** Decimal numerals contain no dot. *)
Lemma pretty_N_go_no_dot x s : has_dot s = false -> has_dot (pretty_N_go x s) = false.
Proof.
  revert s. induction (N.lt_wf_0 x) as [x _ IH]; intros s Hs.
  assert (x = 0 \/ 0 < x)%N as [->|Hpos] by lia.
  - by rewrite pretty_N_go_0.
  - rewrite pretty_N_go_step by done. apply IH; [by apply N.div_lt|].
    simpl. rewrite Hs, orb_false_r. unfold pretty_N_char. by repeat case_match.
Qed.

Lemma str_int_no_dot z : has_dot (TaskStatusQueries.str_int z) = false.
Proof.
  unfold TaskStatusQueries.str_int, pretty, pretty_Z.
  assert (forall p : positive, has_dot (pretty p) = false) as Hpos.
  { intros p. unfold pretty, pretty_positive, pretty, pretty_N.
    case_decide; [done|]. by apply pretty_N_go_no_dot. }
  destruct z as [|p|p]; [done|apply Hpos|]. simpl. apply Hpos.
Qed.

Lemma split_dot_no_dot s : has_dot s = false -> split_dot s = [s].
Proof.
  induction s as [|c s IH]; simpl; [done|].
  intros [Hc Hs]%orb_false_iff. rewrite Hc, (IH Hs). done.
Qed.

Lemma split_dot_app s rest :
  has_dot s = false -> split_dot (s +:+ "." +:+ rest) = s :: split_dot rest.
Proof.
  induction s as [|c s IH]; simpl; [done|].
  intros [Hc Hs]%orb_false_iff. rewrite Hc.
  change (String.append s (String "." rest)) with (s +:+ "." +:+ rest).
  by rewrite (IH Hs).
Qed.

Lemma split_dot_join_dot l :
  l <> [] -> Forall (fun s => has_dot s = false) l ->
  split_dot (TaskStatusQueries.join_dot l) = l.
Proof.
  induction l as [|x l IH]; [done|]. intros _ [Hx Hl]%Forall_cons.
  rewrite join_dot_cons. destruct l as [|y l]; [by apply split_dot_no_dot|].
  rewrite split_dot_app by done. by rewrite IH.
Qed.

(** C9, as amended.  For a stored, live task status with [m] live proper
    ancestors, [get_full_order] returns the orders of those [m] ancestors,
    root first and parent last, joined by dots: the root's order is the first
    segment, the node's own order does not appear, and the label splits into
    exactly [m] segments (it is empty for [m = 0]). *)
Theorem C9_full_order_lists_every_ancestor_root_first
    rank bound table self r :
  well_formed_task_statuses rank bound table ->
  r ∈ table -> TaskStatus.id r = TaskStatus.id self ->
  TaskStatusQueries.live r = true ->
  exists chain label,
    live_ancestors table r chain
    /\ TaskStatusQueries.get_full_order bound table self = Some label
    /\ label = TaskStatusQueries.join_dot
                 (reverse ((fun a => TaskStatusQueries.str_int (TaskStatus.order a))
                             <$> chain))
    /\ (chain = [] -> label = "")
    /\ (chain <> [] ->
          split_dot label
          = reverse ((fun a => TaskStatusQueries.str_int (TaskStatus.order a))
                       <$> chain)
          /\ length (split_dot label) = length chain).
Proof.
  intros (Hu & Hacyc & Hb) Hr Hid Hlive.
  destruct (live_ancestors_exist table rank r Hacyc Hr) as (chain & Hchain & Hlen).
  pose proof (ranked_below_elim _ _ _ _ _ Hb Hr) as Hrank.
  exists chain. eexists. split; [done|].
  unfold TaskStatusQueries.get_full_order, TaskStatusQueries.get_ancestors.
  assert (filter (fun x => bool_decide (TaskStatus.id x = TaskStatus.id self)
                           && TaskStatusQueries.live x) table = [r]) as ->.
  { apply singleton_of_short; [by apply filter_pk_length|].
    apply list_elem_of_filter. split; [|done].
    rewrite Hlive, andb_true_r. by apply bool_decide_pack. }
  rewrite (with_recursive_ancestors table Hu r chain bound Hchain) by lia.
  cbn [mbind option_bind]. rewrite fmap_cons, reverse_cons.
  rewrite (full_order_of_rows _ _). split; [done|]. split; [done|]. split.
  - by intros ->.
  - intros Hne. assert (split_dot
        (TaskStatusQueries.join_dot
           (reverse ((fun a => TaskStatusQueries.str_int (TaskStatus.order a)) <$> chain)))
      = reverse ((fun a => TaskStatusQueries.str_int (TaskStatus.order a)) <$> chain)) as Hsplit.
    { apply split_dot_join_dot.
      - destruct chain; [done|]. rewrite fmap_cons, reverse_cons.
        intros Hnil. by apply app_eq_nil in Hnil as [_ ?].
      - apply Forall_forall. intros s Hs. rewrite elem_of_reverse in Hs.
        apply list_elem_of_fmap in Hs as (a & -> & _). apply str_int_no_dot. }
    split; [done|]. by rewrite Hsplit, length_reverse, length_fmap.
Qed.

Lemma three_level_statuses_well_formed :
  well_formed_task_statuses (fun i => i) 4 three_level_statuses.
Proof. solve_well_formed. Qed.

Lemma C9_witness :
  let node := example_status 3 (Some 2) 2 false false in
  exists chain,
    live_ancestors three_level_statuses node chain
    /\ TaskStatusQueries.get_full_order 4 three_level_statuses node = Some "3.1"
    /\ split_dot "3.1"
       = reverse ((fun a => TaskStatusQueries.str_int (TaskStatus.order a))
                    <$> chain)
    /\ length chain = 2.
Proof.
  destruct (C9_full_order_lists_every_ancestor_root_first (fun i => i) 4
              three_level_statuses (example_status 3 (Some 2) 2 false false)
              (example_status 3 (Some 2) 2 false false))
    as (chain & label & Hchain & Hrun & Hlabel & Hnone & Hsome).
  - apply three_level_statuses_well_formed.
  - solve_elem_of.
  - reflexivity.
  - reflexivity.
  - vm_compute in Hrun. injection Hrun as <-.
    assert (chain <> []) as Hne by (intros ->; by specialize (Hnone eq_refl)).
    destruct (Hsome Hne) as [Hsplit Hlen].
    exists chain. split_and!; [done|done|done|]. by rewrite <- Hlen.
Defined.

(** C9 as stated fails.  The grandchild has one ancestor strictly between
    itself and the root (order 1), so the label of the claim is "1", with one
    segment; the code returns "3.1": two segments, the first being the order
    of the root. *)
Lemma C9_counterexample :
  let root := example_status 1 None 3 false false in
  let child := example_status 2 (Some 1) 1 false false in
  let node := example_status 3 (Some 2) 2 false false in
  live_ancestors three_level_statuses node [child; root]
  /\ spec_full_order_label [child; root] = "1"
  /\ TaskStatusQueries.get_full_order 4 three_level_statuses node = Some "3.1"
  /\ split_dot "3.1" = ["3"; "1"]
  /\ TaskStatusQueries.str_int (TaskStatus.order root) = "3".
Proof.
  split_and!; try reflexivity.
  apply ancestors_up with (a := example_status 2 (Some 1) 1 false false);
    [solve_elem_of|done|done|].
  apply ancestors_up with (a := example_status 1 None 3 false false);
    [solve_elem_of|done|done|].
  by apply ancestors_stop.
Qed.

(** * Default order *)

Section OrderBy.
Context {A : Type} (key : A -> Z).

#[global] Instance desc_total : Total (Sql.desc key).
Proof. intros a b. unfold Sql.desc. lia. Qed.
#[global] Instance desc_trans : Transitive (Sql.desc key).
Proof. intros a b c. unfold Sql.desc. lia. Qed.
#[global] Instance asc_total : Total (Sql.asc key).
Proof. intros a b. unfold Sql.asc. lia. Qed.
#[global] Instance asc_trans : Transitive (Sql.asc key).
Proof. intros a b c. unfold Sql.asc. lia. Qed.

(** [order_by("-key").first()] is a row of greatest key. *)
Lemma first_order_by_desc rows :
  match Sql.first (Sql.order_by_desc key rows) with
  | Some m => m ∈ rows /\ forall r, r ∈ rows -> (key r <= key m)%Z
  | None => rows = []
  end.
Proof.
  unfold Sql.first, Sql.order_by_desc.
  pose proof (merge_sort_Permutation (Sql.desc key) rows) as Hperm.
  pose proof (StronglySorted_merge_sort (Sql.desc key) rows) as Hsorted.
  destruct (merge_sort (Sql.desc key) rows) as [|m l]; simpl.
  - by apply Permutation_nil_l in Hperm.
  - split.
    + rewrite <- Hperm. left.
    + intros r Hr. rewrite <- Hperm in Hr.
      apply StronglySorted_inv in Hsorted as [_ Hall].
      apply elem_of_cons in Hr as [->|Hr]; [lia|].
      rewrite Forall_forall in Hall. by apply Hall.
Qed.
End OrderBy.

Lemma task_objects_spec table r :
  r ∈ task_objects table <->
  r ∈ table /\ Task.is_deleted r = false /\ Task._template r = false.
Proof.
  unfold task_objects. rewrite list_elem_of_filter, andb_True.
  rewrite !negb_True, !Is_true_false. naive_solver.
Qed.

Lemma orm_eq_true a b : Sql.orm_eq a b = true <-> a = b.
Proof. unfold Sql.orm_eq. apply bool_decide_eq_true. Qed.

(** The status stamping of the hook touches neither the order, nor the key,
    nor the project of the instance. *)
Lemma hook_shape clock table instance :
  exists i2,
    Task.order i2 = Task.order instance
    /\ Task.id i2 = Task.id instance
    /\ Task.project i2 = Task.project instance
    /\ set_order_for_task_and_status_date clock table false instance
       = if bool_decide (Task.order i2 = 0%Z) then
           let task :=
             Sql.first
               (Sql.order_by_desc Task.order
                  (filter (fun r => bool_decide (Task.id r <> Task.id i2))
                     (filter (fun r => Sql.orm_eq (Task.project r) (Task.project i2))
                        (task_objects table)))) in
           let order := match task with Some t => Task.order t | None => 0%Z end in
           Task.set_order (Task.order i2 + (order + 1))%Z i2
         else i2.
Proof.
  unfold set_order_for_task_and_status_date.
  eexists. split_and!; [| | |reflexivity];
    destruct (Sql.first (filter _ (task_objects table))); repeat case_match; done.
Qed.

(** The order part of the hook of [Task]. *)
Lemma task_default_order clock table instance :
  let saved := set_order_for_task_and_status_date clock table false instance in
  (Task.order instance <> 0%Z -> Task.order saved = Task.order instance)
  /\ (Task.order instance = 0%Z ->
      ((forall r, ~ project_peer table instance r) /\ Task.order saved = 1%Z)
      \/ (exists m, project_peer table instance m
                    /\ (forall r, project_peer table instance r ->
                                  (Task.order r <= Task.order m)%Z)
                    /\ Task.order saved = (Task.order m + 1)%Z)).
Proof.
  destruct (hook_shape clock table instance) as (i2 & Ho & Hi & Hp & ->).
  simpl. split.
  - intros Hne. rewrite bool_decide_eq_false_2 by (by rewrite Ho). done.
  - intros Hz. rewrite bool_decide_eq_true_2 by (by rewrite Ho).
    rewrite Hi, Hp.
    pose proof (first_order_by_desc Task.order
      (filter (fun r => bool_decide (Task.id r <> Task.id instance))
         (filter (fun r => Sql.orm_eq (Task.project r) (Task.project instance))
            (task_objects table)))) as Hfirst.
    assert (forall r,
      r ∈ filter (fun r => bool_decide (Task.id r <> Task.id instance))
            (filter (fun r => Sql.orm_eq (Task.project r) (Task.project instance))
               (task_objects table))
      <-> project_peer table instance r) as Hpeer.
    { intros r. rewrite !list_elem_of_filter, task_objects_spec.
      rewrite bool_decide_spec, Is_true_true, orm_eq_true.
      unfold project_peer. naive_solver. }
    destruct (Sql.first _) as [m|].
    + right. exists m. destruct Hfirst as [Hm Hmax]. split_and!.
      * by apply Hpeer.
      * intros r Hr. by apply Hmax, Hpeer.
      * simpl. lia.
    + left. split; [|simpl; lia]. intros r Hr%Hpeer.
      rewrite Hfirst in Hr. by inversion Hr.
Qed.

Lemma task_status_objects_spec table r :
  r ∈ task_status_objects table <->
  r ∈ table /\ TaskStatus.is_deleted r = false /\ TaskStatus._template r = false.
Proof.
  unfold task_status_objects. rewrite list_elem_of_filter, andb_True.
  rewrite !negb_True, !Is_true_false. naive_solver.
Qed.

(** The hook of [TaskStatus]: the same, for a status that has a project. *)
Lemma task_status_default_order table instance :
  let saved := set_order_for_task_status table instance in
  (TaskStatus.order instance <> 0%Z \/ TaskStatus.project instance = None ->
   saved = instance)
  /\ (TaskStatus.order instance = 0%Z -> is_Some (TaskStatus.project instance) ->
      ((forall r, ~ status_project_peer table instance r)
       /\ TaskStatus.order saved = 1%Z)
      \/ (exists m, status_project_peer table instance m
                    /\ (forall r, status_project_peer table instance r ->
                                  (TaskStatus.order r <= TaskStatus.order m)%Z)
                    /\ TaskStatus.order saved = (TaskStatus.order m + 1)%Z)).
Proof.
  unfold set_order_for_task_status. simpl. split.
  - intros [Hne| ->].
    + by rewrite bool_decide_eq_false_2.
    + rewrite (bool_decide_eq_false_2 (is_Some None)) by (by intros [? ?]).
      by rewrite andb_false_r.
  - intros Hz Hp. rewrite !bool_decide_eq_true_2 by done. cbn [andb].
    pose proof (first_order_by_desc TaskStatus.order
      (filter (fun r => bool_decide (TaskStatus.id r <> TaskStatus.id instance))
         (filter (fun r => Sql.orm_eq (TaskStatus.project r)
                                      (TaskStatus.project instance))
            (task_status_objects table)))) as Hfirst.
    assert (forall r,
      r ∈ filter (fun r => bool_decide (TaskStatus.id r <> TaskStatus.id instance))
            (filter (fun r => Sql.orm_eq (TaskStatus.project r)
                                         (TaskStatus.project instance))
               (task_status_objects table))
      <-> status_project_peer table instance r) as Hpeer.
    { intros r. rewrite !list_elem_of_filter, task_status_objects_spec.
      rewrite bool_decide_spec, Is_true_true, orm_eq_true.
      unfold status_project_peer. naive_solver. }
    destruct (Sql.first _) as [m|].
    + right. exists m. destruct Hfirst as [Hm Hmax]. split_and!.
      * by apply Hpeer.
      * intros r Hr. by apply Hmax, Hpeer.
      * simpl. lia.
    + left. split; [|simpl; lia]. intros r Hr%Hpeer.
      rewrite Hfirst in Hr. by inversion Hr.
Qed.

(** C8, as amended.  At save time, a task whose order is zero gets one plus
    the greatest order among the non-deleted, non-template tasks of its
    project, whatever their parent task and tenant, itself apart, and order 1
    when there is none; a task with a non-zero order keeps it.  A task status
    is treated alike when it has a project, and is left as it is when it has
    none. *)
Theorem C8_default_order_is_project_wide clock tasks task statuses status :
  (let saved := set_order_for_task_and_status_date clock tasks false task in
   (Task.order task <> 0%Z -> Task.order saved = Task.order task)
   /\ (Task.order task = 0%Z ->
       ((forall r, ~ project_peer tasks task r) /\ Task.order saved = 1%Z)
       \/ (exists m, project_peer tasks task m
                     /\ (forall r, project_peer tasks task r ->
                                   (Task.order r <= Task.order m)%Z)
                     /\ Task.order saved = (Task.order m + 1)%Z)))
  /\ (let saved := set_order_for_task_status statuses status in
      (TaskStatus.order status <> 0%Z \/ TaskStatus.project status = None ->
       saved = status)
      /\ (TaskStatus.order status = 0%Z -> is_Some (TaskStatus.project status) ->
          ((forall r, ~ status_project_peer statuses status r)
           /\ TaskStatus.order saved = 1%Z)
          \/ (exists m, status_project_peer statuses status m
                        /\ (forall r, status_project_peer statuses status r ->
                                      (TaskStatus.order r <= TaskStatus.order m)%Z)
                        /\ TaskStatus.order saved = (TaskStatus.order m + 1)%Z))).
Proof.
  split; [apply task_default_order|apply task_status_default_order].
Qed.

Lemma C8_witness :
  let task := example_task 3 (Some 1) 0 None None false false in
  let status := example_status 4 None 0 false false in
  (let saved := set_order_for_task_and_status_date 0%Z two_scope_tasks false task in
   ((forall r, ~ project_peer two_scope_tasks task r)
    /\ Task.order saved = 1%Z)
   \/ (exists m, project_peer two_scope_tasks task m
                 /\ (forall r, project_peer two_scope_tasks task r ->
                               (Task.order r <= Task.order m)%Z)
                 /\ Task.order saved = (Task.order m + 1)%Z))
  /\ (let saved := set_order_for_task_status three_level_statuses status in
      ((forall r, ~ status_project_peer three_level_statuses status r)
       /\ TaskStatus.order saved = 1%Z)
      \/ (exists m, status_project_peer three_level_statuses status m
                    /\ (forall r, status_project_peer three_level_statuses status r ->
                                  (TaskStatus.order r <= TaskStatus.order m)%Z)
                    /\ TaskStatus.order saved = (TaskStatus.order m + 1)%Z)).
Proof.
  destruct (C8_default_order_is_project_wide 0%Z two_scope_tasks
              (example_task 3 (Some 1) 0 None None false false)
              three_level_statuses (example_status 4 None 0 false false))
    as [[_ Htask] [_ Hstatus]].
  split; [apply Htask; reflexivity|apply Hstatus; [reflexivity|by eexists]].
Defined.

(** C8 as stated fails.  The new task has one sibling in its full scope (same
    project, parent task and tenant), of order 2, so the claim gives order 3;
    the hook looks at the whole project, finds order 7 under another parent,
    and gives order 8. *)
Lemma C8_counterexample :
  let instance := example_task 3 (Some 1) 0 None None false false in
  Task.order <$> full_scope_siblings two_scope_tasks instance = [2%Z]
  /\ spec_default_order two_scope_tasks instance = 3%Z
  /\ Task.order (set_order_for_task_and_status_date 0%Z two_scope_tasks false
                   instance) = 8%Z.
Proof. split_and!; reflexivity. Qed.

(** * The write path without failures *)

Lemma write_ok apply w :
  never_fails w ->
  write apply w = Ok tt (apply (with_statements (S (statements w)) w)).
Proof. intros Hok. unfold write. by rewrite Hok. Qed.

Lemma after_saves_never_fails updates w : never_fails w -> never_fails (after_saves updates w).
Proof.
  revert w. induction updates as [|u updates IH]; intros w Hok; [done|].
  simpl. by apply IH.
Qed.

Lemma after_saves_task_table updates w :
  task_table (after_saves updates w)
  = foldl (fun table u => upsert Task.id u table) (task_table w) updates.
Proof.
  revert w. induction updates as [|u updates IH]; intros w; [done|].
  simpl. by rewrite IH.
Qed.

Lemma for_each_task_save (g : nat -> Task.t -> Task.t) ps w :
  never_fails w ->
  for_each (fun '(idx, task) => task_save true (g idx task) ;;; ret tt) ps w
  = Ok tt (after_saves ((fun p => g p.1 p.2) <$> ps) w).
Proof.
  revert w. induction ps as [|[idx task] ps IH]; intros w Hok; [done|].
  cbn [for_each fmap list_fmap]. unfold bind at 1. unfold bind at 1.
  unfold task_save, bind, get_world.
  unfold set_order_for_task_and_status_date.
  rewrite write_ok by done. simpl. unfold ret at 1 2. by rewrite IH.
Qed.

(** * Sequences of updates by primary key *)

Section Patch.
Context {A : Type} (pk : A -> uuid).

Lemma upsert_present u table :
  pk u ∈ pk <$> table ->
  upsert pk u table
  = (fun r => if bool_decide (pk r = pk u) then u else r) <$> table.
Proof. intros Hin. unfold upsert. by rewrite bool_decide_eq_true_2. Qed.

Lemma pk_upsert_present u table :
  pk u ∈ pk <$> table -> pk <$> upsert pk u table = pk <$> table.
Proof.
  intros Hin. rewrite upsert_present by done. rewrite <- list_fmap_compose.
  apply list_fmap_ext. intros i r _. simpl. by case_bool_decide.
Qed.

Lemma patch_fresh updates r :
  pk r ∉ pk <$> updates -> patch pk updates r = r.
Proof.
  intros Hnot. unfold patch. rewrite filter_none; [done|].
  intros u Hu Heq%bool_decide_unpack. apply Hnot. rewrite <- Heq.
  by apply list_elem_of_fmap_2.
Qed.

Lemma foldl_upsert updates table :
  NoDup (pk <$> updates) ->
  (forall u, u ∈ updates -> pk u ∈ pk <$> table) ->
  foldl (fun table u => upsert pk u table) table updates
  = patch pk updates <$> table.
Proof.
  revert table. induction updates as [|u updates IH]; intros table Hnd Hin.
  - simpl. rewrite <- (list_fmap_id table) at 1. by apply list_fmap_ext.
  - rewrite fmap_cons in Hnd. apply NoDup_cons in Hnd as [Hu Hnd]. simpl.
    rewrite IH; [|done|].
    + rewrite upsert_present by (apply Hin; left).
      rewrite <- list_fmap_compose. apply list_fmap_ext. intros i r _. simpl.
      case_bool_decide as Hr.
      * rewrite patch_fresh by done. unfold patch. rewrite filter_cons.
        by rewrite decide_True by (by apply bool_decide_pack).
      * unfold patch. rewrite filter_cons.
        by rewrite decide_False by (rewrite bool_decide_spec; congruence).
    + intros u' Hu'. rewrite pk_upsert_present by (apply Hin; left).
      apply Hin. by right.
Qed.
End Patch.

Section PkFacts.
Context {A : Type} (pk : A -> uuid).

Lemma pk_unique_inj table x y :
  pk_unique pk table -> x ∈ table -> y ∈ table -> pk x = pk y -> x = y.
Proof.
  unfold pk_unique. induction table as [|a table IH]; [by inversion 2|].
  rewrite fmap_cons. intros [Ha Hnd]%NoDup_cons Hx Hy Heq.
  apply elem_of_cons in Hx as [->|Hx], Hy as [->|Hy]; try done.
  - exfalso. apply Ha. rewrite Heq. by apply list_elem_of_fmap_2.
  - exfalso. apply Ha. rewrite <- Heq. by apply list_elem_of_fmap_2.
  - by apply IH.
Qed.

Lemma pk_unique_NoDup table : pk_unique pk table -> NoDup table.
Proof. apply NoDup_fmap_1. Qed.

Lemma pk_unique_filter (P : A -> Prop) `{forall x, Decision (P x)} table :
  pk_unique pk table -> pk_unique pk (filter P table).
Proof.
  unfold pk_unique. induction table as [|a table IH]; [done|].
  rewrite fmap_cons. intros [Ha Hnd]%NoDup_cons. rewrite filter_cons.
  destruct (decide (P a)); [|by apply IH].
  rewrite fmap_cons. apply NoDup_cons. split; [|by apply IH].
  intros (b & Hb & [_ Hin]%list_elem_of_filter)%list_elem_of_fmap.
  apply Ha. rewrite Hb. by apply list_elem_of_fmap_2.
Qed.

(** Among updates computed position by position from rows with distinct
    keys, the one that applies to the row at position [i] is the [i]-th. *)
Lemma head_filter_imap (f : nat -> A -> A) l i r :
  (forall j x, pk (f j x) = pk x) ->
  NoDup (pk <$> l) -> l !! i = Some r ->
  head (filter (fun u => bool_decide (pk u = pk r)) (imap f l)) = Some (f i r).
Proof.
  intros Hf. revert f Hf i.
  induction l as [|a l IH]; intros f Hf i Hnd Hi; [done|].
  rewrite fmap_cons in Hnd. apply NoDup_cons in Hnd as [Ha Hnd].
  rewrite imap_cons, filter_cons. destruct i as [|i]; simplify_eq/=.
  - by rewrite decide_True by (apply bool_decide_pack, Hf).
  - rewrite decide_False.
    + apply (IH (f ∘ S)); [intros; apply Hf|done|done].
    + rewrite bool_decide_spec, Hf. intros Heq. apply Ha. rewrite Heq.
      apply list_elem_of_fmap_2. by eapply list_elem_of_lookup_2.
Qed.
End PkFacts.

(** * Order rebase *)

Lemma StronglySorted_lookup {A} (R : relation A) l i j a b :
  StronglySorted R l -> l !! i = Some a -> l !! j = Some b -> i < j -> R a b.
Proof.
  intros Hsorted. revert i j.
  induction Hsorted as [|x l _ IH Hall]; intros i j Hi Hj Hlt; [done|].
  destruct j as [|j]; [lia|]. destruct i as [|i]; simplify_eq/=.
  - rewrite Forall_forall in Hall. apply Hall. by eapply list_elem_of_lookup_2.
  - apply (IH i j); [done|done|lia].
Qed.

(** C7, as amended.  With unique primary keys and no rejected write,
    [rebase_tasks_order] succeeds.  The tasks it renumbers are the visible
    tasks of the scope whose order is at least the target, the instance
    apart, taken by ascending previous order; the one at position [i]
    (from zero) gets order [target + i + 1], whatever its previous order.
    a task of smaller previous order comes at a smaller position.  Every
    other row, the instance and the siblings of smaller order among them, is
    left as it was. *)
Theorem C7_rebase_renumbers_from_target
    w instance order parent_task project client :
  pk_unique Task.id (task_table w) -> never_fails w ->
  exists next_tasks w',
    rebase_tasks_order instance order parent_task project client w = Ok tt w'
    /\ (forall r, r ∈ next_tasks <->
                  shifted_sibling (task_table w) instance order parent_task
                    project client r)
    /\ NoDup next_tasks
    /\ StronglySorted (Sql.asc Task.order) next_tasks
    /\ (forall i j a b,
          next_tasks !! i = Some a -> next_tasks !! j = Some b ->
          (Task.order a < Task.order b)%Z -> i < j)
    /\ Forall2
         (fun old new =>
            (exists i, next_tasks !! i = Some old
                       /\ new = Task.set_order (order + (Z.of_nat i + 1))%Z old)
            \/ ((old ∉ next_tasks) /\ new = old))
         (task_table w) (task_table w')
    /\ Forall2
         (fun old new =>
            Task.id old = Task.id instance \/ (Task.order old < order)%Z ->
            new = old)
         (task_table w) (task_table w').
Proof.
  intros Hu Hok. unfold rebase_tasks_order, bind, get_world.
  match goal with |- context [enumerate ?l] => set (next := l) end.
  exists next. eexists.
  rewrite (for_each_task_save
             (fun idx task => Task.set_order (order + (Z.of_nat idx + 1))%Z task))
    by done.
  split; [done|].
  assert (forall r, r ∈ next <->
            shifted_sibling (task_table w) instance order parent_task project
              client r) as Hmem.
  { intros r. subst next. unfold Sql.order_by. rewrite merge_sort_Permutation.
    rewrite !list_elem_of_filter, task_objects_spec, bool_decide_spec.
    rewrite !andb_True, bool_decide_spec, !Is_true_true, !orm_eq_true.
    unfold shifted_sibling. naive_solver. }
  assert (pk_unique Task.id next) as Hnext.
  { subst next. unfold pk_unique, Sql.order_by.
    rewrite merge_sort_Permutation.
    apply (pk_unique_filter Task.id), (pk_unique_filter Task.id).
    unfold task_objects. by apply (pk_unique_filter Task.id). }
  split; [done|]. split; [by eapply pk_unique_NoDup|].
  assert (StronglySorted (Sql.asc Task.order) next) as Hsorted
    by apply (StronglySorted_merge_sort _).
  split; [done|]. split.
  { intros i j a b Hi Hj Hlt. destruct (decide (i < j)) as [|Hge]; [done|].
    exfalso. destruct (decide (i = j)) as [->|Hne]; [simplify_eq; lia|].
    pose proof (StronglySorted_lookup _ _ j i b a Hsorted Hj Hi ltac:(lia)) as Hba.
    unfold Sql.asc in Hba. lia. }
  enough (Forall2
            (fun old new =>
               (exists i, next !! i = Some old
                          /\ new = Task.set_order (order + (Z.of_nat i + 1))%Z old)
               \/ ((old ∉ next) /\ new = old))
            (task_table w)
            (task_table
               (after_saves
                  ((fun p : nat * Task.t =>
                      Task.set_order (order + (Z.of_nat p.1 + 1))%Z p.2)
                     <$> enumerate next) w))) as Hmain.
  { split; [exact Hmain|]. eapply Forall2_impl; [exact Hmain|]. simpl.
    intros old new [(i & Hi & _)|[_ ->]] Hcase; [|done]. exfalso.
    apply list_elem_of_lookup_2, Hmem in Hi.
    destruct Hi as (_ & _ & _ & Hle & _ & _ & _ & Hid). destruct Hcase; [done|lia]. }
  rewrite after_saves_task_table.
  set (f := fun (idx : nat) (task : Task.t) =>
              Task.set_order (order + (Z.of_nat idx + 1))%Z task).
  assert ((fun p : nat * Task.t => Task.set_order (order + (Z.of_nat p.1 + 1))%Z p.2)
            <$> enumerate next = imap f next) as ->.
  { unfold enumerate. rewrite fmap_imap. by apply imap_ext. }
  assert (forall j x, Task.id (f j x) = Task.id x) as Hf by done.
  assert (Task.id <$> imap f next = Task.id <$> next) as Hids.
  { rewrite fmap_imap. clear -Hf. generalize f Hf. clear.
    induction next as [|a l IH]; intros f Hf; [done|].
    rewrite imap_cons, fmap_cons. f_equal; [apply Hf|].
    apply (IH (f ∘ S)). intros; apply Hf. }
  rewrite (foldl_upsert Task.id).
  - apply Forall2_fmap_r, Forall_Forall2_diag, Forall_forall. intros r Hr.
    destruct (decide (Task.id r ∈ Task.id <$> next)) as [Hin|Hnot].
    + left. apply list_elem_of_fmap in Hin as (x & Hx & Hin).
      assert (x = r) as ->.
      { apply (pk_unique_inj Task.id (task_table w)); try done.
        by apply Hmem in Hin as [? _]. }
      apply list_elem_of_lookup in Hin as [i Hi]. exists i. split; [done|].
      unfold patch. by rewrite (head_filter_imap Task.id f next i r).
    + right. split.
      * intros Hin. apply Hnot. by apply list_elem_of_fmap_2.
      * apply patch_fresh. by rewrite Hids.
  - by rewrite Hids.
  - intros u Hu'. apply (list_elem_of_fmap_2 Task.id) in Hu'.
    rewrite Hids in Hu'. apply list_elem_of_fmap in Hu' as (x & -> & Hx).
    apply list_elem_of_fmap_2. by apply Hmem in Hx as [? _].
Qed.

Lemma C7_witness :
  let w := example_world gapped_sibling_tasks (fun _ => false) in
  let instance := example_task 1 None 5 None None false false in
  exists next_tasks w',
    rebase_tasks_order instance 5 None (Some 100) (Some 7) w = Ok tt w'
    /\ (forall r, r ∈ next_tasks <->
                  shifted_sibling (task_table w) instance 5 None (Some 100)
                    (Some 7) r)
    /\ NoDup next_tasks
    /\ StronglySorted (Sql.asc Task.order) next_tasks
    /\ (forall i j a b,
          next_tasks !! i = Some a -> next_tasks !! j = Some b ->
          (Task.order a < Task.order b)%Z -> i < j)
    /\ Forall2
         (fun old new =>
            (exists i, next_tasks !! i = Some old
                       /\ new = Task.set_order (5 + (Z.of_nat i + 1))%Z old)
            \/ ((old ∉ next_tasks) /\ new = old))
         (task_table w) (task_table w')
    /\ Forall2
         (fun old new =>
            Task.id old = Task.id instance \/ (Task.order old < 5)%Z -> new = old)
         (task_table w) (task_table w').
Proof.
  apply (C7_rebase_renumbers_from_target
           (example_world gapped_sibling_tasks (fun _ => false))
           (example_task 1 None 5 None None false false) 5 None (Some 100) (Some 7)).
  - unfold pk_unique. by apply (bool_decide_unpack _).
  - intros n. reflexivity.
Defined.

(** C7 as stated fails.  Rebasing at order 5 beside siblings of orders 5 and 9
    gives them the orders 6 and 7: the sibling that had order 9 does not get
    order 10. *)
Lemma C7_counterexample :
  let w := example_world gapped_sibling_tasks (fun _ => false) in
  let instance := example_task 1 None 5 None None false false in
  let run := rebase_tasks_order instance 5 None (Some 100) (Some 7) w in
  returned run = Some tt
  /\ (fun r => (Task.id r, Task.order r)) <$> task_table w
     = [(1, 5%Z); (2, 5%Z); (3, 9%Z); (4, 2%Z)]
  /\ fmap (fun r => (Task.id r, Task.order r)) <$> (task_table <$> final_world run)
     = Some [(1, 5%Z); (2, 6%Z); (3, 7%Z); (4, 2%Z)]
  /\ (7 <> 9 + 1)%Z.
Proof. split_and!; [reflexivity|reflexivity|reflexivity|lia]. Qed.

(** * Date rebase *)

Lemma map_m_pure {A B} (f : A -> M B) (g : A -> B) l w :
  (forall x, x ∈ l -> f x w = Ok (g x) w) ->
  map_m f l w = Ok (g <$> l) w.
Proof.
  induction l as [|x l IH]; intros Hf; [done|].
  cbn [map_m]. unfold bind. rewrite Hf by left.
  rewrite IH by (intros; apply Hf; by right). done.
Qed.

Lemma task_branch_in_table levels table self rows x :
  TaskQueries.get_child_branch levels table self = Some rows ->
  x ∈ rows -> x ∈ table.
Proof.
  unfold TaskQueries.get_child_branch, TaskQueries.child_step. intros Hrun Hx.
  destruct (Sql.with_recursive _ _ _) as [all|] eqn:E; simplify_eq/=.
  apply subseteq_drop in Hx.
  apply (elem_of_with_recursive _ _ _ _ _ _ E) in Hx as [n Hn].
  apply elem_of_iter_join in Hn. inversion Hn; subst; [|done].
  by eapply list_elem_of_filter.
Qed.

(** C1, as amended.  On a well-formed table, when every row of the branch of
    [parent_task] has a value in the field named by [by_] and no write is
    rejected, [rebase_the_task_dates] succeeds; it adds [difference] to that
    one field of every non-template row of the branch and leaves the other
    field of the pair as it was; every other row is unchanged. *)
Theorem C1_rebase_moves_the_anchored_field_only
    rank bound w parent_task difference by_ :
  well_formed_tasks rank bound (task_table w) -> never_fails w ->
  exists branch,
    TaskQueries.get_child_branch bound (task_table w) parent_task = Some branch
    /\ ((forall r, r ∈ branch -> is_Some (anchored by_ r)) ->
        exists w',
          rebase_the_task_dates bound parent_task difference by_ w = Ok tt w'
          /\ Forall2
               (fun old new =>
                  (old ∈ branch /\ Task._template old = false
                   /\ (exists v, anchored by_ old = Some v
                         /\ new = set_anchored by_ (Some (v + difference)%Z) old)
                   /\ unanchored by_ new = unanchored by_ old)
                  \/ (((old ∉ branch) \/ Task._template old = true) /\ new = old))
               (task_table w) (task_table w')).
Proof.
  intros Hwf Hok.
  destruct (task_branch_terminates rank bound (task_table w) parent_task Hwf)
    as [branch Hbranch].
  exists branch. split; [done|]. intros Hset.
  unfold rebase_the_task_dates, bind, get_world. rewrite Hbranch.
  set (g := fun task : Task.t =>
              set_anchored by_ ((fun v => (v + difference)%Z) <$> anchored by_ task)
                task).
  rewrite (map_m_pure _ g).
  2:{ intros x Hx. destruct (Hset x Hx) as [v Hv]. subst g.
      unfold anchored, set_anchored in *.
      destruct (String.eqb by_ "started"); rewrite Hv; done. }
  destruct Hwf as (Hu & _ & _).
  assert (forall r o, r ∈ task_table w -> o ∈ g <$> branch ->
                      Task.id o = Task.id r -> r ∈ branch /\ o = g r) as Hobj.
  { intros r o Hr (r' & -> & Hr')%list_elem_of_fmap Hid.
    assert (Task.id (g r') = Task.id r') as Hg.
    { subst g. unfold set_anchored. by destruct (String.eqb by_ "started"). }
    assert (r' = r) as ->; [|done].
    apply (pk_unique_inj Task.id (task_table w)); try done; [|congruence].
    by eapply task_branch_in_table. }
  assert (forall r, r ∈ task_table w ->
    let new :=
      if negb (Task.is_deleted r) && negb (Task._template r) then
        match head (filter (fun o => bool_decide (Task.id o = Task.id r)) (g <$> branch)) with
        | Some o => Task.set_deadline (Task.deadline o) (Task.set_started (Task.started o) r)
        | None => r
        end
      else r in
    (r ∈ branch /\ Task._template r = false
     /\ (exists v, anchored by_ r = Some v
           /\ new = set_anchored by_ (Some (v + difference)%Z) r)
     /\ unanchored by_ new = unanchored by_ r)
    \/ (((r ∉ branch) \/ Task._template r = true) /\ new = r)) as Hrow.
  { intros r Hr. simpl. destruct (head _) as [o|] eqn:Ehead.
    - apply head_Some_elem_of, list_elem_of_filter in Ehead as [Hid%bool_decide_unpack Ho].
      destruct (Hobj r o Hr Ho Hid) as [Hin ->].
      rewrite (task_branch_not_deleted _ _ _ _ _ Hu Hbranch Hin). simpl.
      destruct (Task._template r) eqn:Et; simpl; [right; by split; [right|]|].
      left. destruct (Hset r Hin) as [v Hv]. split_and!; try done.
      + exists v. split; [done|]. subst g. simpl. rewrite Hv.
        unfold set_anchored. destruct r; by destruct (String.eqb by_ "started").
      + subst g. unfold unanchored, set_anchored.
        destruct r; by destruct (String.eqb by_ "started").
    - right. split; [|by case_match]. left. intros Hin.
      apply head_None in Ehead.
      eapply (filter_nil_not_elem_of _ _ (g r)) in Ehead.
      + apply Ehead. by apply list_elem_of_fmap_2.
      + apply bool_decide_pack. subst g. unfold set_anchored.
        by destruct (String.eqb by_ "started"). }
  destruct (g <$> branch) as [|o objs] eqn:Eobjs.
  - eexists. split; [reflexivity|].
    apply fmap_nil_inv in Eobjs. subst branch.
    apply Forall_Forall2_diag, Forall_forall. intros r Hr. right.
    split; [|done]. left. by inversion 1.
  - unfold bulk_update_dates. rewrite write_ok by done.
    eexists. split; [reflexivity|]. cbn [task_table with_task_table with_statements].
    apply Forall2_fmap_r, Forall_Forall2_diag, Forall_forall. intros r Hr.
    by apply Hrow.
Qed.

Lemma parent_and_child_tasks_well_formed :
  well_formed_tasks (fun i => i) 3 parent_and_child_tasks.
Proof. solve_well_formed. Qed.

Lemma C1_witness :
  let w := example_world parent_and_child_tasks (fun _ => false) in
  let parent_task := example_task 1 None 1 (Some at_10) (Some at_12) false false in
  exists branch w',
    TaskQueries.get_child_branch 3 (task_table w) parent_task = Some branch
    /\ rebase_the_task_dates 3 parent_task hour "started" w = Ok tt w'
    /\ Forall2
         (fun old new =>
            (old ∈ branch /\ Task._template old = false
             /\ (exists v, anchored "started" old = Some v
                   /\ new = set_anchored "started" (Some (v + hour)%Z) old)
             /\ unanchored "started" new = unanchored "started" old)
            \/ (((old ∉ branch) \/ Task._template old = true) /\ new = old))
         (task_table w) (task_table w').
Proof.
  destruct (C1_rebase_moves_the_anchored_field_only (fun i => i) 3
              (example_world parent_and_child_tasks (fun _ => false))
              (example_task 1 None 1 (Some at_10) (Some at_12) false false)
              hour "started")
    as (branch & Hbranch & Hmoved).
  - apply parent_and_child_tasks_well_formed.
  - intros n. reflexivity.
  - destruct Hmoved as (w' & Hrun & Hrows).
    + vm_compute in Hbranch. injection Hbranch as <-.
      intros r ->%list_elem_of_singleton. by eexists.
    + by exists branch, w'.
Defined.

(** C1 as stated fails.  Moving the parent's start by one hour moves the
    child's start from 10:00 to 11:00 and leaves its deadline at 12:00: the
    deadline is not shifted and the child's span shrinks from two hours to
    one. *)
Lemma C1_counterexample :
  let w := example_world parent_and_child_tasks (fun _ => false) in
  let parent_task := example_task 1 None 1 (Some at_10) (Some at_12) false false in
  let run := rebase_the_task_dates 3 parent_task hour "started" w in
  returned run = Some tt
  /\ fmap (fun r => (Task.id r, Task.started r, Task.deadline r))
       <$> (task_table <$> final_world run)
     = Some [ (1, Some at_10, Some at_12);
              (2, Some (at_10 + hour)%Z, Some at_12) ]
  /\ (at_12 <> at_12 + hour)%Z
  /\ (at_12 - (at_10 + hour) <> at_12 - at_10)%Z.
Proof. split_and!; [reflexivity|reflexivity|done|done]. Qed.

(** * Recurrence *)

Lemma only_drew_uuids_refl w : only_drew_uuids w w.
Proof. by repeat split. Qed.

Lemma only_drew_uuids_trans w1 w2 w3 :
  only_drew_uuids w1 w2 -> only_drew_uuids w2 w3 -> only_drew_uuids w1 w3.
Proof.
  intros (? & ? & ? & ? & ?) (? & ? & ? & ? & ?).
  repeat split; try congruence. lia.
Qed.

Lemma uuid4_only_drew w : only_drew_uuids w (with_next_uuid (S (next_uuid w)) w).
Proof. repeat split. simpl. lia. Qed.

Lemma bind_Ok {A B} (m : M A) (k : A -> M B) w a w' :
  m w = Ok a w' -> bind m k w = k a w'.
Proof. intros H. unfold bind. by rewrite H. Qed.

Lemma map_m_uuid4 {A B} (f : uuid -> A -> B) l w :
  exists r w',
    map_m (fun x => i <- uuid4 ;; ret (f i x)) l w = Ok r w'
    /\ only_drew_uuids w w' /\ length r = length l.
Proof.
  revert w. induction l as [|x l IH]; intros w.
  - exists [], w. by split_and!.
  - destruct (IH (with_next_uuid (S (next_uuid w)) w)) as (r & w' & Hrun & Hw & Hlen).
    cbn [map_m]. erewrite bind_Ok by reflexivity. erewrite bind_Ok by exact Hrun.
    eexists _, _. split; [reflexivity|].
    split; [|simpl; by rewrite Hlen].
    eapply only_drew_uuids_trans; [apply uuid4_only_drew|done].
Qed.

(** Induction on a dictionary of sub tasks, entry by entry and level by level. *)
Lemma SubTasks_forest_ind (P : SubTasks -> Prop) (Q : list SubTasks -> Prop) :
  Q [] ->
  (forall e l, P e -> Q l -> Q (e :: l)) ->
  (forall task backlogs resources sub_tasks,
      Q sub_tasks -> P (SubTask task backlogs resources sub_tasks)) ->
  forall e, P e.
Proof.
  intros Hnil Hcons Hnode. fix IH 1. intros [task backlogs resources sub_tasks].
  apply Hnode. induction sub_tasks as [|e l IHl]; [exact Hnil|].
  apply Hcons; [apply IH|exact IHl].
Qed.

Lemma forest_ind (P : SubTasks -> Prop) (Q : list SubTasks -> Prop) :
  Q [] ->
  (forall e l, P e -> Q l -> Q (e :: l)) ->
  (forall task backlogs resources sub_tasks,
      Q sub_tasks -> P (SubTask task backlogs resources sub_tasks)) ->
  forall l, Q l.
Proof.
  intros Hnil Hcons Hnode l. induction l as [|e l IH]; [done|].
  apply Hcons; [|done]. by apply (SubTasks_forest_ind P Q).
Qed.

Lemma bind_ext {A B} (m : M A) (k1 k2 : A -> M B) w :
  (forall a w', k1 a w' = k2 a w') -> bind m k1 w = bind m k2 w.
Proof. intros H. unfold bind. destruct (m w); auto. Qed.

Lemma bind_ext_l {A B} (m1 m2 : M A) (k : A -> M B) w :
  m1 w = m2 w -> bind m1 k w = bind m2 k w.
Proof. intros H. unfold bind. by rewrite H. Qed.

(** The inner loop of [clone_sub_task] is
    [create_tasks_from_parent_for_new_parent]. *)
Lemma clone_sub_task_unfold p task backlogs resources sub_tasks w :
  clone_sub_task p (SubTask task backlogs resources sub_tasks) w
  = (pk <- uuid4 ;;
     let sub_task_parent :=
       Task.set_parent_task (Some p) (Task.set_id pk task) in
     new_backlogs <-
       map_m (fun b => i <- uuid4 ;;
                       ret (TaskBacklog.set_task pk (TaskBacklog.set_id i b)))
             backlogs ;;
     new_resources <-
       map_m (fun r => i <- uuid4 ;;
                       ret (TaskResource.set_task pk (TaskResource.set_id i r)))
             resources ;;
     below <- create_tasks_from_parent_for_new_parent sub_tasks pk ;;
     ret (created_app ([sub_task_parent], new_backlogs, new_resources) below)) w.
Proof.
  cbn [clone_sub_task]. apply bind_ext. intros pk w1. cbv zeta.
  apply bind_ext. intros nb w2. apply bind_ext. intros nr w3.
  apply bind_ext_l. clear. revert w3.
  induction sub_tasks as [|e l IH]; intros w; [done|].
  cbn [create_tasks_from_parent_for_new_parent]. apply bind_ext. intros c w'.
  apply bind_ext_l, IH.
Qed.

Lemma fresh_below_weaken n m p clones :
  n <= m -> fresh_below m p clones -> fresh_below n p clones.
Proof.
  intros Hle H. unfold fresh_below. eapply Forall_impl; [exact H|]. simpl.
  intros c [Hid [Hp|(q & Hq & Hle')]]; (split; [lia|]); [by left|].
  right. exists q. split; [done|lia].
Qed.

Lemma fresh_below_deeper n p q clones :
  n <= q -> fresh_below n q clones -> fresh_below n p clones.
Proof.
  intros Hle H. unfold fresh_below. eapply Forall_impl; [exact H|]. simpl.
  intros c [Hid [Hp|Hq]]; (split; [done|]); right; [by exists q|done].
Qed.

(** Cloning a dictionary of sub tasks only draws uuids, and yields a copy of
    the same shape made of fresh keys. *)
Lemma create_tasks_from_parent_for_new_parent_spec subtasks :
  forall p w,
    exists clones backlogs resources w',
      create_tasks_from_parent_for_new_parent subtasks p w
        = Ok (clones, backlogs, resources) w'
      /\ only_drew_uuids w w'
      /\ clone_forest p clones subtasks
      /\ fresh_below (next_uuid w) p clones.
Proof.
  apply (forest_ind
    (fun e => forall p w,
       exists clones backlogs resources w',
         clone_sub_task p e w = Ok (clones, backlogs, resources) w'
         /\ only_drew_uuids w w'
         /\ clone_forest p clones [e]
         /\ fresh_below (next_uuid w) p clones)
    (fun l => forall p w,
       exists clones backlogs resources w',
         create_tasks_from_parent_for_new_parent l p w
           = Ok (clones, backlogs, resources) w'
         /\ only_drew_uuids w w'
         /\ clone_forest p clones l
         /\ fresh_below (next_uuid w) p clones)).
  - intros p w. exists [], [], [], w. split_and!; try done; constructor.
  - intros e l IHe IHl p w.
    destruct (IHe p w) as (c1 & b1 & r1 & w1 & Hrun1 & Hw1 & Hc1 & Hf1).
    destruct (IHl p w1) as (c2 & b2 & r2 & w2 & Hrun2 & Hw2 & Hc2 & Hf2).
    cbn [create_tasks_from_parent_for_new_parent].
    erewrite bind_Ok by exact Hrun1. erewrite bind_Ok by exact Hrun2.
    eexists _, _, _, _. split; [reflexivity|]. cbn [created_app fst snd].
    split_and!.
    + by eapply only_drew_uuids_trans.
    + inversion Hc1 as [|? c below rest ? ? ? ? ? Hc Hbelow Hrest]; subst.
      inversion Hrest; subst. rewrite app_nil_r. rewrite <- app_comm_cons.
      by constructor.
    + apply Forall_app. split; [done|].
      eapply fresh_below_weaken; [|done]. by destruct Hw1 as (_ & _ & _ & _ & ?).
  - intros task backlogs resources sub_tasks IH p w.
    rewrite clone_sub_task_unfold.
    erewrite bind_Ok by reflexivity.
    set (pk := next_uuid w). set (w0 := with_next_uuid (S pk) w).
    destruct (map_m_uuid4
                (fun i b => TaskBacklog.set_task pk (TaskBacklog.set_id i b))
                backlogs w0) as (nb & w1 & Hrun1 & Hw1 & _).
    destruct (map_m_uuid4
                (fun i r => TaskResource.set_task pk (TaskResource.set_id i r))
                resources w1) as (nr & w2 & Hrun2 & Hw2 & _).
    destruct (IH pk w2) as (c & b & r & w3 & Hrun3 & Hw3 & Hc & Hf).
    erewrite bind_Ok by exact Hrun1. erewrite bind_Ok by exact Hrun2.
    erewrite bind_Ok by exact Hrun3.
    eexists _, _, _, _. split; [reflexivity|]. cbn [created_app fst snd].
    assert (only_drew_uuids w w2) as Hw02.
    { eapply only_drew_uuids_trans; [apply uuid4_only_drew|].
      by eapply only_drew_uuids_trans. }
    split_and!.
    + by eapply only_drew_uuids_trans.
    + rewrite <- (app_nil_r c).
      apply (clone_forest_cons p _ c []); [reflexivity|exact Hc|constructor].
    + apply Forall_cons. split; [split; [done|by left]|].
      apply (fresh_below_deeper _ _ pk); [done|].
      eapply fresh_below_weaken; [|done]. by destruct Hw02 as (_ & _ & _ & _ & ?).
Qed.

Lemma clone_forest_length p clones entries :
  clone_forest p clones entries -> length clones = forest_size entries.
Proof.
  induction 1 as [|p c below rest task bl rs subs entries _ _ IH1 _ IH2]; [done|].
  simpl. rewrite length_app, IH1, IH2. by f_equal.
Qed.

Lemma bind_Ok_inv {A B} (m : M A) (k : A -> M B) w r w' :
  bind m k w = Ok r w' -> exists a w1, m w = Ok a w1 /\ k a w1 = Ok r w'.
Proof. unfold bind. destruct (m w) as [a w1| |]; [eauto|done..]. Qed.

(** The keys of the clones are the uuids drawn while cloning, each used
    once. *)
Lemma create_tasks_from_parent_for_new_parent_keys subtasks :
  forall p w clones backlogs resources w',
    create_tasks_from_parent_for_new_parent subtasks p w
      = Ok (clones, backlogs, resources) w' ->
    next_uuid w <= next_uuid w'
    /\ Forall (fun c => next_uuid w <= Task.id c < next_uuid w') clones
    /\ NoDup (Task.id <$> clones).
Proof.
  apply (forest_ind
    (fun e => forall p w clones backlogs resources w',
       clone_sub_task p e w = Ok (clones, backlogs, resources) w' ->
       next_uuid w <= next_uuid w'
       /\ Forall (fun c => next_uuid w <= Task.id c < next_uuid w') clones
       /\ NoDup (Task.id <$> clones))
    (fun l => forall p w clones backlogs resources w',
       create_tasks_from_parent_for_new_parent l p w
         = Ok (clones, backlogs, resources) w' ->
       next_uuid w <= next_uuid w'
       /\ Forall (fun c => next_uuid w <= Task.id c < next_uuid w') clones
       /\ NoDup (Task.id <$> clones))).
  - intros p w clones backlogs resources w' [= <- <- <- <-].
    split; [lia|]. split; constructor.
  - intros e l IHe IHl p w clones backlogs resources w' Hrun.
    cbn [create_tasks_from_parent_for_new_parent] in Hrun.
    apply bind_Ok_inv in Hrun as ([[c1 b1] r1] & w1 & Hrun1 & Hrun).
    apply bind_Ok_inv in Hrun as ([[c2 b2] r2] & w2 & Hrun2 & Hrun).
    injection Hrun as <- <- <- <-. cbn [fst snd].
    destruct (IHe _ _ _ _ _ _ Hrun1) as (Hle1 & Hall1 & Hnd1).
    destruct (IHl _ _ _ _ _ _ Hrun2) as (Hle2 & Hall2 & Hnd2).
    split; [lia|]. split.
    + apply Forall_app. split; (eapply Forall_impl; [eassumption|]);
        simpl; intros; lia.
    + rewrite fmap_app. apply NoDup_app. split_and!; [done| |done].
      intros k (x & -> & Hx)%list_elem_of_fmap (y & Heq & Hy)%list_elem_of_fmap.
      pose proof (proj1 (Forall_forall _ _) Hall1 x Hx) as H1.
      pose proof (proj1 (Forall_forall _ _) Hall2 y Hy) as H2.
      simpl in *. lia.
  - intros task backlogs resources sub_tasks IH p w clones bs rs w' Hrun.
    rewrite clone_sub_task_unfold in Hrun.
    erewrite bind_Ok in Hrun by reflexivity.
    set (pk := next_uuid w) in *. set (w0 := with_next_uuid (S pk) w) in *.
    destruct (map_m_uuid4
                (fun i b => TaskBacklog.set_task pk (TaskBacklog.set_id i b))
                backlogs w0) as (nb & w1 & Hrun1 & Hw1 & _).
    destruct (map_m_uuid4
                (fun i r => TaskResource.set_task pk (TaskResource.set_id i r))
                resources w1) as (nr & w2 & Hrun2 & Hw2 & _).
    erewrite bind_Ok in Hrun by exact Hrun1.
    erewrite bind_Ok in Hrun by exact Hrun2.
    apply bind_Ok_inv in Hrun as ([[c b] r] & w3 & Hrun3 & Hrun).
    injection Hrun as <- <- <- <-. cbn [fst snd app].
    destruct (IH _ _ _ _ _ _ Hrun3) as (Hle & Hall & Hnd).
    destruct Hw1 as (_ & _ & _ & _ & Hle1), Hw2 as (_ & _ & _ & _ & Hle2).
    simpl in Hle1. split; [lia|]. split.
    + apply Forall_cons. split; [simpl; lia|].
      eapply Forall_impl; [exact Hall|]. simpl. intros; lia.
    + rewrite fmap_cons. apply NoDup_cons. split; [|done].
      intros (y & Heq & Hy)%list_elem_of_fmap.
      pose proof (proj1 (Forall_forall _ _) Hall y Hy) as H2.
      simpl in *. lia.
Qed.

(** [get_sub_tasks] returns on an acyclic table when the recursion limit
    exceeds the depth of the tree. *)
Lemma get_sub_tasks_returns rank bound w depth p :
  well_formed_tasks rank bound (task_table w) ->
  0 < depth -> bound <= depth + rank p ->
  is_Some (get_sub_tasks depth w p).
Proof.
  intros (_ & Hacyc & Hb). revert p.
  induction depth as [|d IH]; intros p Hpos Hle; [lia|].
  cbn [get_sub_tasks]. apply mapM_is_Some, Forall_forall.
  intros c [Hp%bool_decide_unpack Hc%task_objects_spec]%list_elem_of_filter.
  destruct Hc as (Hc & _ & _).
  pose proof (acyclic_elim _ _ _ _ _ _ Hacyc Hc Hp) as Hrank.
  pose proof (ranked_below_elim _ _ _ _ _ Hb Hc) as Hbound.
  destruct (IH (Task.id c)) as [subs Hsubs]; [lia|lia|].
  simpl. rewrite Hsubs. by eexists.
Qed.

(** What [get_sub_tasks] returns is the tree of the visible descendants. *)
Lemma get_sub_tasks_spec depth w p entries :
  get_sub_tasks depth w p = Some entries -> sub_tasks_of w p entries.
Proof.
  revert p entries. induction depth as [|d IH]; intros p entries Hrun; [done|].
  cbn [get_sub_tasks] in Hrun. apply mapM_Some in Hrun.
  constructor. eapply Forall2_impl; [exact Hrun|]. simpl.
  intros task entry Hentry.
  destruct (get_sub_tasks d w (Task.id task)) as [below|] eqn:E; simplify_eq/=.
  exists below. split; [done|]. by apply IH.
Qed.

(** C10.  A seed whose rule, deadline and start are all set, with the start
    equal to the deadline, gets no instance: [repeated_task_creator] returns
    Python's [None] and leaves the world as it was, whatever the anchor, the
    commit flag and the bound on the count. *)
Theorem C10_zero_time_span_generates_nothing
    rank bound depth w instance timezone by_ commit max_count rule d :
  well_formed_tasks rank bound (task_table w) ->
  bound < depth ->
  Task.rrule instance = Some rule ->
  Task.deadline instance = Some d ->
  Task.started instance = Some d ->
  repeated_task_creator depth instance timezone by_ commit max_count w
  = Ok None w.
Proof.
  intros Hwf Hdepth Hrule Hdeadline Hstarted.
  destruct (get_sub_tasks_returns rank bound w depth (Task.id instance) Hwf)
    as [subs Hsubs]; [lia|lia|].
  unfold repeated_task_creator. rewrite Hrule, Hdeadline, Hstarted.
  cbn [negb orb bool_decide]. rewrite bool_decide_eq_true_2 by by eexists.
  cbn [negb orb]. unfold bind, get_world. rewrite Hsubs.
  by rewrite Z.sub_diag.
Qed.

Lemma C10_witness :
  let seed :=
    Task.set_rrule (Some weekly)
      (example_task 1 None 1 (Some at_12) (Some at_12) false false) in
  repeated_task_creator 3 seed "UTC" "deadline" true 50
    (example_world [seed] (fun _ => false))
  = Ok None (example_world [seed] (fun _ => false)).
Proof.
  apply (C10_zero_time_span_generates_nothing (fun i => i) 2 3 _ _ "UTC"
           "deadline" true 50 weekly at_12).
  - solve_well_formed.
  - lia.
  - reflexivity.
  - reflexivity.
  - reflexivity.
Defined.

Lemma bulk_create_tasks_ok objs w :
  never_fails w ->
  exists w',
    bulk_create_tasks objs w = Ok objs w'
    /\ task_table w' = task_table w ++ objs
    /\ task_backlog_table w' = task_backlog_table w
    /\ task_resource_table w' = task_resource_table w
    /\ never_fails w'.
Proof.
  intros Hok. destruct objs as [|o objs].
  - exists w. by rewrite app_nil_r.
  - unfold bulk_create_tasks. erewrite bind_Ok by (by apply write_ok).
    eexists. by split_and!.
Qed.

Lemma bulk_create_task_backlogs_ok objs w :
  never_fails w ->
  exists w',
    bulk_create_task_backlogs objs w = Ok objs w'
    /\ task_table w' = task_table w
    /\ task_backlog_table w' = task_backlog_table w ++ objs
    /\ task_resource_table w' = task_resource_table w
    /\ never_fails w'.
Proof.
  intros Hok. destruct objs as [|o objs].
  - exists w. by rewrite app_nil_r.
  - unfold bulk_create_task_backlogs. erewrite bind_Ok by (by apply write_ok).
    eexists. by split_and!.
Qed.

Lemma bulk_create_task_resources_ok objs w :
  never_fails w ->
  exists w',
    bulk_create_task_resources objs w = Ok objs w'
    /\ task_table w' = task_table w
    /\ task_backlog_table w' = task_backlog_table w
    /\ task_resource_table w' = task_resource_table w ++ objs
    /\ never_fails w'.
Proof.
  intros Hok. destruct objs as [|o objs].
  - exists w. by rewrite app_nil_r.
  - unfold bulk_create_task_resources. erewrite bind_Ok by (by apply write_ok).
    eexists. by split_and!.
Qed.

(** The committing end of [repeated_task_creator], when no write is rejected. *)
Lemma commit_generated_ok tasks_objects task_backlogs_objects
    task_resources_objects w :
  never_fails w ->
  exists w',
    atomic
      (tasks <- bulk_create_tasks tasks_objects ;;
       task_backlogs <- bulk_create_task_backlogs task_backlogs_objects ;;
       task_resources <- bulk_create_task_resources task_resources_objects ;;
       ret (Some (mkGenerated tasks task_backlogs task_resources))) w
    = Ok (Some (mkGenerated tasks_objects task_backlogs_objects
                  task_resources_objects)) w'
    /\ task_table w' = task_table w ++ tasks_objects
    /\ task_backlog_table w' = task_backlog_table w ++ task_backlogs_objects
    /\ task_resource_table w' = task_resource_table w ++ task_resources_objects.
Proof.
  intros Hok.
  destruct (bulk_create_tasks_ok tasks_objects w Hok)
    as (w1 & Hrun1 & Ht1 & Hb1 & Hr1 & Hok1).
  destruct (bulk_create_task_backlogs_ok task_backlogs_objects w1 Hok1)
    as (w2 & Hrun2 & Ht2 & Hb2 & Hr2 & Hok2).
  destruct (bulk_create_task_resources_ok task_resources_objects w2 Hok2)
    as (w3 & Hrun3 & Ht3 & Hb3 & Hr3 & Hok3).
  exists w3. unfold atomic.
  erewrite bind_Ok by exact Hrun1. erewrite bind_Ok by exact Hrun2.
  erewrite bind_Ok by exact Hrun3. split; [done|].
  split_and!; congruence.
Qed.

(** One generating turn of the loop of [repeated_task_creator]. *)
Lemma occurrence_loop_generates budget dates instance time_diff latest_order
    max_count all_sub_tasks parent_task_backlogs parent_task_resources
    i count acc w recurrence_dt :
  dates i = Some recurrence_dt -> i <> 0 -> count < max_count ->
  exists new_task sub new_backlogs new_resources w',
    occurrence_loop (S budget) dates None instance "deadline" time_diff
      latest_order max_count all_sub_tasks parent_task_backlogs
      parent_task_resources i count acc w
    = occurrence_loop budget dates None instance "deadline" time_diff
        latest_order max_count all_sub_tasks parent_task_backlogs
        parent_task_resources (S i) (S count)
        (created_app (created_app acc ([new_task], new_backlogs, new_resources))
           sub) w'
    /\ only_drew_uuids w w'
    /\ next_uuid w < next_uuid w'
    /\ new_task
       = Task.set_started (Some (recurrence_dt - time_diff)%Z)
           (Task.set_deadline (Some recurrence_dt)
              (Task.set_parent_task (Some (Task.id instance))
                 (Task.set_order (latest_order + Z.of_nat count + 1)%Z
                    (Task.set_rrule None
                       (Task.set_name
                          ("[" +:+ pretty (count + 1) +:+ "] " +:+ Task.name instance)
                          (Task.set_id (next_uuid w) instance))))))
    /\ clone_forest (next_uuid w) sub.1.1 all_sub_tasks
    /\ fresh_below (next_uuid w) (next_uuid w) sub.1.1
    /\ Forall (fun c => next_uuid w < Task.id c < next_uuid w') sub.1.1
    /\ NoDup (Task.id <$> sub.1.1).
Proof.
  intros Hdate Hi Hcount. cbn [occurrence_loop]. rewrite Hdate.
  rewrite bool_decide_eq_false_2 by done.
  rewrite bool_decide_eq_false_2 by lia. cbn [orb].
  erewrite bind_Ok by reflexivity.
  set (pk := next_uuid w). set (w0 := with_next_uuid (S pk) w).
  destruct (map_m_uuid4
              (fun k b => TaskBacklog.set_task pk (TaskBacklog.set_id k b))
              parent_task_backlogs w0) as (nb & w1 & Hrun1 & Hw1 & _).
  destruct (map_m_uuid4
              (fun k r => TaskResource.set_task pk (TaskResource.set_id k r))
              parent_task_resources w1) as (nr & w2 & Hrun2 & Hw2 & _).
  destruct (create_tasks_from_parent_for_new_parent_spec all_sub_tasks pk w2)
    as (c & b & r & w3 & Hrun3 & Hw3 & Hc & Hf).
  erewrite bind_Ok by exact Hrun1. erewrite bind_Ok by exact Hrun2.
  erewrite bind_Ok by exact Hrun3.
  assert (only_drew_uuids w0 w3) as Hw03.
  { eapply only_drew_uuids_trans; [done|]. by eapply only_drew_uuids_trans. }
  destruct (create_tasks_from_parent_for_new_parent_keys _ _ _ _ _ _ _ Hrun3)
    as (_ & Hkeys & Hnodup).
  eexists _, (c, b, r), nb, nr, w3. split; [reflexivity|]. split_and!.
  - eapply only_drew_uuids_trans; [apply uuid4_only_drew|done].
  - destruct Hw03 as (_ & _ & _ & _ & Hle). simpl in Hle. lia.
  - reflexivity.
  - done.
  - eapply fresh_below_weaken; [|done].
    destruct Hw1 as (_ & _ & _ & _ & Hle1), Hw2 as (_ & _ & _ & _ & Hle2).
    simpl in *. lia.
  - eapply Forall_impl; [exact Hkeys|]. simpl. intros x Hx.
    destruct Hw1 as (_ & _ & _ & _ & Hle1), Hw2 as (_ & _ & _ & _ & Hle2).
    simpl in *. lia.
  - done.
Qed.

(** One generated instance followed by its clones and by later rows: the
    keys stay distinct. *)
Lemma NoDup_keys_block n m (t : Task.t) s rest :
  Task.id t = n -> n < m ->
  Forall (fun c => n < Task.id c < m) s -> NoDup (Task.id <$> s) ->
  Forall (fun c => m <= Task.id c) rest -> NoDup (Task.id <$> rest) ->
  NoDup (Task.id <$> t :: s ++ rest)
  /\ Forall (fun c => n <= Task.id c) (t :: s ++ rest).
Proof.
  intros Ht Hlt Hs Hnds Hrest Hndrest. split.
  - rewrite fmap_cons, fmap_app. apply NoDup_cons. split.
    + intros [(x & Heq & Hx)%list_elem_of_fmap|(x & Heq & Hx)%list_elem_of_fmap]
        %elem_of_app.
      * pose proof (proj1 (Forall_forall _ _) Hs x Hx). simpl in *. lia.
      * pose proof (proj1 (Forall_forall _ _) Hrest x Hx). simpl in *. lia.
    + apply NoDup_app. split_and!; [done| |done].
      intros k (x & -> & Hx)%list_elem_of_fmap (y & Heq & Hy)%list_elem_of_fmap.
      pose proof (proj1 (Forall_forall _ _) Hs x Hx).
      pose proof (proj1 (Forall_forall _ _) Hrest y Hy). simpl in *. lia.
  - apply Forall_cons. split; [lia|]. apply Forall_app. split.
    + eapply Forall_impl; [exact Hs|]. simpl. intros; lia.
    + eapply Forall_impl; [exact Hrest|]. simpl. intros; lia.
Qed.

Lemma filter_fresh_below n p seed_id clones :
  fresh_below n p clones -> seed_id < n -> seed_id < p ->
  filter (fun t => bool_decide (Task.parent_task t = Some seed_id)) clones = [].
Proof.
  intros Hf Hn Hp. apply filter_none. intros c Hc Heq%bool_decide_unpack.
  unfold fresh_below in Hf. rewrite Forall_forall in Hf.
  destruct (Hf c Hc) as [_ [Hc'|(q & Hq & Hle)]]; simplify_eq; lia.
Qed.

(** C6.  A seed running from 10:00 to 12:00 of day 0 under a weekly rule,
    expanded by deadline with commit and at most three instances, yields
    exactly three new children of the seed, due at 12:00 and starting at
    10:00 of the days 7, 14 and 21 (the first occurrence, the seed itself,
    is skipped); each is followed by a clone of the whole tree of visible
    descendants of the seed, of the same shape and size, and all of it is
    stored.  The created rows carry pairwise distinct keys, all drawn during
    the run, so that a table whose keys are older than the uuid source keeps
    unique keys; but for its key, its name, its order, its parent, its rule
    and its two dates, each instance is the seed. *)
Theorem C6_weekly_seed_generates_three_instances
    rank bound depth w seed timezone rule day0 :
  well_formed_tasks rank bound (task_table w) ->
  bound < depth ->
  never_fails w ->
  Task.id seed < next_uuid w ->
  Task.rrule seed = Some rule ->
  _count rule = None ->
  (forall i, i <= 3 ->
     occurrences rule timezone (day0 + at_12)%Z i
     = Some (day0 + Z.of_nat i * (7 * day) + at_12)%Z) ->
  Task.started seed = Some (day0 + at_10)%Z ->
  Task.deadline seed = Some (day0 + at_12)%Z ->
  exists sub_tasks t1 s1 t2 s2 t3 s3 backlogs resources w',
    let created := t1 :: s1 ++ t2 :: s2 ++ t3 :: s3 in
    get_sub_tasks depth w (Task.id seed) = Some sub_tasks
    /\ sub_tasks_of w (Task.id seed) sub_tasks
    /\ repeated_task_creator depth seed timezone "deadline" true 3 w
       = Ok (Some (mkGenerated created backlogs resources)) w'
    /\ task_table w' = task_table w ++ created
    /\ filter (fun t => bool_decide (Task.parent_task t = Some (Task.id seed)))
         created = [t1; t2; t3]
    /\ weekly_instance seed 1 (day0 + 7 * day) t1
    /\ weekly_instance seed 2 (day0 + 14 * day) t2
    /\ weekly_instance seed 3 (day0 + 21 * day) t3
    /\ clone_forest (Task.id t1) s1 sub_tasks
    /\ clone_forest (Task.id t2) s2 sub_tasks
    /\ clone_forest (Task.id t3) s3 sub_tasks
    /\ length s1 = forest_size sub_tasks
    /\ length s2 = forest_size sub_tasks
    /\ length s3 = forest_size sub_tasks
    /\ NoDup (Task.id <$> created)
    /\ Forall (fun t => next_uuid w <= Task.id t) created
    /\ ((forall r, r ∈ task_table w -> Task.id r < next_uuid w) ->
        pk_unique Task.id (task_table w'))
    /\ t1 = instance_for seed "deadline" (2 * hour)
              (latest_child_order (task_table w) seed) 0
              (day0 + 7 * day + at_12) (Task.id t1)
    /\ t2 = instance_for seed "deadline" (2 * hour)
              (latest_child_order (task_table w) seed) 1
              (day0 + 14 * day + at_12) (Task.id t2)
    /\ t3 = instance_for seed "deadline" (2 * hour)
              (latest_child_order (task_table w) seed) 2
              (day0 + 21 * day + at_12) (Task.id t3).
Proof.
  intros Hwf Hdepth Hok Hfresh Hrule Hcount Hdates Hstarted Hdeadline.
  destruct (get_sub_tasks_returns rank bound w depth (Task.id seed) Hwf)
    as [subs Hsubs]; [lia|lia|].
  unfold repeated_task_creator. rewrite Hrule, Hdeadline, Hstarted.
  rewrite bool_decide_eq_true_2 by by eexists. cbn [negb orb].
  erewrite bind_Ok by reflexivity. rewrite Hsubs.
  replace (day0 + at_12 - (day0 + at_10))%Z with (2 * hour)%Z
    by (unfold at_10, at_12; lia).
  change (Z.eqb (2 * hour) 0) with false. cbv iota.
  change (String.eqb "deadline" "deadline") with true. cbv iota.
  unfold ensure_timezone_aware. rewrite Hcount.
  set (bl := filter _ (task_backlog_objects _)).
  set (rs := filter _ (task_resource_objects _)).
  set (latest := match Sql.first _ with Some t => Task.order t | None => 0%Z end).
  set (dates := occurrences rule timezone (day0 + at_12)%Z).
  (* the first occurrence is the seed itself *)
  change (3 + 2) with 5.
  assert (forall acc w0,
            occurrence_loop 5 dates None seed "deadline" (2 * hour) latest 3 subs
              bl rs 0 0 acc w0
            = occurrence_loop 4 dates None seed "deadline" (2 * hour) latest 3
                subs bl rs 1 0 acc w0) as Hskip.
  { intros acc w0. cbn [occurrence_loop]. subst dates. by rewrite Hdates by lia. }
  destruct (occurrence_loop_generates 3 dates seed (2 * hour) latest 3 subs bl rs
              1 0 ([], [], []) w _ (Hdates 1 ltac:(lia)) ltac:(lia) ltac:(lia))
    as (t1 & [[s1 sb1] sr1] & nb1 & nr1 & w1 & Hrun1 & Hw1 & Hlt1 & Ht1 & Hc1 & Hf1
        & Hk1 & Hn1).
  set (acc1 := created_app (created_app ([], [], []) ([t1], nb1, nr1))
                  (s1, sb1, sr1)) in Hrun1.
  destruct (occurrence_loop_generates 2 dates seed (2 * hour) latest 3 subs bl rs
              2 1 acc1 w1 _ (Hdates 2 ltac:(lia)) ltac:(lia) ltac:(lia))
    as (t2 & [[s2 sb2] sr2] & nb2 & nr2 & w2 & Hrun2 & Hw2 & Hlt2 & Ht2 & Hc2 & Hf2
        & Hk2 & Hn2).
  set (acc2 := created_app (created_app acc1 ([t2], nb2, nr2)) (s2, sb2, sr2))
    in Hrun2.
  destruct (occurrence_loop_generates 1 dates seed (2 * hour) latest 3 subs bl rs
              3 2 acc2 w2 _ (Hdates 3 ltac:(lia)) ltac:(lia) ltac:(lia))
    as (t3 & [[s3 sb3] sr3] & nb3 & nr3 & w3 & Hrun3 & Hw3 & Hlt3 & Ht3 & Hc3 & Hf3
        & Hk3 & Hn3).
  assert (forall acc w0,
            occurrence_loop 1 dates None seed "deadline" (2 * hour) latest 3 subs
              bl rs 4 3 acc w0 = Ok acc w0) as Hstop.
  { intros acc w0. cbn [occurrence_loop]. by destruct (dates 4). }
  erewrite bind_Ok;
    [|rewrite Hskip, Hrun1, Hrun2, Hrun3; apply Hstop].
  subst acc2 acc1. cbn [created_app fst snd app].
  assert (never_fails w3) as Hok3.
  { intros n. destruct Hw1 as (_ & _ & E1 & _), Hw2 as (_ & _ & E2 & _),
      Hw3 as (_ & _ & E3 & _). rewrite E3, E2, E1. apply Hok. }
  match goal with
  | |- context [atomic ?body] =>
      match body with
      | bind (bulk_create_tasks ?t) _ =>
          match body with
          | context [bulk_create_task_backlogs ?b] =>
              match body with
              | context [bulk_create_task_resources ?r] =>
                  destruct (commit_generated_ok t b r w3 Hok3)
                    as (w' & Hrun & Htasks & _ & _)
              end
          end
      end
  end.
  exists subs, t1, s1, t2, s2, t3, s3. eexists _, _, w'.
  cbn [fst snd] in *.
  assert (stored w3 = stored w) as Hstored.
  { destruct Hw1 as (E1 & _), Hw2 as (E2 & _), Hw3 as (E3 & _). congruence. }
  assert (task_table w3 = task_table w) as Htable.
  { unfold stored in Hstored. by simplify_eq. }
  assert (t1 :: (((s1 ++ [t2]) ++ s2) ++ [t3]) ++ s3
          = t1 :: s1 ++ t2 :: s2 ++ t3 :: s3) as Hassoc.
  { by rewrite <- !app_assoc. }
  rewrite Hassoc in Htasks.
  split; [done|]. split; [by eapply get_sub_tasks_spec|].
  split; [rewrite Hrun, Hassoc; reflexivity|].
  split; [by rewrite Htasks, Htable|].
  destruct Hw1 as (_ & _ & _ & _ & Hle1), Hw2 as (_ & _ & _ & _ & Hle2).
  assert (Task.parent_task t1 = Some (Task.id seed)
          /\ Task.parent_task t2 = Some (Task.id seed)
          /\ Task.parent_task t3 = Some (Task.id seed)) as (Hp1 & Hp2 & Hp3).
  { by subst t1 t2 t3. }
  assert (Task.id t1 = next_uuid w /\ Task.id t2 = next_uuid w1
          /\ Task.id t3 = next_uuid w2) as (Hi1 & Hi2 & Hi3).
  { by subst t1 t2 t3. }
  assert (NoDup (Task.id <$> t1 :: s1 ++ t2 :: s2 ++ t3 :: s3)
          /\ Forall (fun t => next_uuid w <= Task.id t)
               (t1 :: s1 ++ t2 :: s2 ++ t3 :: s3)) as [Hnodup Hdrawn].
  { destruct (NoDup_keys_block (next_uuid w2) (next_uuid w3) t3 s3 [])
      as [Hnd3 Hge3]; [done|done|done|done|constructor|constructor|].
    rewrite app_nil_r in Hnd3, Hge3.
    destruct (NoDup_keys_block (next_uuid w1) (next_uuid w2) t2 s2 (t3 :: s3))
      as [Hnd2 Hge2]; [done|done|done|done|done|done|].
    apply (NoDup_keys_block (next_uuid w) (next_uuid w1) t1 s1
             (t2 :: s2 ++ t3 :: s3)); done. }
  split_and!.
  - rewrite filter_cons, decide_True by (by apply bool_decide_pack).
    rewrite filter_app, (filter_fresh_below _ _ _ _ Hf1) by lia.
    rewrite filter_cons, decide_True by (by apply bool_decide_pack).
    rewrite filter_app, (filter_fresh_below _ _ _ _ Hf2) by lia.
    rewrite filter_cons, decide_True by (by apply bool_decide_pack).
    rewrite (filter_fresh_below _ _ _ _ Hf3) by lia. done.
  - subst t1. unfold weekly_instance. cbn.
    split_and!; try done; f_equal; unfold at_10, at_12, day; lia.
  - subst t2. unfold weekly_instance. cbn.
    split_and!; try done; f_equal; unfold at_10, at_12, day; lia.
  - subst t3. unfold weekly_instance. cbn.
    split_and!; try done; f_equal; unfold at_10, at_12, day; lia.
  - by rewrite Hi1.
  - by rewrite Hi2.
  - by rewrite Hi3.
  - by eapply clone_forest_length.
  - by eapply clone_forest_length.
  - by eapply clone_forest_length.
  - done.
  - done.
  - intros Hstored_keys. unfold pk_unique. rewrite Htasks, Htable, fmap_app.
    apply NoDup_app. split_and!; [by destruct Hwf as (Hu & _)| |done].
    intros k (x & -> & Hx)%list_elem_of_fmap (y & Heq & Hy)%list_elem_of_fmap.
    pose proof (Hstored_keys x Hx).
    pose proof (proj1 (Forall_forall _ _) Hdrawn y Hy). simpl in *. lia.
  - rewrite Hi1. rewrite Ht1 at 1.
    transitivity (instance_for seed "deadline" (2 * hour) latest 0
                    (day0 + Z.of_nat 1 * (7 * day) + at_12)%Z (next_uuid w));
      [reflexivity|].
    apply (f_equal (fun d => instance_for seed "deadline" (2 * hour) latest 0 d
                               (next_uuid w))). lia.
  - rewrite Hi2. rewrite Ht2 at 1.
    transitivity (instance_for seed "deadline" (2 * hour) latest 1
                    (day0 + Z.of_nat 2 * (7 * day) + at_12)%Z (next_uuid w1));
      [reflexivity|].
    apply (f_equal (fun d => instance_for seed "deadline" (2 * hour) latest 1 d
                               (next_uuid w1))). lia.
  - rewrite Hi3. rewrite Ht3 at 1.
    transitivity (instance_for seed "deadline" (2 * hour) latest 2
                    (day0 + Z.of_nat 3 * (7 * day) + at_12)%Z (next_uuid w2));
      [reflexivity|].
    apply (f_equal (fun d => instance_for seed "deadline" (2 * hour) latest 2 d
                               (next_uuid w2))). lia.
Qed.

Lemma weekly_seed_tasks_well_formed :
  well_formed_tasks (fun i => i) 4 weekly_seed_tasks.
Proof. solve_well_formed. Qed.

Lemma C6_witness :
  let w := example_world weekly_seed_tasks (fun _ => false) in
  exists sub_tasks t1 s1 t2 s2 t3 s3 backlogs resources w',
    let created := t1 :: s1 ++ t2 :: s2 ++ t3 :: s3 in
    get_sub_tasks 5 w (Task.id weekly_seed) = Some sub_tasks
    /\ sub_tasks_of w (Task.id weekly_seed) sub_tasks
    /\ repeated_task_creator 5 weekly_seed "UTC" "deadline" true 3 w
       = Ok (Some (mkGenerated created backlogs resources)) w'
    /\ task_table w' = task_table w ++ created
    /\ filter (fun t => bool_decide (Task.parent_task t = Some (Task.id weekly_seed)))
         created = [t1; t2; t3]
    /\ weekly_instance weekly_seed 1 (0 + 7 * day) t1
    /\ weekly_instance weekly_seed 2 (0 + 14 * day) t2
    /\ weekly_instance weekly_seed 3 (0 + 21 * day) t3
    /\ clone_forest (Task.id t1) s1 sub_tasks
    /\ clone_forest (Task.id t2) s2 sub_tasks
    /\ clone_forest (Task.id t3) s3 sub_tasks
    /\ length s1 = forest_size sub_tasks
    /\ length s2 = forest_size sub_tasks
    /\ length s3 = forest_size sub_tasks
    /\ NoDup (Task.id <$> created)
    /\ Forall (fun t => next_uuid w <= Task.id t) created
    /\ ((forall r, r ∈ task_table w -> Task.id r < next_uuid w) ->
        pk_unique Task.id (task_table w'))
    /\ t1 = instance_for weekly_seed "deadline" (2 * hour)
              (latest_child_order (task_table w) weekly_seed) 0
              (0 + 7 * day + at_12) (Task.id t1)
    /\ t2 = instance_for weekly_seed "deadline" (2 * hour)
              (latest_child_order (task_table w) weekly_seed) 1
              (0 + 14 * day + at_12) (Task.id t2)
    /\ t3 = instance_for weekly_seed "deadline" (2 * hour)
              (latest_child_order (task_table w) weekly_seed) 2
              (0 + 21 * day + at_12) (Task.id t3).
Proof.
  apply (C6_weekly_seed_generates_three_instances (fun i => i) 4 5
           (example_world weekly_seed_tasks (fun _ => false)) weekly_seed "UTC"
           weekly 0%Z).
  - apply weekly_seed_tasks_well_formed.
  - lia.
  - intros n. reflexivity.
  - vm_compute. lia.
  - reflexivity.
  - reflexivity.
  - intros i _. simpl. f_equal. lia.
  - reflexivity.
  - reflexivity.
Defined.

(** The same run, evaluated: nine tasks are created, three of them children
    of the seed, each followed by the clones of the two sub tasks. *)
Example weekly_seed_run :
  (fun r => fmap (fun t => (Task.id t, Task.parent_task t, Task.deadline t))
              (tasks r))
    <$> (mjoin (returned
          (repeated_task_creator 5 weekly_seed "UTC" "deadline" true 3
             (example_world weekly_seed_tasks (fun _ => false)))))
  = Some [ (1000, Some 1, Some (7 * day + at_12)%Z);
           (1001, Some 1000, None); (1002, Some 1001, None);
           (1003, Some 1, Some (14 * day + at_12)%Z);
           (1004, Some 1003, None); (1005, Some 1004, None);
           (1006, Some 1, Some (21 * day + at_12)%Z);
           (1007, Some 1006, None); (1008, Some 1007, None) ].
Proof. reflexivity. Qed.

(** * Cloning *)

(** C3.  [duplicate_task_v2_for_project] is claimed to remap [dependency] and
    [predecessor] like [parent_task]: through the table, cloning the target
    first when it is not there yet, and never failing.  It does so for
    [parent_task] (task 5 below: its parent 4 is cloned first, under the new
    key 1001, and the clone of 5 points to it) and for a field that points to
    the task itself (task 3: the clone, 1000, depends on 1000).  For a
    [dependency] on another task the branch stores the table entry under the
    name [parent_task] and then reads [dependency], which is not bound yet:
    the call raises [UnboundLocalError], whether or not the target is in the
    table. *)
Theorem C3_dependency_on_another_task_raises :
  let w := example_world dependent_tasks (fun _ => false) in
  let clone records i :=
    match dependent_tasks !! i with
    | Some task =>
        duplicate_task_v2_for_project 5 records (Some 7) task
          new_example_project None false w
    | None => Hang
    end in
  let cloned_2 :=
    mkRecords []
      [(2, Task.set_id 900 (example_task 2 None 2 None None false false))] in
  raised (clone (mkRecords [] []) 0) = Some UnboundLocalError
  /\ raised (clone cloned_2 0) = Some UnboundLocalError
  /\ (fun r => (Task.id r.1, Task.dependency r.1))
       <$> returned (clone (mkRecords [] []) 2)
     = Some (1000, Some 1000)
  /\ (fun r => (Task.id r.1, Task.parent_task r.1,
                (fun kv => (kv.1, Task.id kv.2)) <$> tasks_to_create r.2))
       <$> returned (clone (mkRecords [] []) 4)
     = Some (1000, Some 1001, [(4, 1001); (5, 1000)]).
Proof. split_and!; reflexivity. Qed.

(** * Atomicity *)

(** The loop of [repeated_task_creator] writes nothing and raises nothing. *)
Lemma occurrence_loop_only_draws budget dates rule_count instance by_ time_diff
    latest_order max_count all_sub_tasks parent_task_backlogs
    parent_task_resources :
  forall i count acc w,
    match
      occurrence_loop budget dates rule_count instance by_ time_diff
        latest_order max_count all_sub_tasks parent_task_backlogs
        parent_task_resources i count acc w
    with
    | Ok _ w' => only_drew_uuids w w'
    | Raise _ _ => False
    | Hang => True
    end.
Proof.
  induction budget as [|budget IH]; intros i count acc w; [done|].
  cbn [occurrence_loop]. destruct (dates i) as [recurrence_dt|];
    [|apply only_drew_uuids_refl].
  case_bool_decide; [apply IH|].
  destruct (_ || _); [apply only_drew_uuids_refl|].
  erewrite bind_Ok by reflexivity.
  set (pk := next_uuid w). set (w0 := with_next_uuid (S pk) w).
  destruct (map_m_uuid4
              (fun k b => TaskBacklog.set_task pk (TaskBacklog.set_id k b))
              parent_task_backlogs w0) as (nb & w1 & Hrun1 & Hw1 & _).
  destruct (map_m_uuid4
              (fun k r => TaskResource.set_task pk (TaskResource.set_id k r))
              parent_task_resources w1) as (nr & w2 & Hrun2 & Hw2 & _).
  destruct (create_tasks_from_parent_for_new_parent_spec all_sub_tasks pk w2)
    as (c & b & r & w3 & Hrun3 & Hw3 & _ & _).
  erewrite bind_Ok by exact Hrun1. erewrite bind_Ok by exact Hrun2.
  erewrite bind_Ok by exact Hrun3.
  match goal with
  | |- match occurrence_loop _ _ _ _ _ _ _ _ _ _ _ ?i' ?c' ?acc' ?w0' with _ => _ end =>
      pose proof (IH i' c' acc' w0') as Hrest;
      destruct (occurrence_loop budget dates rule_count instance by_ time_diff
                  latest_order max_count all_sub_tasks parent_task_backlogs
                  parent_task_resources i' c' acc' w0') as [a w'| |]; try done
  end.
  eapply only_drew_uuids_trans; [apply uuid4_only_drew|].
  eapply only_drew_uuids_trans; [exact Hw1|].
  eapply only_drew_uuids_trans; [exact Hw2|].
  eapply only_drew_uuids_trans; [exact Hw3|exact Hrest].
Qed.

Lemma atomic_rolls_back {A} (body : M A) w e w' :
  atomic body w = Raise e w' -> stored w' = stored w.
Proof.
  unfold atomic. destruct (body w) as [a w1|e1 w1|]; intros H; simplify_eq. done.
Qed.

Lemma map_m_no_write {A B} (f : A -> M B) l w :
  (forall x w0, match f x w0 with
                | Ok _ w1 | Raise _ w1 => w1 = w0
                | Hang => True
                end) ->
  match map_m f l w with
  | Ok _ w1 | Raise _ w1 => w1 = w
  | Hang => True
  end.
Proof.
  intros Hf. revert w. induction l as [|x l IH]; intros w; [done|].
  cbn [map_m]. unfold bind at 1. specialize (Hf x w).
  destruct (f x w) as [y w1|e w1|]; try done. subst w1.
  unfold bind. specialize (IH w). by destruct (map_m f l w).
Qed.

(** C4, as amended.  [repeated_task_creator] with [commit] and
    [rebase_the_task_dates] leave what is stored untouched whenever they
    raise, whichever write statements the database rejects: the first wraps
    its three bulk inserts in one transaction, the second sends a single
    bulk update. *)
Theorem C4_recurrence_commit_and_date_rebase_are_atomic
    depth instance timezone by_ max_count levels parent_task difference :
  atomic_on_error
    (repeated_task_creator depth instance timezone by_ true max_count)
  /\ atomic_on_error (rebase_the_task_dates levels parent_task difference by_).
Proof.
  split; intros w e w' Hrun.
  - unfold repeated_task_creator in Hrun.
    destruct (Task.rrule instance) as [rrule|]; [|done].
    destruct (Task.deadline instance) as [deadline|]; [|done].
    destruct (negb _); [done|].
    unfold bind at 1, get_world in Hrun.
    destruct (get_sub_tasks depth w (Task.id instance)) as [subs|];
      [|by inversion Hrun].
    destruct (match Task.started instance with Some _ => _ | None => _ end)
      as [[started|] [time_diff|]]; try done.
    destruct (Z.eqb time_diff 0); [done|].
    unfold bind at 1 in Hrun.
    match type of Hrun with
    | match ?loop with _ => _ end = _ =>
        match loop with
        | occurrence_loop ?b ?d ?rc ?ins ?by' ?td ?lo ?mc ?subs' ?bl ?rs ?i ?c ?acc ?w0 =>
            pose proof (occurrence_loop_only_draws b d rc ins by' td lo mc subs'
                          bl rs i c acc w0) as Hloop
        end;
        destruct loop as [[[t b0] r0] w3| |]; try done
    end.
    apply atomic_rolls_back in Hrun. destruct Hloop as (E & _). congruence.
  - unfold rebase_the_task_dates, bind at 1, get_world in Hrun.
    destruct (TaskQueries.get_child_branch _ _ _) as [branch|]; [|done].
    unfold bind in Hrun.
    match type of Hrun with
    | match map_m ?f ?l ?w0 with _ => _ end = _ =>
        pose proof (map_m_no_write f l w0) as Hmap;
        destruct (map_m f l w0) as [objs w1|e1 w1|]
    end; try done.
    + assert (w1 = w) as ->.
      { apply Hmap. intros x w0. unfold bind, add_timedelta.
        destruct (String.eqb by_ "started");
          [destruct (Task.started x)|destruct (Task.deadline x)]; done. }
      destruct objs as [|o objs]; [done|].
      unfold bulk_update_dates, write in Hrun.
      destruct (fails w (statements w)); by simplify_eq.
    + assert (w1 = w) as ->.
      { apply Hmap. intros x w0. unfold bind, add_timedelta.
        destruct (String.eqb by_ "started");
          [destruct (Task.started x)|destruct (Task.deadline x)]; done. }
      by simplify_eq.
Qed.

Lemma C4_witness :
  let w := linked_seed_world second_write_fails in
  let w' :=
    mkWorld weekly_seed_tasks [] [TaskBacklog.mk 50 1 60 false false] [] []
      1012 0%Z 2 second_write_fails in
  repeated_task_creator 5 weekly_seed "UTC" "deadline" true 3 w
    = Raise DatabaseError w'
  /\ stored w' = stored w.
Proof.
  assert (repeated_task_creator 5 weekly_seed "UTC" "deadline" true 3
            (linked_seed_world second_write_fails)
          = Raise DatabaseError
              (mkWorld weekly_seed_tasks [] [TaskBacklog.mk 50 1 60 false false]
                 [] [] 1012 0%Z 2 second_write_fails)) as Hrun
    by (vm_compute; reflexivity).
  split; [exact Hrun|].
  exact (proj1 (C4_recurrence_commit_and_date_rebase_are_atomic 5 weekly_seed
                  "UTC" "deadline" 3 0 weekly_seed 0%Z) _ _ _ Hrun).
Defined.

Lemma not_atomic_on_error {A} (m : M A) w :
  match m w with
  | Raise _ w' => stored w' <> stored w
  | _ => False
  end ->
  ~ atomic_on_error m.
Proof.
  intros Hrun Hatomic. destruct (m w) as [|e w'|] eqn:E; try done.
  by apply Hrun, (Hatomic w e w').
Qed.

(** C4 as stated fails for the order rebase and for cloning.  When the
    database rejects the second write statement, [rebase_tasks_order] and
    [rebase_task_status] have already renumbered one sibling (each [save] is
    its own statement, outside any transaction) and [duplicate_project] has
    already stored the new project row; the error leaves these writes in
    place. *)
Lemma C4_counterexample :
  let instance := example_task 1 None 5 None None false false in
  let tasks_run :=
    rebase_tasks_order instance 5 None (Some 100) (Some 7)
      (example_world gapped_sibling_tasks second_write_fails) in
  let project_run :=
    duplicate_project 5 example_project (Some 7) false
      (template_project_world second_write_fails) in
  (raised tasks_run = Some DatabaseError
   /\ fmap (fun r => (Task.id r, Task.order r)) <$> (task_table <$> final_world tasks_run)
      = Some [(1, 5%Z); (2, 6%Z); (3, 9%Z); (4, 2%Z)])
  /\ (raised project_run = Some DatabaseError
      /\ fmap Project.id <$> (project_table <$> final_world project_run)
         = Some [100; 1000])
  /\ ~ atomic_on_error (rebase_tasks_order instance 5 None (Some 100) (Some 7))
  /\ ~ atomic_on_error
         (rebase_task_status (example_status 1 None 1 false false) 1 (Some 100)
            (Some 7))
  /\ ~ atomic_on_error (duplicate_project 5 example_project (Some 7) false).
Proof.
  split_and!; try reflexivity.
  - apply (not_atomic_on_error _ (example_world gapped_sibling_tasks second_write_fails)).
    vm_compute. discriminate.
  - apply (not_atomic_on_error _ (status_world second_write_fails)).
    vm_compute. discriminate.
  - apply (not_atomic_on_error _ (template_project_world second_write_fails)).
    vm_compute. discriminate.
Qed.

(** * Descendants, level by level *)

Section Levels.
Context {A : Type} (pk : A -> uuid) (parent : A -> option uuid).
Context (keep : A -> Prop) (on : A -> A -> bool) (table : list A).
Context (rank : uuid -> nat).
Hypothesis on_spec :
forall x t, on x t = true <-> parent x = Some (pk t) /\ keep x.
Hypothesis Hu : pk_unique pk table.
Hypothesis Hacyc : acyclic pk parent rank table.

Lemma linked_descends a n x :
linked on table [a] (S n) x -> descends pk parent keep table (pk a) x.
Proof.
revert x. induction n as [|n IH]; intros x Hx;
  inversion Hx as [|? t ? Ht Hin Hon]; subst;
  apply on_spec in Hon as [Hp Hk].
- inversion Ht as [? Ha|]; subst. apply list_elem_of_singleton in Ha as ->.
  by apply descends_child.
- eapply descends_below; eauto.
Qed.

Lemma descends_linked a x :
descends pk parent keep table (pk a) x -> exists n, linked on table [a] (S n) x.
Proof.
induction 1 as [x Hx Hp Hk|t x _ [n IH] Hx Hp Hk].
- exists 0. econstructor; [by constructor; left|done|]. by apply on_spec.
- exists (S n). econstructor; [exact IH|done|]. by apply on_spec.
Qed.

Lemma linked_in_table a n x : a ∈ table -> linked on table [a] n x -> x ∈ table.
Proof.
intros Ha. inversion 1 as [? Hx|]; subst; [|done].
by apply list_elem_of_singleton in Hx as ->.
Qed.

(** A row sits at one level only. *)
Lemma linked_level_unique a n m x :
a ∈ table -> linked on table [a] n x -> linked on table [a] m x -> n = m.
Proof.
intros Ha. revert m x. induction n as [|n IH]; intros m x Hn Hm.
- destruct m as [|m]; [done|]. exfalso.
  inversion Hn as [? Hx|]; subst. apply list_elem_of_singleton in Hx as ->.
  pose proof (linked_rank pk parent on table rank) as Hrank.
  specialize (Hrank (fun x t H => proj1 (proj1 (on_spec x t) H))
                (fun r p => acyclic_elim pk parent rank table r p Hacyc)
                [a] (pk a) (S m) a).
  specialize (Hrank ltac:(by intros ? ->%list_elem_of_singleton) Hm). lia.
- destruct m as [|m].
  + exfalso.
    inversion Hm as [? Hx|]; subst. apply list_elem_of_singleton in Hx as ->.
    pose proof (linked_rank pk parent on table rank) as Hrank.
    specialize (Hrank (fun x t H => proj1 (proj1 (on_spec x t) H))
                  (fun r p => acyclic_elim pk parent rank table r p Hacyc)
                  [a] (pk a) (S n) a).
    specialize (Hrank ltac:(by intros ? ->%list_elem_of_singleton) Hn). lia.
  + inversion Hn as [|? t ? Ht _ Hon]; subst.
    inversion Hm as [|? t' ? Ht' _ Hon']; subst.
    apply on_spec in Hon as [Hp _]. apply on_spec in Hon' as [Hp' _].
    assert (t = t') as <-.
    { apply (pk_unique_inj pk table); try done; [| |congruence];
        by eapply linked_in_table. }
    f_equal. by eapply IH.
Qed.

Lemma level_NoDup a n :
a ∈ table -> NoDup (Nat.iter n (Sql.join on table) [a]).
Proof.
intros Ha. induction n as [|n IH]; simpl; [apply NoDup_singleton|].
unfold Sql.join at 1. apply NoDup_bind; [|intros t _|done].
- intros t1 t2 y Ht1 Ht2 [Hy1 _]%list_elem_of_filter [Hy2 _]%list_elem_of_filter.
  apply Is_true_true, on_spec in Hy1 as [Hp1 _].
  apply Is_true_true, on_spec in Hy2 as [Hp2 _].
  apply (pk_unique_inj pk table); try done; [| |congruence].
  + apply elem_of_iter_join in Ht1. by eapply linked_in_table.
  + apply elem_of_iter_join in Ht2. by eapply linked_in_table.
- apply NoDup_filter. by eapply pk_unique_NoDup.
Qed.

(** A downward recursive query over a tree returns no row twice. *)
Lemma with_recursive_NoDup a levels k rows :
a ∈ table ->
Sql.with_recursive (Sql.join on table) levels
  (Nat.iter k (Sql.join on table) [a]) = Some rows ->
NoDup rows.
Proof.
intros Ha. revert k rows. induction levels as [|l IH]; intros k rows Hrun.
- destruct (Nat.iter k _ _); simplify_eq/=. constructor.
- destruct (Nat.iter k (Sql.join on table) [a]) as [|w0 working] eqn:Ek.
  { simplify_eq/=. constructor. }
  rewrite with_recursive_cons in Hrun.
  destruct (Sql.with_recursive _ l _) as [r|] eqn:E; [|done].
  injection Hrun as <-. change (NoDup ((w0 :: working) ++ r)).
  rewrite <- Ek in E |- *.
  apply NoDup_app. split_and!.
  + by apply level_NoDup.
  + intros x Hx Hr. apply elem_of_iter_join in Hx.
    apply (elem_of_with_recursive _ _ _ _ _ _ E) in Hr as [m Hm].
    change (Sql.join on table (Nat.iter k (Sql.join on table) [a]))
      with (Nat.iter (S k) (Sql.join on table) [a]) in Hm.
    rewrite <- Nat.iter_add in Hm. apply elem_of_iter_join in Hm.
    pose proof (linked_level_unique a _ _ x Ha Hx Hm). lia.
  + by apply (IH (S k)).
Qed.

(** The rows behind the anchor of a downward recursive query over a tree:
  the query returns, its rows are the rows that hang below the anchor
  through rows that are all kept, and none comes twice. *)
Lemma descent_query_spec a bound :
ranked_below pk rank bound table -> a ∈ table ->
exists all,
  Sql.with_recursive (Sql.join on table) bound [a] = Some all
  /\ (forall x, x ∈ Sql.tail_from_1 all
                <-> descends pk parent keep table (pk a) x)
  /\ NoDup (Sql.tail_from_1 all).
Proof.
intros Hb Ha.
destruct (descent_terminates pk parent on table rank bound)
  with (anchor := [a]) as [all Hall].
{ intros x t Hon. by apply on_spec in Hon as [? _]. }
{ intros r p. by apply acyclic_elim. }
{ intros r. by apply ranked_below_elim. }
{ by intros ? ->%list_elem_of_singleton. }
exists all. split; [done|]. split.
- intros x. rewrite (elem_of_tail_from_1 _ _ _ _ _ _ Hall) by (simpl; lia).
  split; [intros [n Hn]; by eapply linked_descends|by apply descends_linked].
- eapply sublist_NoDup; [|apply sublist_drop].
  by apply (with_recursive_NoDup a bound 0 all Ha).
Qed.
End Levels.

(** * The descendant branch, exactly *)

(** What [Task.get_child_branch] returns for a stored task. *)
Lemma task_child_branch_spec rank bound table self :
  well_formed_tasks rank bound table ->
  Task.id self ∈ Task.id <$> table ->
  exists rows,
    TaskQueries.get_child_branch bound table self = Some rows
    /\ (forall x, x ∈ rows <->
          descends Task.id Task.parent_task (fun r => Task.is_deleted r = false)
            table (Task.id self) x)
    /\ NoDup rows.
Proof.
  intros (Hu & Hacyc & Hb) Hself.
  destruct (filter_pk_singleton Task.id table (Task.id self) Hu Hself)
    as (a & Ha & Hid & Hanchor).
  unfold TaskQueries.get_child_branch, TaskQueries.child_step. rewrite Hanchor.
  destruct (descent_query_spec Task.id Task.parent_task
              (fun r => Task.is_deleted r = false)
              (fun tk t => bool_decide (Task.parent_task tk = Some (Task.id t))
                           && negb (Task.is_deleted tk))
              table rank) with (a := a) (bound := bound)
    as (all & Hall & Hmem & Hnd); try done.
  { intros x t. rewrite andb_true_iff, bool_decide_eq_true, negb_true_iff. done. }
  rewrite Hall. exists (Sql.tail_from_1 all). rewrite <- Hid. by split_and!.
Qed.


(** X1.  On a well-formed task table and for a stored task,
    [Task.get_child_branch] returns; its rows are exactly the tasks that hang
    below the task through tasks that are all non-deleted (template tasks
    count); no task comes twice, the task itself is not among them, and the
    parent of every row is the task or another row. *)
Theorem task_child_branch_is_the_non_deleted_descent rank bound table self :
  well_formed_tasks rank bound table ->
  Task.id self ∈ Task.id <$> table ->
  exists rows,
    TaskQueries.get_child_branch bound table self = Some rows
    /\ (forall x, x ∈ rows <->
          descends Task.id Task.parent_task (fun r => Task.is_deleted r = false)
            table (Task.id self) x)
    /\ NoDup rows
    /\ (forall x, x ∈ rows -> Task.id x <> Task.id self)
    /\ (forall x, x ∈ rows ->
          Task.parent_task x = Some (Task.id self)
          \/ exists t, t ∈ rows /\ Task.parent_task x = Some (Task.id t)).
Proof.
  intros Hwf Hself.
  destruct (task_child_branch_spec rank bound table self Hwf Hself)
    as (rows & Hrun & Hrows & Hnodup).
  exists rows. split_and!; try done.
  - intros x Hx. by eapply task_branch_not_self.
  - intros x Hx%Hrows. destruct Hx as [x _ Hp _|t x Ht _ Hp _]; [by left|].
    right. exists t. split; [by apply Hrows|done].
Qed.

Lemma task_child_branch_witness :
  exists rows,
    TaskQueries.get_child_branch 4 template_branch_tasks
      (example_task 1 None 1 None None false false) = Some rows
    /\ (forall x, x ∈ rows <->
          descends Task.id Task.parent_task (fun r => Task.is_deleted r = false)
            template_branch_tasks 1 x)
    /\ NoDup rows
    /\ (forall x, x ∈ rows -> Task.id x <> 1)
    /\ (forall x, x ∈ rows ->
          Task.parent_task x = Some 1
          \/ exists t, t ∈ rows /\ Task.parent_task x = Some (Task.id t)).
Proof.
  apply (task_child_branch_is_the_non_deleted_descent (fun i => i) 4
           template_branch_tasks (example_task 1 None 1 None None false false)).
  - solve_well_formed.
  - by apply (bool_decide_unpack _).
Defined.

(** X2.  On a well-formed table, [TaskStatus.get_child_branch] of a stored,
    live task status returns exactly the statuses that hang below it through
    statuses that are all non-deleted and non-template, none twice; for a
    status that is deleted, a template or not stored it returns nothing. *)
Theorem task_status_child_branch_is_the_live_descent rank bound table self :
  well_formed_task_statuses rank bound table ->
  (forall r, r ∈ table -> TaskStatus.id r = TaskStatus.id self ->
             TaskStatusQueries.live r = true ->
     exists rows,
       TaskStatusQueries.get_child_branch bound table self = Some rows
       /\ (forall x, x ∈ rows <->
             descends TaskStatus.id TaskStatus.parent
               (fun r => TaskStatusQueries.live r = true) table
               (TaskStatus.id self) x)
       /\ NoDup rows)
  /\ ((forall r, r ∈ table -> TaskStatus.id r = TaskStatus.id self ->
                 TaskStatusQueries.live r = false) ->
      TaskStatusQueries.get_child_branch bound table self = Some []).
Proof.
  intros (Hu & Hacyc & Hb). split.
  - intros r Hr Hid Hlive.
    unfold TaskStatusQueries.get_child_branch, TaskStatusQueries.child_step.
    assert (filter (fun x => bool_decide (TaskStatus.id x = TaskStatus.id self)
                             && TaskStatusQueries.live x) table = [r]) as ->.
    { apply singleton_of_short; [by apply filter_pk_length|].
      apply list_elem_of_filter. split; [|done].
      rewrite Hlive, andb_true_r. by apply bool_decide_pack. }
    assert (Sql.order_by TaskStatus.order [r] = [r]) as ->.
    { apply Permutation_singleton_r. unfold Sql.order_by.
      by rewrite merge_sort_Permutation. }
    destruct (descent_query_spec TaskStatus.id TaskStatus.parent
                (fun r => TaskStatusQueries.live r = true)
                (fun ts t => bool_decide (TaskStatus.parent ts = Some (TaskStatus.id t))
                             && TaskStatusQueries.live ts)
                table rank) with (a := r) (bound := bound)
      as (all & Hall & Hmem & Hnd); try done.
    { intros x t. by rewrite andb_true_iff, bool_decide_eq_true. }
    rewrite Hall. exists (Sql.tail_from_1 all). rewrite <- Hid. by split_and!.
  - intros Hnone.
    unfold TaskStatusQueries.get_child_branch.
    rewrite filter_none; [by destruct bound|].
    intros r Hr [Hid%bool_decide_unpack Hl%Is_true_true]%andb_True.
    by rewrite (Hnone r Hr Hid) in Hl.
Qed.

Lemma task_status_child_branch_witness :
  (exists rows,
     TaskStatusQueries.get_child_branch 4 three_level_statuses
       (example_status 1 None 3 false false) = Some rows
     /\ (forall x, x ∈ rows <->
           descends TaskStatus.id TaskStatus.parent
             (fun r => TaskStatusQueries.live r = true) three_level_statuses 1 x)
     /\ NoDup rows)
  /\ TaskStatusQueries.get_child_branch 4 template_branch_statuses
       (example_status 2 (Some 1) 1 false true) = Some [].
Proof.
  split.
  - apply (task_status_child_branch_is_the_live_descent (fun i => i) 4
             three_level_statuses (example_status 1 None 3 false false)
             three_level_statuses_well_formed)
      with (r := example_status 1 None 3 false false).
    + solve_elem_of.
    + reflexivity.
    + reflexivity.
  - apply (task_status_child_branch_is_the_live_descent (fun i => i) 4
             template_branch_statuses (example_status 2 (Some 1) 1 false true)).
    + solve_well_formed.
    + intros r Hr Hid. unfold template_branch_statuses in Hr.
      repeat (apply elem_of_cons in Hr as [->|Hr]); simplify_eq/=; try done.
      by inversion Hr.
Defined.

(** * Conflicts on start dates *)

Lemma started_on_spec d client tk t :
  (bool_decide (Task.parent_task tk = Some (Task.id t))
   && match Task.started tk with
      | Some s => bool_decide (Sql.date_trunc_minute d < Sql.date_trunc_minute s)%Z
      | None => false
      end
   && negb (Task.is_deleted tk)
   && Sql.sql_eq (Task.client tk) client) = true
  <-> Task.parent_task tk = Some (Task.id t) /\ started_conflicts d client tk.
Proof.
  unfold started_conflicts.
  rewrite !andb_true_iff, bool_decide_eq_true, negb_true_iff, sql_eq_true.
  destruct (Task.started tk) as [s|].
  - rewrite bool_decide_eq_true, date_trunc_minute_lt. naive_solver.
  - naive_solver.
Qed.

(** X3.  On a well-formed table and for a stored task,
    [get_child_branch_conflict_started_tasks] returns exactly the tasks that
    hang below the task through tasks that are all non-deleted, of the given
    client, and that start (truncated to the minute) strictly after the
    proposed start; none comes twice.  A late task below a task that does not
    itself conflict is not among them. *)
Theorem conflict_started_tasks_follow_conflicting_chains
    rank bound table self started client :
  well_formed_tasks rank bound table ->
  Task.id self ∈ Task.id <$> table ->
  exists rows,
    TaskQueries.get_child_branch_conflict_started_tasks bound table self started
      client = Some rows
    /\ (forall x, x ∈ rows <->
          descends Task.id Task.parent_task (started_conflicts started client)
            table (Task.id self) x)
    /\ NoDup rows
    /\ (forall x p, x ∈ rows -> p ∈ table -> Task.parent_task x = Some (Task.id p) ->
          Task.id p = Task.id self \/ started_conflicts started client p).
Proof.
  intros (Hu & Hacyc & Hb) Hself.
  destruct (filter_pk_singleton Task.id table (Task.id self) Hu Hself)
    as (a & Ha & Hid & Hanchor).
  unfold TaskQueries.get_child_branch_conflict_started_tasks,
    TaskQueries.conflict_started_step. rewrite Hanchor.
  destruct (descent_query_spec Task.id Task.parent_task
              (started_conflicts started client)
              (fun tk t =>
                 bool_decide (Task.parent_task tk = Some (Task.id t))
                 && match Task.started tk with
                    | Some s =>
                        bool_decide
                          (Sql.date_trunc_minute started < Sql.date_trunc_minute s)%Z
                    | None => false
                    end
                 && negb (Task.is_deleted tk)
                 && Sql.sql_eq (Task.client tk) client)
              table rank) with (a := a) (bound := bound)
    as (all & Hall & Hmem & Hnd); try done.
  { intros x t. apply started_on_spec. }
  rewrite Hall. exists (Sql.tail_from_1 all). rewrite <- Hid.
  split_and!; try done.
  intros x p Hx Hp Hparent. apply Hmem in Hx.
  inversion Hx as [? _ Hpa _|t ? Ht _ Hpt _]; subst.
  - left. congruence.
  - right. assert (t = p) as <-; [|by inversion Ht].
    apply (pk_unique_inj Task.id table); try done; [|congruence].
    by inversion Ht.
Qed.

Lemma conflict_started_tasks_witness :
  exists rows,
    TaskQueries.get_child_branch_conflict_started_tasks 3 parent_and_child_tasks
      (example_task 1 None 1 (Some at_10) (Some at_12) false false)
      (at_10 - hour)%Z (Some 7) = Some rows
    /\ (forall x, x ∈ rows <->
          descends Task.id Task.parent_task
            (started_conflicts (at_10 - hour)%Z (Some 7))
            parent_and_child_tasks 1 x)
    /\ NoDup rows
    /\ (forall x p, x ∈ rows -> p ∈ parent_and_child_tasks ->
          Task.parent_task x = Some (Task.id p) ->
          Task.id p = 1 \/ started_conflicts (at_10 - hour)%Z (Some 7) p).
Proof.
  apply (conflict_started_tasks_follow_conflicting_chains (fun i => i) 3
           parent_and_child_tasks
           (example_task 1 None 1 (Some at_10) (Some at_12) false false)
           (at_10 - hour)%Z (Some 7)).
  - apply parent_and_child_tasks_well_formed.
  - by apply (bool_decide_unpack _).
Defined.

(** X4.  When the caller has no client ([client] is [None], compared in SQL
    as [tk.client = NULL]), both conflict queries return nothing, whatever
    the tasks stored and the proposed date. *)
Theorem conflict_queries_with_null_client_return_nothing
    levels table self d :
  pk_unique Task.id table -> 0 < levels ->
  TaskQueries.get_child_branch_conflict_started_tasks levels table self d None
    = Some []
  /\ TaskQueries.get_child_branch_conflict_deadline_tasks levels table self d None
     = Some [].
Proof.
  intros Hu Hpos. destruct levels as [|n]; [lia|].
  pose proof (filter_pk_length' Task.id table (Task.id self) Hu) as Hlen.
  unfold TaskQueries.get_child_branch_conflict_started_tasks,
    TaskQueries.get_child_branch_conflict_deadline_tasks,
    TaskQueries.conflict_started_step, TaskQueries.conflict_deadline_step.
  assert (forall (f : Task.t -> Task.t -> bool) working,
            (forall tk t, f tk t = true -> Sql.sql_eq (Task.client tk) None = true) ->
            Sql.join f table working = []) as Hjoin.
  { intros f working Hf. destruct (Sql.join f table working) as [|x l] eqn:E; [done|].
    assert (x ∈ Sql.join f table working) as Hx by (rewrite E; left).
    apply elem_of_join in Hx as (t & _ & _ & Hon). apply Hf in Hon.
    by destruct (Task.client x). }
  destruct (filter _ table) as [|a [|b anchor]]; [done| |simpl in Hlen; lia].
  rewrite !with_recursive_cons.
  rewrite !Hjoin, !with_recursive_nil.
  - done.
  - intros tk t. rewrite !andb_true_iff. naive_solver.
  - intros tk t. rewrite !andb_true_iff. naive_solver.
Qed.

Lemma conflict_queries_with_null_client_witness :
  TaskQueries.get_child_branch_conflict_started_tasks 1 parent_and_child_tasks
    (example_task 1 None 1 (Some at_10) (Some at_12) false false) 0%Z None
    = Some []
  /\ TaskQueries.get_child_branch_conflict_deadline_tasks 1 parent_and_child_tasks
       (example_task 1 None 1 (Some at_10) (Some at_12) false false) 0%Z None
     = Some [].
Proof.
  apply (conflict_queries_with_null_client_return_nothing 1 parent_and_child_tasks
           (example_task 1 None 1 (Some at_10) (Some at_12) false false) 0%Z).
  - unfold pk_unique. by apply (bool_decide_unpack _).
  - lia.
Defined.

(** * The level label of a task *)

Section TaskAncestors.
Context (table : list Task.t).
Hypothesis Hu : pk_unique Task.id table.

Let step : list Task.t -> list Task.t :=
Sql.join (fun tk t => bool_decide (Task.parent_task t = Some (Task.id tk))) table.

Lemma task_ancestor_step_up r a :
a ∈ table -> Task.parent_task r = Some (Task.id a) -> step [r] = [a].
Proof.
intros Ha Hp. unfold step, Sql.join. simpl.
rewrite app_nil_r. apply singleton_of_short.
- erewrite list_filter_iff; [apply (filter_pk_length' Task.id _ (Task.id a) Hu)|].
  intros x. rewrite Hp, !bool_decide_spec. naive_solver.
- apply list_elem_of_filter. split; [|done]. by apply bool_decide_pack.
Qed.

Lemma task_ancestor_step_stop r :
(forall a, a ∈ table -> Task.parent_task r <> Some (Task.id a)) ->
step [r] = [].
Proof.
intros Hstop. unfold step, Sql.join. simpl. rewrite app_nil_r.
apply filter_none. intros a Ha Hp%bool_decide_unpack. by apply (Hstop a).
Qed.

(** Level by level, [Task.get_ancestors] walks up the chain of parents. *)
Lemma with_recursive_task_ancestors r chain levels :
task_ancestors table r chain -> length chain < levels ->
Sql.with_recursive step levels [r] = Some (r :: chain).
Proof.
intros Hchain. revert levels.
induction Hchain as [r Hstop|r a chain Ha Hp _ IH]; intros levels Hlen.
- destruct levels as [|n]; [simpl in Hlen; lia|].
  rewrite with_recursive_cons, task_ancestor_step_stop by done.
  by rewrite with_recursive_nil.
- destruct levels as [|n]; [simpl in Hlen; lia|].
  rewrite with_recursive_cons, (task_ancestor_step_up r a) by done.
  rewrite IH by (simpl in Hlen; lia). done.
Qed.

Lemma task_ancestors_exist rank r :
acyclic Task.id Task.parent_task rank table -> r ∈ table ->
exists chain, task_ancestors table r chain /\ length chain <= rank (Task.id r).
Proof.
intros Hacyc. remember (rank (Task.id r)) as k eqn:Hk.
revert r Hk. induction (lt_wf k) as [k _ IH]. intros r -> Hr.
destruct (decide (Exists (fun a => Task.parent_task r = Some (Task.id a)) table))
  as [Hex|Hno].
- apply Exists_exists in Hex as (a & Ha & Hp).
  pose proof (acyclic_elim _ _ _ _ _ _ Hacyc Hr Hp) as Hrank.
  destruct (IH _ Hrank a eq_refl Ha) as (chain & Hchain & Hlen).
  exists (a :: chain). split; [by eapply task_ancestors_up|simpl; lia].
- exists []. split; [|simpl; lia]. apply task_ancestors_stop. intros a Ha Hp.
  apply Hno, Exists_exists. by exists a.
Qed.
End TaskAncestors.

(** X5.  For a stored task with [m] ancestors, [Task.get_ancestors] returns
    the task followed by its ancestors, parent first and root last, whether
    or not they are deleted or templates, and [Task.get_task_level] returns
    the orders of these [m] ancestors, root first, joined by dots: the task's
    own order is not part of the label, a top-level task has the empty label,
    and otherwise the label splits into exactly [m] segments. *)
Theorem task_level_lists_every_ancestor_root_first rank bound table self r :
  well_formed_tasks rank bound table ->
  r ∈ table -> Task.id r = Task.id self ->
  exists chain label,
    task_ancestors table r chain
    /\ TaskQueries.get_ancestors bound table self = Some (r :: chain)
    /\ get_task_level bound table self = Some label
    /\ label = TaskStatusQueries.join_dot
                 (reverse ((fun a => TaskStatusQueries.str_int (Task.order a))
                             <$> chain))
    /\ (chain = [] -> label = "")
    /\ (chain <> [] -> length (split_dot label) = length chain).
Proof.
  intros (Hu & Hacyc & Hb) Hr Hid.
  destruct (task_ancestors_exist table rank r Hacyc Hr) as (chain & Hchain & Hlen).
  pose proof (ranked_below_elim _ _ _ _ _ Hb Hr) as Hrank.
  exists chain. eexists. split; [done|].
  assert (TaskQueries.get_ancestors bound table self = Some (r :: chain)) as Hrun.
  { unfold TaskQueries.get_ancestors.
    assert (filter (fun x => bool_decide (Task.id x = Task.id self)) table = [r])
      as ->.
    { apply singleton_of_short; [by apply filter_pk_length'|].
      apply list_elem_of_filter. split; [|done]. by apply bool_decide_pack. }
    apply (with_recursive_task_ancestors table Hu r chain bound Hchain). lia. }
  split; [done|]. unfold get_task_level. rewrite Hrun.
  cbn [mbind option_bind]. rewrite fmap_cons, reverse_cons, removelast_last.
  split; [done|]. split; [done|]. split.
  - by intros ->.
  - intros Hne. rewrite split_dot_join_dot.
    + by rewrite length_reverse, length_fmap.
    + destruct chain; [done|]. rewrite fmap_cons, reverse_cons.
      intros Hnil. by apply app_eq_nil in Hnil as [_ ?].
    + apply Forall_forall. intros s Hs. rewrite elem_of_reverse in Hs.
      apply list_elem_of_fmap in Hs as (a & -> & _). apply str_int_no_dot.
Qed.

Lemma task_level_witness :
  let node := example_task 3 (Some 2) 2 None None false false in
  exists chain,
    task_ancestors hidden_ancestor_tasks node chain
    /\ TaskQueries.get_ancestors 4 hidden_ancestor_tasks node = Some (node :: chain)
    /\ get_task_level 4 hidden_ancestor_tasks node = Some "3.1"
    /\ length chain = 2.
Proof.
  destruct (task_level_lists_every_ancestor_root_first (fun i => i) 4
              hidden_ancestor_tasks
              (example_task 3 (Some 2) 2 None None false false)
              (example_task 3 (Some 2) 2 None None false false))
    as (chain & label & Hchain & Hrows & Hrun & Hlabel & Hnone & Hsome).
  - solve_well_formed.
  - solve_elem_of.
  - reflexivity.
  - exists chain. split_and!; [done|done|done|].
    vm_compute in Hrows. by injection Hrows as <-.
Defined.

(** * Leaves and pre-order walks of the branch *)

Lemma descends_in_table {A} (pk : A -> uuid) parent keep table top x :
  descends pk parent keep table top x -> x ∈ table /\ keep x.
Proof. by inversion 1. Qed.

Lemma descends_weaken {A} (pk : A -> uuid) parent (keep keep' : A -> Prop)
    table top x :
  (forall r, keep r -> keep' r) ->
  descends pk parent keep table top x -> descends pk parent keep' table top x.
Proof.
  intros Hk. induction 1; [apply descends_child|eapply descends_below]; eauto.
Qed.

(** The rows below [top] are its kept children and the rows below them. *)
Lemma descends_children {A} (pk : A -> uuid) parent keep table top x :
  descends pk parent keep table top x <->
  exists c, c ∈ table /\ parent c = Some top /\ keep c
            /\ (x = c \/ descends pk parent keep table (pk c) x).
Proof.
  split.
  - induction 1 as [x Hx Hp Hk|t x _ (c & Hc & Hpc & Hkc & IH) Hx Hp Hk].
    + exists x. split_and!; try done. by left.
    + exists c. split_and!; try done. right. destruct IH as [->|IH].
      * by apply descends_child.
      * by eapply descends_below.
  - intros (c & Hc & Hpc & Hkc & [->|Hbelow]); [by apply descends_child|].
    induction Hbelow as [y Hy Hp Hk|t y _ IH Hy Hp Hk].
    + apply (descends_below _ _ _ _ _ c); [by apply descends_child|done..].
    + by eapply descends_below.
Qed.

(** A non-empty list has an element of greatest measure. *)
Lemma list_greatest {A} (f : A -> nat) (l : list A) :
  l <> [] -> exists x, x ∈ l /\ forall y, y ∈ l -> f y <= f x.
Proof.
  induction l as [|a l IH]; [done|]. intros _.
  destruct l as [|b l].
  - exists a. split; [left|]. by intros y ->%list_elem_of_singleton.
  - destruct IH as (x & Hx & Hmax); [done|].
    destruct (decide (f x <= f a)).
    + exists a. split; [left|]. intros y [->|Hy]%elem_of_cons; [done|].
      specialize (Hmax y Hy). lia.
    + exists x. split; [by right|]. intros y [->|Hy]%elem_of_cons; [lia|].
      by apply Hmax.
Qed.

(** X6.  On a well-formed table and for a stored task, [get_only_subtasks]
    returns the leaves of the branch of the task: a task of the branch is
    kept exactly when every task stored with it as parent is deleted.  A
    non-empty branch has at least one such leaf. *)
Theorem only_subtasks_are_the_leaves_of_the_branch rank bound table instance :
  well_formed_tasks rank bound table ->
  Task.id instance ∈ Task.id <$> table ->
  exists branch leaves,
    TaskQueries.get_child_branch bound table instance = Some branch
    /\ get_only_subtasks bound table instance = Some leaves
    /\ (forall t, t ∈ leaves <->
          t ∈ branch
          /\ forall c, c ∈ table -> Task.parent_task c = Some (Task.id t) ->
                       Task.is_deleted c = true)
    /\ (branch <> [] -> leaves <> []).
Proof.
  intros Hwf Hself.
  destruct (task_child_branch_spec rank bound table instance Hwf Hself)
    as (branch & Hbranch & Hmem & _).
  destruct Hwf as (Hu & Hacyc & Hb).
  exists branch. eexists. split; [done|].
  unfold get_only_subtasks. rewrite Hbranch. cbn [mbind option_bind].
  split; [done|].
  assert (forall t, t ∈ branch ->
            head (filter (fun x => bool_decide (Task.parent_task x = Some (Task.id t)))
                    branch) = None
            <-> forall c, c ∈ table -> Task.parent_task c = Some (Task.id t) ->
                          Task.is_deleted c = true) as Hleaf.
  { intros t Ht. rewrite head_None. split.
    - intros Hnil c Hc Hp. destruct (Task.is_deleted c) eqn:Hd; [done|].
      exfalso.
      assert (c ∈ filter (fun x => bool_decide (Task.parent_task x = Some (Task.id t)))
                   branch) as Hin.
      { apply list_elem_of_filter. split; [by apply bool_decide_pack|].
        apply Hmem. eapply descends_below; [by apply Hmem|done..]. }
      rewrite Hnil in Hin. by inversion Hin.
    - intros Hdel. apply filter_none. intros x Hx Hp%bool_decide_unpack.
      apply Hmem, descends_in_table in Hx as [Hx Hlive].
      by rewrite (Hdel x Hx Hp) in Hlive. }
  assert (forall t,
            t ∈ filter
                  (fun task =>
                     negb (bool_decide
                             (is_Some
                                (head (filter
                                         (fun x => bool_decide
                                                     (Task.parent_task x
                                                      = Some (Task.id task)))
                                         branch)))))
                  branch
            <-> t ∈ branch
                /\ forall c, c ∈ table -> Task.parent_task c = Some (Task.id t) ->
                             Task.is_deleted c = true) as Hleaves.
  { intros t. rewrite list_elem_of_filter, negb_True, bool_decide_spec.
    rewrite <- eq_None_not_Some. split.
    - intros [Hnone Ht]. split; [done|]. by apply Hleaf.
    - intros [Ht Hdel]. split; [|done]. by apply Hleaf. }
  split; [exact Hleaves|].
  intros Hne. destruct (list_greatest (fun t => rank (Task.id t)) branch Hne)
    as (t & Ht & Hmax).
  intros Hnil. assert (t ∈ @nil Task.t) as Hin; [|by inversion Hin].
  rewrite <- Hnil. apply Hleaves. split; [done|].
  intros c Hc Hp. destruct (Task.is_deleted c) eqn:Hd; [done|]. exfalso.
  assert (c ∈ branch) as Hcb.
  { apply Hmem. eapply descends_below; [by apply Hmem|done..]. }
  pose proof (acyclic_elim _ _ _ _ _ _ Hacyc Hc Hp) as Hrank.
  specialize (Hmax c Hcb). simpl in Hmax. lia.
Qed.

Lemma only_subtasks_witness :
  exists branch leaves,
    TaskQueries.get_child_branch 5 two_leaf_tasks
      (example_task 1 None 1 None None false false) = Some branch
    /\ get_only_subtasks 5 two_leaf_tasks
         (example_task 1 None 1 None None false false) = Some leaves
    /\ length leaves = 2
    /\ (forall t, t ∈ leaves <->
          t ∈ branch
          /\ forall c, c ∈ two_leaf_tasks ->
                       Task.parent_task c = Some (Task.id t) ->
                       Task.is_deleted c = true).
Proof.
  destruct (only_subtasks_are_the_leaves_of_the_branch (fun i => i) 5
              two_leaf_tasks (example_task 1 None 1 None None false false))
    as (branch & leaves & Hbranch & Hleaves & Hmem & _).
  - solve_well_formed.
  - by apply (bool_decide_unpack _).
  - exists branch, leaves. split_and!; try done.
    vm_compute in Hleaves. by injection Hleaves as <-.
Defined.

Lemma task_set_spec table p c :
  c ∈ task_set table p <->
  c ∈ table /\ Task.parent_task c = Some p /\ visible_task c.
Proof.
  unfold task_set, visible_task.
  rewrite list_elem_of_filter, task_objects_spec, bool_decide_spec. naive_solver.
Qed.

(** [get_all_tasks] appends, in pre-order, the visible tasks below its
    argument. *)
Lemma get_all_tasks_spec rank bound table :
  well_formed_tasks rank bound table ->
  forall depth p all_tasks,
    0 < depth -> bound <= depth + rank p ->
    exists found,
      get_all_tasks depth table p all_tasks = (all_tasks ++ found, None)
      /\ forall x, x ∈ found <->
                   descends Task.id Task.parent_task visible_task table p x.
Proof.
  intros (Hu & Hacyc & Hb). induction depth as [|d IH]; intros p all_tasks Hpos Hle;
    [lia|].
  cbn [get_all_tasks].
  assert (forall l acc,
            (forall c, c ∈ l -> c ∈ task_set table p) ->
            exists found,
              foldl
                (fun (state : list Task.t * option exn) task =>
                   match state.2 with
                   | Some e => state
                   | None => get_all_tasks d table (Task.id task) (state.1 ++ [task])
                   end)
                (acc, None) l
              = (acc ++ found, None)
              /\ forall x, x ∈ found <->
                   exists c, c ∈ l
                             /\ (x = c
                                 \/ descends Task.id Task.parent_task visible_task
                                      table (Task.id c) x)) as Hloop.
  { induction l as [|c l IHl]; intros acc Hl.
    - exists []. rewrite app_nil_r. split; [done|].
      intros x. split; [by inversion 1|]. intros (c & Hc & _). by inversion Hc.
    - assert (c ∈ task_set table p) as Hc by (apply Hl; left).
      apply task_set_spec in Hc as (Hc & Hp & Hvis).
      pose proof (acyclic_elim _ _ _ _ _ _ Hacyc Hc Hp) as Hrank.
      pose proof (ranked_below_elim _ _ _ _ _ Hb Hc) as Hbound.
      destruct (IH (Task.id c) (acc ++ [c])) as (fc & Hrun & Hfc); [lia|lia|].
      destruct (IHl ((acc ++ [c]) ++ fc)) as (fl & Hrest & Hfl).
      { intros c' Hc'. apply Hl. by right. }
      exists (c :: fc ++ fl). split.
      + cbn [foldl snd fst]. rewrite Hrun, Hrest. f_equal.
        by rewrite <- !app_assoc.
      + intros x. rewrite elem_of_cons, elem_of_app, Hfc, Hfl. split.
        * intros [->|[Hx|(c' & Hc' & Hx)]].
          -- exists c. split; [left|by left].
          -- exists c. split; [left|by right].
          -- exists c'. split; [by right|done].
        * intros (c' & [->|Hc']%elem_of_cons & Hx); [destruct Hx; auto|].
          right. right. by exists c'. }
  destruct (Hloop (task_set table p) all_tasks) as (found & Hrun & Hfound); [done|].
  exists found. split; [done|]. intros x.
  rewrite Hfound, descends_children. split.
  - intros (c & (Hc & Hp & Hvis)%task_set_spec & Hx). by exists c.
  - intros (c & Hc & Hp & Hvis & Hx). exists c. split; [|done].
    by apply task_set_spec.
Qed.

(** X7.  On a well-formed table, with a recursion limit above the depth of
    the tree, [get_all_tasks] returns without error; it appends to the list
    it is given exactly the tasks that hang below its argument through tasks
    that are all non-deleted and non-template.  Each of them is a row of
    [Task.get_child_branch] of the same task; the converse holds when no
    stored task is a template. *)
Theorem get_all_tasks_collects_the_visible_descent
    rank bound depth table parent_task all_tasks :
  well_formed_tasks rank bound table -> bound < depth ->
  Task.id parent_task ∈ Task.id <$> table ->
  exists found branch,
    get_all_tasks depth table (Task.id parent_task) all_tasks
      = (all_tasks ++ found, None)
    /\ (forall x, x ∈ found <->
          descends Task.id Task.parent_task visible_task table
            (Task.id parent_task) x)
    /\ TaskQueries.get_child_branch bound table parent_task = Some branch
    /\ (forall x, x ∈ found -> x ∈ branch)
    /\ ((forall r, r ∈ table -> Task._template r = false) ->
        forall x, x ∈ branch -> x ∈ found).
Proof.
  intros Hwf Hdepth Hself.
  destruct (get_all_tasks_spec rank bound table Hwf depth (Task.id parent_task)
              all_tasks) as (found & Hrun & Hfound); [lia|lia|].
  destruct (task_child_branch_spec rank bound table parent_task Hwf Hself)
    as (branch & Hbranch & Hmem & _).
  exists found, branch. split_and!; try done.
  - intros x Hx%Hfound. apply Hmem.
    eapply descends_weaken; [|exact Hx]. by intros r [? _].
  - intros Hnt x Hx%Hmem. apply Hfound. clear -Hnt Hx.
    induction Hx as [x Hx Hp Hk|t x _ IH Hx Hp Hk].
    + apply descends_child; try done. split; [done|by apply Hnt].
    + eapply descends_below; try done. split; [done|by apply Hnt].
Qed.

Lemma get_all_tasks_witness :
  let parent_task := example_task 1 None 1 None None false false in
  exists found branch,
    get_all_tasks 6 two_leaf_tasks 1 [parent_task] = ([parent_task] ++ found, None)
    /\ length found = 3
    /\ (forall x, x ∈ found <->
          descends Task.id Task.parent_task visible_task two_leaf_tasks 1 x)
    /\ TaskQueries.get_child_branch 5 two_leaf_tasks parent_task = Some branch
    /\ (forall x, x ∈ found -> x ∈ branch)
    /\ (forall x, x ∈ branch -> x ∈ found).
Proof.
  destruct (get_all_tasks_collects_the_visible_descent (fun i => i) 5 6
              two_leaf_tasks (example_task 1 None 1 None None false false)
              [example_task 1 None 1 None None false false])
    as (found & branch & Hrun & Hfound & Hbranch & Hsub & Hsup).
  - solve_well_formed.
  - lia.
  - by apply (bool_decide_unpack _).
  - exists found, branch. split_and!; try done.
    + vm_compute in Hrun. by injection Hrun as <-.
    + apply Hsup. intros r Hr. unfold two_leaf_tasks in Hr.
      repeat (apply elem_of_cons in Hr as [->|Hr]); try done. by inversion Hr.
Defined.

(** * Order rebase of task statuses *)

Lemma after_status_saves_table updates w :
  task_status_table (after_status_saves updates w)
  = foldl (fun table u => upsert TaskStatus.id u table) (task_status_table w) updates.
Proof.
  revert w. induction updates as [|u updates IH]; intros w; [done|].
  simpl. by rewrite IH.
Qed.

Lemma after_status_saves_tasks updates w :
  task_table (after_status_saves updates w) = task_table w.
Proof.
  revert w. induction updates as [|u updates IH]; intros w; [done|].
  simpl. by rewrite IH.
Qed.

(** A status saved with a non-zero order passes the hook unchanged. *)
Lemma for_each_task_status_save (g : nat -> TaskStatus.t -> TaskStatus.t) ps w :
  never_fails w ->
  (forall p, p ∈ ps -> TaskStatus.order (g p.1 p.2) <> 0%Z) ->
  for_each (fun '(idx, task_status) => task_status_save (g idx task_status) ;;; ret tt)
    ps w
  = Ok tt (after_status_saves ((fun p => g p.1 p.2) <$> ps) w).
Proof.
  revert w. induction ps as [|[idx ts] ps IH]; intros w Hok Hnz; [done|].
  cbn [for_each fmap list_fmap]. unfold bind at 1. unfold bind at 1.
  unfold task_status_save, bind, get_world.
  unfold set_order_for_task_status.
  rewrite bool_decide_eq_false_2 by (apply (Hnz (idx, ts)); left).
  cbn [andb]. rewrite write_ok by done. simpl. unfold ret at 1 2.
  rewrite IH; [done|done|]. intros p Hp. apply Hnz. by right.
Qed.

(** X8.  With unique primary keys, no rejected write and a target order that
    is not negative, [rebase_task_status] succeeds.  The statuses it
    renumbers are the visible statuses of the scope (same parent, project and
    client) whose order is at least the target, the instance apart, taken by
    ascending previous order; the one at position [i] gets order
    [target + i + 1].  Every other status, and every task, is left as it
    was. *)
Theorem rebase_task_status_renumbers_from_target
    w instance order project client :
  pk_unique TaskStatus.id (task_status_table w) -> never_fails w ->
  (0 <= order)%Z ->
  exists next_task_statuses w',
    rebase_task_status instance order project client w = Ok tt w'
    /\ (forall r, r ∈ next_task_statuses <->
                  shifted_status_sibling (task_status_table w) instance order
                    project client r)
    /\ NoDup next_task_statuses
    /\ StronglySorted (Sql.asc TaskStatus.order) next_task_statuses
    /\ Forall2
         (fun old new =>
            (exists i, next_task_statuses !! i = Some old
                       /\ new = TaskStatus.set_order (order + (Z.of_nat i + 1))%Z old)
            \/ ((old ∉ next_task_statuses) /\ new = old))
         (task_status_table w) (task_status_table w')
    /\ task_table w' = task_table w.
Proof.
  intros Hu Hok Hpos. unfold rebase_task_status, bind, get_world.
  match goal with |- context [enumerate ?l] => set (next := l) end.
  exists next. eexists.
  rewrite (for_each_task_status_save
             (fun idx ts => TaskStatus.set_order (order + (Z.of_nat idx + 1))%Z ts))
    by (try done; intros p _; simpl; lia).
  split; [done|].
  assert (forall r, r ∈ next <->
            shifted_status_sibling (task_status_table w) instance order project
              client r) as Hmem.
  { intros r. subst next. unfold Sql.order_by. rewrite merge_sort_Permutation.
    rewrite !list_elem_of_filter, task_status_objects_spec, bool_decide_spec.
    rewrite !andb_True, bool_decide_spec, !Is_true_true, !orm_eq_true.
    unfold shifted_status_sibling. naive_solver. }
  assert (pk_unique TaskStatus.id next) as Hnext.
  { subst next. unfold pk_unique, Sql.order_by.
    rewrite merge_sort_Permutation.
    apply (pk_unique_filter TaskStatus.id), (pk_unique_filter TaskStatus.id).
    unfold task_status_objects. by apply (pk_unique_filter TaskStatus.id). }
  split; [done|]. split; [by eapply pk_unique_NoDup|].
  split; [apply (StronglySorted_merge_sort _)|].
  split; [|apply after_status_saves_tasks].
  rewrite after_status_saves_table.
  set (f := fun (idx : nat) (ts : TaskStatus.t) =>
              TaskStatus.set_order (order + (Z.of_nat idx + 1))%Z ts).
  assert ((fun p : nat * TaskStatus.t =>
             TaskStatus.set_order (order + (Z.of_nat p.1 + 1))%Z p.2)
            <$> enumerate next = imap f next) as ->.
  { unfold enumerate. rewrite fmap_imap. by apply imap_ext. }
  assert (forall j x, TaskStatus.id (f j x) = TaskStatus.id x) as Hf by done.
  assert (TaskStatus.id <$> imap f next = TaskStatus.id <$> next) as Hids.
  { rewrite fmap_imap. clear -Hf. generalize f Hf. clear.
    induction next as [|a l IH]; intros f Hf; [done|].
    rewrite imap_cons, fmap_cons. f_equal; [apply Hf|].
    apply (IH (f ∘ S)). intros; apply Hf. }
  rewrite (foldl_upsert TaskStatus.id).
  - apply Forall2_fmap_r, Forall_Forall2_diag, Forall_forall. intros r Hr.
    destruct (decide (TaskStatus.id r ∈ TaskStatus.id <$> next)) as [Hin|Hnot].
    + left. apply list_elem_of_fmap in Hin as (x & Hx & Hin).
      assert (x = r) as ->.
      { apply (pk_unique_inj TaskStatus.id (task_status_table w)); try done.
        by apply Hmem in Hin as [? _]. }
      apply list_elem_of_lookup in Hin as [i Hi]. exists i. split; [done|].
      unfold patch. by rewrite (head_filter_imap TaskStatus.id f next i r).
    + right. split.
      * intros Hin. apply Hnot. by apply list_elem_of_fmap_2.
      * apply patch_fresh. by rewrite Hids.
  - by rewrite Hids.
  - intros u Hu'. apply (list_elem_of_fmap_2 TaskStatus.id) in Hu'.
    rewrite Hids in Hu'. apply list_elem_of_fmap in Hu' as (x & -> & Hx).
    apply list_elem_of_fmap_2. by apply Hmem in Hx as [? _].
Qed.

Lemma rebase_task_status_witness :
  let w := status_world (fun _ => false) in
  let instance := example_status 1 None 1 false false in
  exists next_task_statuses w',
    rebase_task_status instance 1 (Some 100) (Some 7) w = Ok tt w'
    /\ (forall r, r ∈ next_task_statuses <->
                  shifted_status_sibling (task_status_table w) instance 1
                    (Some 100) (Some 7) r)
    /\ NoDup next_task_statuses
    /\ StronglySorted (Sql.asc TaskStatus.order) next_task_statuses
    /\ Forall2
         (fun old new =>
            (exists i, next_task_statuses !! i = Some old
                       /\ new = TaskStatus.set_order (1 + (Z.of_nat i + 1))%Z old)
            \/ ((old ∉ next_task_statuses) /\ new = old))
         (task_status_table w) (task_status_table w')
    /\ task_table w' = task_table w.
Proof.
  apply (rebase_task_status_renumbers_from_target (status_world (fun _ => false))
           (example_status 1 None 1 false false) 1 (Some 100) (Some 7)).
  - unfold pk_unique. by apply (bool_decide_unpack _).
  - intros n. reflexivity.
  - lia.
Defined.

(** * Date rebase of a project *)

(** X9.  With unique primary keys and no rejected write,
    [rebase_the_project_dates] succeeds.  It adds [difference] to the start
    and, when there is one, to the deadline of every non-deleted,
    non-template task of the project that has a start, so that the span
    between start and deadline of each is preserved; every other task (of
    another project, without start, deleted or template) is left as it
    was. *)
Theorem rebase_the_project_dates_shifts_both_dates w project difference :
  pk_unique Task.id (task_table w) -> never_fails w ->
  exists w',
    rebase_the_project_dates project difference w = Ok tt w'
    /\ Forall2
         (fun old new =>
            (visible_task old
             /\ Task.project old = Some (Project.id project)
             /\ (exists s, Task.started old = Some s
                   /\ new = Task.set_deadline
                              ((fun d => (d + difference)%Z) <$> Task.deadline old)
                              (Task.set_started (Some (s + difference)%Z) old))
             /\ (forall s d s' d',
                   Task.started old = Some s -> Task.deadline old = Some d ->
                   Task.started new = Some s' -> Task.deadline new = Some d' ->
                   (d' - s' = d - s)%Z))
            \/ (~ (visible_task old
                   /\ Task.project old = Some (Project.id project)
                   /\ is_Some (Task.started old))
                /\ new = old))
         (task_table w) (task_table w')
    /\ task_status_table w' = task_status_table w.
Proof.
  intros Hu Hok. unfold rebase_the_project_dates, bind, get_world.
  set (sel := filter _ (task_objects (task_table w))).
  set (g := fun task : Task.t =>
              let task := match Task.started task with
                          | Some started =>
                              Task.set_started (Some (started + difference)%Z) task
                          | None => task
                          end in
              match Task.deadline task with
              | Some deadline => Task.set_deadline (Some (deadline + difference)%Z) task
              | None => task
              end).
  assert (forall r, r ∈ sel <->
            r ∈ task_table w /\ visible_task r
            /\ Task.project r = Some (Project.id project)
            /\ is_Some (Task.started r)) as Hsel.
  { intros r. subst sel. rewrite list_elem_of_filter, task_objects_spec.
    rewrite andb_True, Is_true_true, orm_eq_true, bool_decide_spec.
    unfold visible_task. naive_solver. }
  assert (forall x, Task.id (g x) = Task.id x) as Hg.
  { intros x. subst g. destruct x; simpl. by repeat case_match. }
  assert (forall r, r ∈ task_table w ->
    let new :=
      if negb (Task.is_deleted r) && negb (Task._template r) then
        match head (filter (fun o => bool_decide (Task.id o = Task.id r)) (g <$> sel))
        with
        | Some o => Task.set_deadline (Task.deadline o) (Task.set_started (Task.started o) r)
        | None => r
        end
      else r in
    (visible_task r
     /\ Task.project r = Some (Project.id project)
     /\ (exists s, Task.started r = Some s
           /\ new = Task.set_deadline
                      ((fun d => (d + difference)%Z) <$> Task.deadline r)
                      (Task.set_started (Some (s + difference)%Z) r))
     /\ (forall s d s' d',
           Task.started r = Some s -> Task.deadline r = Some d ->
           Task.started new = Some s' -> Task.deadline new = Some d' ->
           (d' - s' = d - s)%Z))
    \/ (~ (visible_task r
           /\ Task.project r = Some (Project.id project)
           /\ is_Some (Task.started r))
        /\ new = r)) as Hrow.
  { intros r Hr. simpl. destruct (head _) as [o|] eqn:Ehead.
    - apply head_Some_elem_of, list_elem_of_filter in Ehead
        as [Hid%bool_decide_unpack (r' & -> & Hr')%list_elem_of_fmap].
      assert (r' = r) as ->.
      { apply (pk_unique_inj Task.id (task_table w)); try done.
        - by apply Hsel in Hr' as [? _].
        - by rewrite <- Hg. }
      apply Hsel in Hr' as (_ & [Hd Ht] & Hp & [s Hs]).
      rewrite Hd, Ht. simpl. left. split_and!; try done.
      + exists s. split; [done|]. subst g. simpl. rewrite Hs.
        destruct r; simpl in *. by destruct deadline.
      + intros s0 d s' d' Hs0 Hd0. subst g. simpl. rewrite Hs0.
        destruct r; simpl in *. simplify_eq. simpl. intros; simplify_eq. lia.
    - right. apply head_None in Ehead. split; [|by case_match].
      intros (Hv & Hp & Hs).
      assert (g r ∈ filter (fun o => bool_decide (Task.id o = Task.id r)) (g <$> sel))
        as Hin.
      { apply list_elem_of_filter. split; [by apply bool_decide_pack|].
        apply list_elem_of_fmap_2. by apply Hsel. }
      rewrite Ehead in Hin. by inversion Hin. }
  destruct (g <$> sel) as [|o objs] eqn:Eobjs.
  - eexists. split; [reflexivity|]. split; [|done].
    apply Forall_Forall2_diag, Forall_forall. intros r Hr.
    specialize (Hrow r Hr). cbv zeta in Hrow. simpl in Hrow.
    destruct (negb (Task.is_deleted r) && negb (Task._template r)); exact Hrow.
  - unfold bulk_update_dates. rewrite write_ok by done.
    eexists. split; [reflexivity|]. split; [|done].
    cbn [task_table with_task_table with_statements].
    apply Forall2_fmap_r, Forall_Forall2_diag, Forall_forall. intros r Hr.
    by apply Hrow.
Qed.

Lemma rebase_the_project_dates_witness :
  let w := example_world project_dates_tasks (fun _ => false) in
  exists w',
    rebase_the_project_dates example_project hour w = Ok tt w'
    /\ (fun r => (Task.id r, Task.started r, Task.deadline r)) <$> task_table w'
       = [ (1, Some (at_10 + hour)%Z, Some (at_12 + hour)%Z);
           (2, None, Some at_12);
           (3, Some at_10, Some at_12) ]
    /\ Forall2
         (fun old new =>
            (visible_task old
             /\ Task.project old = Some 100
             /\ (exists s, Task.started old = Some s
                   /\ new = Task.set_deadline
                              ((fun d => (d + hour)%Z) <$> Task.deadline old)
                              (Task.set_started (Some (s + hour)%Z) old))
             /\ (forall s d s' d',
                   Task.started old = Some s -> Task.deadline old = Some d ->
                   Task.started new = Some s' -> Task.deadline new = Some d' ->
                   (d' - s' = d - s)%Z))
            \/ (~ (visible_task old
                   /\ Task.project old = Some 100
                   /\ is_Some (Task.started old))
                /\ new = old))
         (task_table w) (task_table w').
Proof.
  destruct (rebase_the_project_dates_shifts_both_dates
              (example_world project_dates_tasks (fun _ => false))
              example_project hour)
    as (w' & Hrun & Hrows & _).
  - unfold pk_unique. by apply (bool_decide_unpack _).
  - intros n. reflexivity.
  - exists w'. split_and!; [done| |done].
    vm_compute in Hrun. by injection Hrun as <-.
Defined.

(** * The status date stamped at save time *)

Lemma first_visible_by_pk table instance r :
  pk_unique Task.id table ->
  r ∈ table -> Task.id r = Task.id instance -> visible_task r ->
  Sql.first (filter (fun x => bool_decide (Task.id x = Task.id instance))
               (task_objects table)) = Some r.
Proof.
  intros Hu Hr Hid [Hd Ht].
  assert (filter (fun x => bool_decide (Task.id x = Task.id instance))
            (task_objects table) = [r]) as ->; [|done].
  apply singleton_of_short.
  - apply filter_pk_length'. unfold task_objects. by apply (pk_unique_filter Task.id).
  - apply list_elem_of_filter. split; [by apply bool_decide_pack|].
    by apply task_objects_spec.
Qed.

Lemma first_invisible_by_pk table instance :
  (forall r, r ∈ table -> Task.id r = Task.id instance -> ~ visible_task r) ->
  Sql.first (filter (fun x => bool_decide (Task.id x = Task.id instance))
               (task_objects table)) = None.
Proof.
  intros Hnone. rewrite filter_none; [done|].
  intros r (Hr & Hd & Ht)%task_objects_spec Hid%bool_decide_unpack.
  by apply (Hnone r Hr Hid).
Qed.

Lemma date_after_order (b : bool) v i :
  Task.status_assigned_date (if b then Task.set_order v i else i)
  = Task.status_assigned_date i.
Proof. by destruct b. Qed.

(** X10.  What the [pre_save] hook of [Task] does to [status_assigned_date].
    A task that is new, or whose stored row is deleted or a template, is
    stamped with the current time.  Otherwise the task is stamped when its
    status is set and differs from the stored one, or when the stored row
    has a status and no date; and it keeps the date it carries when its
    status is unchanged or cleared and the stored row has a date or no
    status.  An instance that carries [no_order_signal] is left as it is. *)
Theorem status_date_is_stamped_on_creation_and_on_status_change
    clock table instance :
  pk_unique Task.id table ->
  ((forall r, r ∈ table -> Task.id r = Task.id instance -> ~ visible_task r) ->
   Task.status_assigned_date
     (set_order_for_task_and_status_date clock table false instance)
   = Some clock)
  /\ (forall r, r ∈ table -> Task.id r = Task.id instance -> visible_task r ->
        (is_Some (Task.status instance) ->
         Task.status r <> Task.status instance ->
         Task.status_assigned_date
           (set_order_for_task_and_status_date clock table false instance)
         = Some clock)
        /\ (is_Some (Task.status r) -> Task.status_assigned_date r = None ->
            Task.status_assigned_date
              (set_order_for_task_and_status_date clock table false instance)
            = Some clock)
        /\ (Task.status instance = None \/ Task.status r = Task.status instance ->
            Task.status r = None \/ is_Some (Task.status_assigned_date r) ->
            Task.status_assigned_date
              (set_order_for_task_and_status_date clock table false instance)
            = Task.status_assigned_date instance))
  /\ set_order_for_task_and_status_date clock table true instance = instance.
Proof.
  intros Hu. split_and!; [| |done].
  - intros Hnone. unfold set_order_for_task_and_status_date.
    rewrite first_invisible_by_pk by done. cbv zeta. by rewrite date_after_order.
  - intros r Hr Hid Hvis. unfold set_order_for_task_and_status_date.
    rewrite (first_visible_by_pk table instance r) by done.
    split_and!.
    + intros Hset Hne.
      assert (Task.status r <> Task.status
                (if bool_decide (is_Some (Task.status r))
                    && bool_decide (Task.status_assigned_date r = None)
                 then Task.set_status_assigned_date (Some clock) instance
                 else instance)) as Hne' by (by case_match).
      assert (is_Some (Task.status
                (if bool_decide (is_Some (Task.status r))
                    && bool_decide (Task.status_assigned_date r = None)
                 then Task.set_status_assigned_date (Some clock) instance
                 else instance))) as Hset' by (by case_match).
      rewrite (bool_decide_eq_true_2 _ Hset'), (bool_decide_eq_true_2 _ Hne').
      cbn [andb]. cbv zeta. by rewrite date_after_order.
    + intros Hs Hd.
      rewrite (bool_decide_eq_true_2 _ Hs), (bool_decide_eq_true_2 _ Hd).
      cbn [andb]. cbv zeta. rewrite date_after_order. by case_match.
    + intros Hsame Hdated.
      assert (bool_decide (is_Some (Task.status r))
              && bool_decide (Task.status_assigned_date r = None) = false) as ->.
      { apply andb_false_iff. destruct Hdated as [Hn|[d Hd]].
        - left. apply bool_decide_eq_false_2. rewrite Hn. by intros [? ?].
        - right. apply bool_decide_eq_false_2. by rewrite Hd. }
      assert (bool_decide (is_Some (Task.status instance))
              && bool_decide (Task.status r <> Task.status instance) = false) as ->.
      { apply andb_false_iff. destruct Hsame as [Hn|Heq].
        - left. apply bool_decide_eq_false_2. rewrite Hn. by intros [? ?].
        - right. by apply bool_decide_eq_false_2; intros ?. }
      cbv zeta. by rewrite date_after_order.
Qed.

Lemma status_date_witness :
  let stored := Task.set_status (Some 9) (example_task 1 None 1 None None false false) in
  let moved := Task.set_status (Some 8) stored in
  Task.status_assigned_date
    (set_order_for_task_and_status_date at_10 [stored] false
       (example_task 2 None 1 None None false false)) = Some at_10
  /\ Task.status_assigned_date
       (set_order_for_task_and_status_date at_10 [stored] false moved)
     = Some at_10
  /\ set_order_for_task_and_status_date at_10 [stored] true moved = moved.
Proof.
  pose (stored := Task.set_status (Some 9)
                    (example_task 1 None 1 None None false false)).
  split_and!.
  - apply (status_date_is_stamped_on_creation_and_on_status_change at_10 [stored]
             (example_task 2 None 1 None None false false)).
    + unfold pk_unique. by apply (bool_decide_unpack _).
    + intros r ->%list_elem_of_singleton Hid. done.
  - apply (status_date_is_stamped_on_creation_and_on_status_change at_10 [stored]
             (Task.set_status (Some 8) stored)) with (r := stored).
    + unfold pk_unique. by apply (bool_decide_unpack _).
    + by apply list_elem_of_singleton.
    + reflexivity.
    + by split.
    + by eexists.
    + done.
  - apply (status_date_is_stamped_on_creation_and_on_status_change at_10 [stored]
             (Task.set_status (Some 8) stored)).
    unfold pk_unique. by apply (bool_decide_unpack _).
Defined.

(** * Recurrence: the general run *)

Lemma created_app_assoc (a b c : Created) :
  created_app (created_app a b) c = created_app a (created_app b c).
Proof.
  destruct a as [[??]?], b as [[??]?], c as [[??]?]. unfold created_app. simpl.
  by rewrite !app_assoc.
Qed.

Lemma created_app_nil_r (a : Created) : created_app a ([], [], []) = a.
Proof. destruct a as [[??]?]. unfold created_app. simpl. by rewrite !app_nil_r. Qed.

Lemma rule_allows_spec rule_count count :
  match rule_count with
  | Some c => negb (Nat.eqb c 0) && bool_decide (c <= count)
  | None => false
  end = false <-> rule_allows rule_count count.
Proof.
  unfold rule_allows. destruct rule_count as [c|]; [|done].
  rewrite andb_false_iff, negb_false_iff, Nat.eqb_eq, bool_decide_eq_false. lia.
Qed.

(** The loop of [repeated_task_creator], from any turn after the first. *)
Lemma occurrence_loop_spec dates rule_count instance by_ time_diff latest_order
    max_count all_sub_tasks parent_task_backlogs parent_task_resources :
  forall budget count acc w,
    max_count - count < budget ->
    exists created n w',
      occurrence_loop budget dates rule_count instance by_ time_diff latest_order
        max_count all_sub_tasks parent_task_backlogs parent_task_resources
        (S count) count acc w
      = Ok (created_app acc created) w'
      /\ only_drew_uuids w w'
      /\ generated instance by_ time_diff latest_order all_sub_tasks dates count
           created.1.1 n
      /\ Forall (fun t => next_uuid w <= Task.id t) created.1.1
      /\ (n = 0 \/ (count + n <= max_count
                    /\ rule_allows rule_count (count + n - 1)))
      /\ (dates (S (count + n)) = None \/ max_count <= count + n
          \/ ~ rule_allows rule_count (count + n)).
Proof.
  induction budget as [|b IH]; intros count acc w Hbudget; [lia|].
  cbn [occurrence_loop].
  destruct (dates (S count)) as [dt|] eqn:Edate.
  2:{ exists ([], [], []), 0, w. rewrite created_app_nil_r, Nat.add_0_r.
      split; [done|]. split; [apply only_drew_uuids_refl|].
      split; [constructor|]. split; [constructor|]. split; by left. }
  rewrite bool_decide_eq_false_2 by done.
  destruct (bool_decide (max_count <= count)
            || match rule_count with
               | Some c => negb (Nat.eqb c 0) && bool_decide (c <= count)
               | None => false
               end) eqn:Estop.
  { exists ([], [], []), 0, w. rewrite created_app_nil_r, Nat.add_0_r.
    split; [done|]. split; [apply only_drew_uuids_refl|].
    split; [constructor|]. split; [constructor|]. split; [by left|].
    right. apply orb_true_iff in Estop as [Hmax%bool_decide_eq_true|Hrule].
    - by left.
    - right. intros Hallow%rule_allows_spec. congruence. }
  apply orb_false_iff in Estop as [Hmax%bool_decide_eq_false Hrule%rule_allows_spec].
  erewrite bind_Ok by reflexivity.
  set (pk := next_uuid w). set (w0 := with_next_uuid (S pk) w).
  destruct (map_m_uuid4
              (fun k b => TaskBacklog.set_task pk (TaskBacklog.set_id k b))
              parent_task_backlogs w0) as (nb & w1 & Hrun1 & Hw1 & _).
  destruct (map_m_uuid4
              (fun k r => TaskResource.set_task pk (TaskResource.set_id k r))
              parent_task_resources w1) as (nr & w2 & Hrun2 & Hw2 & _).
  destruct (create_tasks_from_parent_for_new_parent_spec all_sub_tasks pk w2)
    as (c & bs & rs & w3 & Hrun3 & Hw3 & Hc & Hf).
  erewrite bind_Ok by exact Hrun1. erewrite bind_Ok by exact Hrun2.
  erewrite bind_Ok by exact Hrun3.
  match goal with
  | |- context [occurrence_loop b _ _ _ _ _ _ _ _ _ _ _ _ ?a w3] => set (acc' := a)
  end.
  destruct (IH (S count) acc' w3)
    as (created & n & w' & Hloop & Hw' & Hgen & Hids & Hn & Hend); [lia|].
  assert (only_drew_uuids w0 w2) as Hw02 by (by eapply only_drew_uuids_trans).
  assert (only_drew_uuids w0 w3) as Hw03 by (by eapply only_drew_uuids_trans).
  rewrite Hloop. subst acc'.
  exists (created_app
            (created_app ([instance_for instance by_ time_diff latest_order count dt pk],
                          nb, nr) (c, bs, rs)) created), (S n), w'.
  split_and!.
  - by rewrite !created_app_assoc.
  - eapply only_drew_uuids_trans; [apply uuid4_only_drew|].
    eapply only_drew_uuids_trans; [exact Hw1|].
    eapply only_drew_uuids_trans; [exact Hw2|].
    by eapply only_drew_uuids_trans.
  - destruct created as [[ct cb] cr]. cbn [created_app fst snd app].
    assert (Task.id (instance_for instance by_ time_diff latest_order count dt pk)
            = pk) as Hpk.
    { unfold instance_for. by destruct (String.eqb by_ "deadline"). }
    eapply generated_cons; try done.
    + by rewrite Hpk.
    + by rewrite Hpk.
    + rewrite Hpk. eapply fresh_below_weaken; [|exact Hf].
      destruct Hw02 as (_ & _ & _ & _ & Hle). simpl in Hle. lia.
  - destruct created as [[ct cb] cr]. cbn [created_app fst snd app].
    apply Forall_cons. split.
    { unfold instance_for. destruct (String.eqb by_ "deadline"); simpl; lia. }
    apply Forall_app. split.
    + unfold fresh_below in Hf. eapply Forall_impl; [exact Hf|]. simpl.
      intros x [Hx _]. destruct Hw02 as (_ & _ & _ & _ & Hle). simpl in Hle.
      subst pk. lia.
    + eapply Forall_impl; [exact Hids|]. simpl. intros x Hx.
      destruct Hw03 as (_ & _ & _ & _ & Hle). simpl in Hle. subst pk. lia.
  - right. destruct Hn as [->|[Hle Hallow]].
    + split; [lia|]. by replace (count + 1 - 1) with count by lia.
    + split; [lia|]. by replace (count + S n - 1) with (S count + n - 1) by lia.
  - by replace (count + S n) with (S count + n) by lia.
Qed.

Lemma generated_length instance by_ time_diff latest_order subs dates k tasks n :
  generated instance by_ time_diff latest_order subs dates k tasks n ->
  length tasks = n * S (forest_size subs).
Proof.
  induction 1 as [|k dt t below rest n _ _ Hc _ _ IH]; [done|].
  simpl. rewrite length_app, IH, (clone_forest_length _ _ _ Hc). lia.
Qed.

(** What an instance looks like. *)
Lemma instance_for_spec instance by_ time_diff latest_order j dt pk :
  let t := instance_for instance by_ time_diff latest_order j dt pk in
  exists s' d',
    Task.started t = Some s' /\ Task.deadline t = Some d'
    /\ (d' - s' = time_diff)%Z
    /\ (if String.eqb by_ "deadline" then d' else s') = dt
    /\ Task.parent_task t = Some (Task.id instance)
    /\ Task.order t = (latest_order + Z.of_nat j + 1)%Z
    /\ Task.rrule t = None
    /\ Task.name t = "[" +:+ pretty (j + 1) +:+ "] " +:+ Task.name instance.
Proof.
  unfold instance_for. destruct (String.eqb by_ "deadline"); simpl;
    eexists _, _; split_and!; try reflexivity; lia.
Qed.

(** Among the tasks of a run, the children of the seed are the instances. *)
Lemma generated_instances instance by_ time_diff latest_order subs dates k tasks n n0 :
  generated instance by_ time_diff latest_order subs dates k tasks n ->
  Forall (fun t => n0 <= Task.id t) tasks -> Task.id instance < n0 ->
  length (instances_of instance tasks) = n
  /\ Forall
       (fun t => exists j dt,
          k <= j < k + n /\ dates (S j) = Some dt
          /\ t = instance_for instance by_ time_diff latest_order j dt (Task.id t))
       (instances_of instance tasks).
Proof.
  intros Hgen. induction Hgen as [|k dt t below rest n Hdt Ht Hc Hf _ IH];
    intros Hids Hseed; [by split|].
  apply Forall_cons in Hids as [Hid Hids]. apply Forall_app in Hids as [_ Hrest].
  destruct (IH Hrest Hseed) as [Hlen Hall].
  unfold instances_of. rewrite filter_cons, filter_app.
  rewrite decide_True.
  2:{ apply bool_decide_pack. rewrite Ht. unfold instance_for.
      by destruct (String.eqb by_ "deadline"). }
  rewrite (filter_fresh_below (Task.id t) (Task.id t) (Task.id instance) below)
    by (try done; lia).
  simpl. split; [by f_equal|].
  apply Forall_cons. split.
  - exists k, dt. split; [lia|]. by split.
  - eapply Forall_impl; [exact Hall|]. simpl.
    intros x (j & dt' & Hj & Hdt' & Hx). exists j, dt'. split; [lia|]. by split.
Qed.

(** The first turn of the loop skips the first occurrence. *)
Lemma occurrence_loop_first budget dates rule_count instance by_ time_diff
    latest_order max_count all_sub_tasks parent_task_backlogs
    parent_task_resources acc w :
  occurrence_loop (S budget) dates rule_count instance by_ time_diff latest_order
    max_count all_sub_tasks parent_task_backlogs parent_task_resources 0 0 acc w
  = match dates 0 with
    | Some _ =>
        occurrence_loop budget dates rule_count instance by_ time_diff
          latest_order max_count all_sub_tasks parent_task_backlogs
          parent_task_resources 1 0 acc w
    | None => Ok acc w
    end.
Proof. cbn [occurrence_loop]. by destruct (dates 0). Qed.

(** A run of [repeated_task_creator] that gets past its guards, up to its
    last step. *)
Lemma repeated_task_creator_run rank bound depth w instance timezone by_ commit
    max_count rule deadline started0 time_diff :
  well_formed_tasks rank bound (task_table w) -> bound < depth ->
  Task.rrule instance = Some rule ->
  Task.deadline instance = Some deadline ->
  start_and_span instance deadline = (Some started0, Some time_diff) ->
  time_diff <> 0%Z ->
  let dates :=
    occurrences rule timezone (if String.eqb by_ "deadline" then deadline else started0) in
  exists sub_tasks created n w',
    repeated_task_creator depth instance timezone by_ commit max_count w
    = finish_generated commit created w'
    /\ only_drew_uuids w w'
    /\ sub_tasks_of w (Task.id instance) sub_tasks
    /\ generated instance by_ time_diff (latest_child_order (task_table w) instance)
         sub_tasks dates 0 created.1.1 n
    /\ Forall (fun t => next_uuid w <= Task.id t) created.1.1
    /\ n <= max_count
    /\ (n = 0 \/ rule_allows (_count rule) (n - 1))
    /\ (dates 0 = None \/ dates (S n) = None \/ max_count <= n
        \/ ~ rule_allows (_count rule) n).
Proof.
  intros Hwf Hdepth Hrule Hdeadline Hpair Hdiff dates.
  destruct (get_sub_tasks_returns rank bound w depth (Task.id instance) Hwf)
    as [subs Hsubs]; [lia|lia|].
  pose proof (get_sub_tasks_spec _ _ _ _ Hsubs) as Hsubs_spec.
  unfold repeated_task_creator. rewrite Hrule, Hdeadline.
  assert (negb (bool_decide (is_Some (Task.started instance))
                || truthy_int (Task.duration_estimate instance)
                   && truthy_str (Task.duration_unit instance)) = false) as ->.
  { apply negb_false_iff. unfold start_and_span in Hpair.
    destruct (Task.started instance) as [s|].
    - by rewrite bool_decide_eq_true_2 by by eexists.
    - destruct (truthy_str _), (truthy_int _); simpl in *; try done. }
  unfold bind at 1. unfold get_world. rewrite Hsubs.
  unfold start_and_span in Hpair. rewrite Hpair.
  rewrite (proj2 (Z.eqb_neq time_diff 0) Hdiff).
  fold (latest_child_order (task_table w) instance).
  unfold ensure_timezone_aware. fold dates.
  replace (max_count + 2) with (S (S max_count)) by lia.
  match goal with
  | |- context [occurrence_loop _ _ ?rc _ _ _ ?lo _ _ ?pb ?pr 0 0 _] =>
      pose proof (occurrence_loop_first (S max_count) dates rc instance by_
                    time_diff lo max_count subs pb pr ([], [], []) w) as Hfirst;
      destruct (occurrence_loop_spec dates rc instance by_ time_diff lo max_count
                  subs pb pr (S max_count) 0 ([], [], []) w)
        as (created & n & w' & Hloop & Hw' & Hgen & Hids & Hn & Hend); [lia|]
  end.
  destruct (dates 0) as [d0|] eqn:Ed0.
  - rewrite Hloop in Hfirst. erewrite bind_Ok by exact Hfirst.
    exists subs, created, n, w'.
    split; [by destruct created as [[??]?]|].
    split_and!; try done.
    + destruct Hn as [->|[? _]]; lia.
    + destruct Hn as [->|[_ Hallow]]; [by left|right]. exact Hallow.
    + right. exact Hend.
  - erewrite bind_Ok by exact Hfirst.
    exists subs, ([], [], []), 0, w.
    split; [done|]. split; [apply only_drew_uuids_refl|].
    split; [done|]. split; [constructor|]. split; [constructor|].
    split; [lia|]. split; by left.
Qed.

(** What the instances of a run look like. *)
Lemma generated_instances_spec seed by_ time_diff latest_order subs dates tasks n n0 :
  generated seed by_ time_diff latest_order subs dates 0 tasks n ->
  Forall (fun t => n0 <= Task.id t) tasks -> Task.id seed < n0 ->
  length (instances_of seed tasks) = n
  /\ Forall
       (fun t => exists j dt s' d',
          j < n /\ dates (S j) = Some dt
          /\ Task.started t = Some s' /\ Task.deadline t = Some d'
          /\ (d' - s' = time_diff)%Z
          /\ (if String.eqb by_ "deadline" then d' else s') = dt
          /\ Task.order t = (latest_order + Z.of_nat j + 1)%Z
          /\ Task.rrule t = None)
       (instances_of seed tasks).
Proof.
  intros Hgen Hids Hseed.
  destruct (generated_instances _ _ _ _ _ _ _ _ _ _ Hgen Hids Hseed) as [Hlen Hall].
  split; [done|]. eapply Forall_impl; [exact Hall|]. simpl.
  intros t (j & dt & Hj & Hdt & Ht).
  destruct (instance_for_spec seed by_ time_diff latest_order j dt (Task.id t))
    as (s' & d' & Hs & Hd & Hspan & Hanchor & _ & Horder & Hrule & _).
  rewrite <- Ht in *. exists j, dt, s', d'. split; [lia|]. by split_and!.
Qed.

(** X11.  For a seed with a rule, a deadline and a start that differs from
    the deadline, a dry run of [repeated_task_creator] returns and stores
    nothing.  It skips the first occurrence and makes one instance for each
    of the next [n] occurrences, each followed by a clone of the whole tree
    of visible sub tasks of the seed; [n] never exceeds [max_count] nor a
    non-zero count of the rule, and the run stops only at one of these bounds
    or when the occurrences are exhausted.  The instances are the new
    children of the seed; each keeps the span of the seed, is anchored
    (deadline when [by] is "deadline", start otherwise) on its occurrence,
    continues the orders of the children of the seed, and has no rule. *)
Theorem recurrence_generates_one_instance_per_occurrence
    rank bound depth w seed timezone by_ max_count rule dl s :
  well_formed_tasks rank bound (task_table w) -> bound < depth ->
  Task.id seed < next_uuid w ->
  Task.rrule seed = Some rule -> Task.deadline seed = Some dl ->
  Task.started seed = Some s -> dl <> s ->
  let dates :=
    occurrences rule timezone (if String.eqb by_ "deadline" then dl else s) in
  exists sub_tasks g n w',
    repeated_task_creator depth seed timezone by_ false max_count w
    = Ok (Some g) w'
    /\ only_drew_uuids w w'
    /\ sub_tasks_of w (Task.id seed) sub_tasks
    /\ generated seed by_ (dl - s)%Z (latest_child_order (task_table w) seed)
         sub_tasks dates 0 (tasks g) n
    /\ length (tasks g) = n * S (forest_size sub_tasks)
    /\ n <= max_count
    /\ (n = 0 \/ rule_allows (_count rule) (n - 1))
    /\ (dates 0 = None \/ dates (S n) = None \/ max_count <= n
        \/ ~ rule_allows (_count rule) n)
    /\ length (instances_of seed (tasks g)) = n
    /\ Forall
         (fun t => exists j dt s' d',
            j < n /\ dates (S j) = Some dt
            /\ Task.started t = Some s' /\ Task.deadline t = Some d'
            /\ (d' - s' = dl - s)%Z
            /\ (if String.eqb by_ "deadline" then d' else s') = dt
            /\ Task.order t
               = (latest_child_order (task_table w) seed + Z.of_nat j + 1)%Z
            /\ Task.rrule t = None)
         (instances_of seed (tasks g)).
Proof.
  intros Hwf Hdepth Hseed Hrule Hdl Hs Hne dates.
  destruct (repeated_task_creator_run rank bound depth w seed timezone by_ false
              max_count rule dl s (dl - s)%Z Hwf Hdepth Hrule Hdl)
    as (subs & created & n & w' & Hrun & Hw' & Hsubs & Hgen & Hids & Hn & Hrc & Hend).
  { unfold start_and_span. by rewrite Hs. }
  { lia. }
  destruct created as [[ct cb] cr]. simpl in *.
  destruct (generated_instances_spec _ _ _ _ _ _ _ _ _ Hgen Hids Hseed)
    as [Hlen Hall].
  exists subs, (mkGenerated ct cb cr), n, w'. simpl.
  split_and!; try done. by eapply generated_length.
Qed.

(** X12.  Under the same conditions and when no write is rejected, the
    committing run returns the very lists the dry run returns and appends
    them to the three tables; the dry run leaves everything stored as it
    was and sends no statement. *)
Theorem recurrence_commit_stores_what_the_dry_run_returns
    rank bound depth w seed timezone by_ max_count rule dl s :
  well_formed_tasks rank bound (task_table w) -> bound < depth ->
  never_fails w ->
  Task.rrule seed = Some rule -> Task.deadline seed = Some dl ->
  Task.started seed = Some s -> dl <> s ->
  exists g w1 w2,
    repeated_task_creator depth seed timezone by_ false max_count w
    = Ok (Some g) w1
    /\ repeated_task_creator depth seed timezone by_ true max_count w
       = Ok (Some g) w2
    /\ stored w1 = stored w /\ statements w1 = statements w
    /\ task_table w2 = task_table w ++ tasks g
    /\ task_backlog_table w2 = task_backlog_table w ++ task_backlogs g
    /\ task_resource_table w2 = task_resource_table w ++ task_resources g.
Proof.
  intros Hwf Hdepth Hok Hrule Hdl Hs Hne.
  destruct (repeated_task_creator_run rank bound depth w seed timezone by_ false
              max_count rule dl s (dl - s)%Z Hwf Hdepth Hrule Hdl)
    as (subs & created & n & w' & Hrun & Hw' & _).
  { unfold start_and_span. by rewrite Hs. }
  { lia. }
  destruct (repeated_task_creator_run rank bound depth w seed timezone by_ true
              max_count rule dl s (dl - s)%Z Hwf Hdepth Hrule Hdl)
    as (subs2 & created2 & n2 & w2' & Hrun2 & _).
  { unfold start_and_span. by rewrite Hs. }
  { lia. }
  (* both runs share their prefix *)
  assert (finish_generated true created2 w2' = finish_generated true created w') as Hsame.
  { rewrite <- Hrun2. clear Hrun2.
    unfold repeated_task_creator in *. rewrite Hrule, Hdl in *.
    destruct (negb _); [by destruct created as [[??]?]|].
    unfold bind at 1 in Hrun. unfold bind at 1. unfold get_world in *.
    destruct (get_sub_tasks depth w (Task.id seed)); [|by destruct created as [[??]?]].
    rewrite Hs in *. destruct (Z.eqb _ _); [by destruct created as [[??]?]|].
    unfold bind in Hrun |- *.
    destruct (occurrence_loop _ _ _ _ _ _ _ _ _ _ _ _ _ _ w) as [[[ct cb] cr] w3| |];
      [|by destruct created as [[??]?]..].
    destruct created as [[ct' cb'] cr']. unfold finish_generated, ret in *.
    by simplify_eq. }
  rewrite Hsame in Hrun2. clear Hsame.
  destruct created as [[ct cb] cr]. unfold finish_generated in *.
  assert (never_fails w') as Hok'.
  { intros k. destruct Hw' as (_ & _ & -> & _). apply Hok. }
  destruct (commit_generated_ok ct cb cr w' Hok') as (w2 & Hcommit & Ht & Hb & Hr).
  destruct Hw' as (Hstored & Hst & _ & _ & _).
  exists (mkGenerated ct cb cr), w', w2. simpl.
  split; [done|]. split; [by rewrite Hrun2|].
  split; [done|]. split; [done|].
  unfold stored in Hstored. simplify_eq. split_and!; congruence.
Qed.

(** X13.  A seed without start takes its span from its estimate: with a
    non-zero estimate [e] and the unit "Weeks", "Days", "Hours" or "Minutes",
    the span is [e] times seven days, a day, an hour or a minute, the
    occurrences are computed from the deadline (or, when [by] is not
    "deadline", from the deadline minus the span), and the run is the run
    of a seed that starts one span before its deadline: the first occurrence
    is skipped, one instance with that span is made for each of the next [n]
    occurrences, each followed by a clone of the sub tasks of the seed, and
    the run stops only at [max_count], at a non-zero count of the rule or
    when the occurrences are exhausted.  With any other unit nothing is
    generated: the call returns [None] and leaves the world as it was. *)
Theorem recurrence_span_comes_from_the_estimate_without_start
    rank bound depth w seed timezone by_ max_count rule dl e u :
  well_formed_tasks rank bound (task_table w) -> bound < depth ->
  Task.id seed < next_uuid w ->
  Task.rrule seed = Some rule -> Task.deadline seed = Some dl ->
  Task.started seed = None ->
  Task.duration_estimate seed = Some e -> e <> 0%Z ->
  Task.duration_unit seed = Some u ->
  (forall span,
     (u = "Weeks" /\ span = (e * 7 * day)%Z) \/ (u = "Days" /\ span = (e * day)%Z)
     \/ (u = "Hours" /\ span = (e * hour)%Z)
     \/ (u = "Minutes" /\ span = (e * Sql.minute)%Z) ->
     let dates :=
       occurrences rule timezone
         (if String.eqb by_ "deadline" then dl else (dl - span)%Z) in
     exists sub_tasks g n w',
       repeated_task_creator depth seed timezone by_ false max_count w
       = Ok (Some g) w'
       /\ only_drew_uuids w w'
       /\ sub_tasks_of w (Task.id seed) sub_tasks
       /\ generated seed by_ span (latest_child_order (task_table w) seed)
            sub_tasks dates 0 (tasks g) n
       /\ length (tasks g) = n * S (forest_size sub_tasks)
       /\ n <= max_count
       /\ (n = 0 \/ rule_allows (_count rule) (n - 1))
       /\ (dates 0 = None \/ dates (S n) = None \/ max_count <= n
           \/ ~ rule_allows (_count rule) n)
       /\ length (instances_of seed (tasks g)) = n
       /\ Forall
            (fun t => exists j dt s' d',
               j < n /\ dates (S j) = Some dt
               /\ Task.started t = Some s' /\ Task.deadline t = Some d'
               /\ (d' - s' = span)%Z
               /\ (if String.eqb by_ "deadline" then d' else s') = dt
               /\ Task.order t
                  = (latest_child_order (task_table w) seed + Z.of_nat j + 1)%Z
               /\ Task.rrule t = None)
            (instances_of seed (tasks g)))
  /\ (u <> "Weeks" -> u <> "Days" -> u <> "Hours" -> u <> "Minutes" ->
      forall commit,
        repeated_task_creator depth seed timezone by_ commit max_count w
        = Ok None w).
Proof.
  intros Hwf Hdepth Hseed Hrule Hdl Hs He Hnz Hu. split.
  - intros span Hspan dates.
    assert (start_and_span seed dl = (Some (dl - span)%Z, Some span)) as Hpair.
    { unfold start_and_span. rewrite Hs, He, Hu. simpl.
      assert (negb (e =? 0)%Z = true) as ->
        by (apply negb_true_iff; by apply Z.eqb_neq).
      destruct Hspan as [[-> ->]|[[-> ->]|[[-> ->]|[-> ->]]]]; reflexivity. }
    assert (span <> 0%Z) as Hne.
    { unfold day, hour, second, Sql.minute in Hspan.
      destruct Hspan as [[_ ->]|[[_ ->]|[[_ ->]|[_ ->]]]]; lia. }
    destruct (repeated_task_creator_run rank bound depth w seed timezone by_ false
                max_count rule dl (dl - span)%Z span Hwf Hdepth Hrule Hdl Hpair Hne)
      as (subs & created & n & w' & Hrun & Hw' & Hsubs & Hgen & Hids & Hn & Hrc
          & Hend).
    destruct created as [[ct cb] cr]. simpl in *.
    destruct (generated_instances_spec _ _ _ _ _ _ _ _ _ Hgen Hids Hseed)
      as [Hlen Hall].
    exists subs, (mkGenerated ct cb cr), n, w'. simpl.
    split_and!; try done. by eapply generated_length.
  - intros H1 H2 H3 H4 commit.
    destruct (get_sub_tasks_returns rank bound w depth (Task.id seed) Hwf)
      as [subs Hsubs]; [lia|lia|].
    unfold repeated_task_creator. rewrite Hrule, Hdl, Hs, He, Hu.
    destruct (negb _); [done|].
    unfold bind, get_world. rewrite Hsubs.
    unfold unit_map. simpl.
    rewrite (proj2 (String.eqb_neq u "Weeks") H1).
    rewrite (proj2 (String.eqb_neq u "Days") H2).
    rewrite (proj2 (String.eqb_neq u "Hours") H3).
    rewrite (proj2 (String.eqb_neq u "Minutes") H4).
    simpl. by destruct (_ && _).
Qed.

Lemma recurrence_generates_witness :
  let w := example_world weekly_seed_tasks (fun _ => false) in
  exists sub_tasks g n w',
    repeated_task_creator 5 weekly_seed "UTC" "started" false 2 w = Ok (Some g) w'
    /\ only_drew_uuids w w'
    /\ sub_tasks_of w 1 sub_tasks
    /\ n = 2
    /\ length (tasks g) = n * S (forest_size sub_tasks)
    /\ length (instances_of weekly_seed (tasks g)) = n
    /\ Forall
         (fun t => exists j dt s' d',
            j < n /\ occurrences weekly "UTC" at_10 (S j) = Some dt
            /\ Task.started t = Some s' /\ Task.deadline t = Some d'
            /\ (d' - s' = at_12 - at_10)%Z
            /\ s' = dt
            /\ Task.order t
               = (latest_child_order weekly_seed_tasks weekly_seed + Z.of_nat j + 1)%Z
            /\ Task.rrule t = None)
         (instances_of weekly_seed (tasks g)).
Proof.
  destruct (recurrence_generates_one_instance_per_occurrence (fun i => i) 4 5
              (example_world weekly_seed_tasks (fun _ => false)) weekly_seed
              "UTC" "started" 2 weekly at_12 at_10)
    as (subs & g & n & w' & Hrun & Hw' & Hsubs & Hgen & Hlen & Hn & Hrc & Hend
        & Hcount & Hall).
  - apply weekly_seed_tasks_well_formed.
  - lia.
  - simpl. lia.
  - reflexivity.
  - reflexivity.
  - reflexivity.
  - done.
  - exists subs, g, n, w'. split_and!; try done.
    destruct Hend as [H|[H|[H|H]]]; [done|done|lia|]. by destruct H.
Defined.

Lemma recurrence_commit_witness :
  let w := linked_seed_world (fun _ => false) in
  exists g w1 w2,
    repeated_task_creator 5 weekly_seed "UTC" "deadline" false 3 w = Ok (Some g) w1
    /\ repeated_task_creator 5 weekly_seed "UTC" "deadline" true 3 w = Ok (Some g) w2
    /\ stored w1 = stored w /\ statements w1 = statements w
    /\ task_table w2 = task_table w ++ tasks g
    /\ task_backlog_table w2 = task_backlog_table w ++ task_backlogs g
    /\ task_resource_table w2 = task_resource_table w ++ task_resources g.
Proof.
  apply (recurrence_commit_stores_what_the_dry_run_returns (fun i => i) 4 5
           (linked_seed_world (fun _ => false)) weekly_seed "UTC" "deadline" 3
           weekly at_12 at_10).
  - apply weekly_seed_tasks_well_formed.
  - lia.
  - intros n. reflexivity.
  - reflexivity.
  - reflexivity.
  - reflexivity.
  - done.
Defined.

Lemma recurrence_estimate_witness :
  (exists g w',
     repeated_task_creator 3 (estimated_seed "Hours") "UTC" "deadline" false 1
       (example_world [estimated_seed "Hours"] (fun _ => false))
     = Ok (Some g) w'
     /\ only_drew_uuids (example_world [estimated_seed "Hours"] (fun _ => false)) w'
     /\ length (tasks g) = 1
     /\ length (instances_of (estimated_seed "Hours") (tasks g)) = 1
     /\ Forall
          (fun t => exists j dt s' d',
             j < 1 /\ occurrences weekly "UTC" at_12 (S j) = Some dt
             /\ Task.started t = Some s' /\ Task.deadline t = Some d'
             /\ (d' - s' = 2 * hour)%Z
             /\ d' = dt
             /\ Task.order t = (0 + Z.of_nat j + 1)%Z
             /\ Task.rrule t = None)
          (instances_of (estimated_seed "Hours") (tasks g)))
  /\ repeated_task_creator 3 (estimated_seed "Months") "UTC" "deadline" true 1
       (example_world [estimated_seed "Months"] (fun _ => false))
     = Ok None (example_world [estimated_seed "Months"] (fun _ => false)).
Proof.
  split.
  - destruct (recurrence_span_comes_from_the_estimate_without_start (fun i => i) 2 3
                (example_world [estimated_seed "Hours"] (fun _ => false))
                (estimated_seed "Hours") "UTC" "deadline" 1 weekly at_12 2%Z "Hours")
      as [Hgenerates _];
      try reflexivity; try done; try lia.
    + solve_well_formed.
    + simpl. lia.
    + destruct (Hgenerates (2 * hour)%Z)
        as (subs & g & n & w' & Hrun & Hw' & Hsubs & Hgen & Hlen & Hn & Hrc & Hend
            & Hcount & Hall).
      { right. right. left. done. }
      assert (n = 1) as ->.
      { destruct Hend as [H|[H|[H|H]]]; [done|done|lia|]. by destruct H. }
      assert (subs = []) as ->.
      { inversion Hsubs as [? ? Hentries]; subst.
        by apply Forall2_nil_inv_l in Hentries. }
      exists g, w'. split_and!; try done.
  - apply (recurrence_span_comes_from_the_estimate_without_start (fun i => i) 2 3
             (example_world [estimated_seed "Months"] (fun _ => false))
             (estimated_seed "Months") "UTC" "deadline" 1 weekly at_12 2%Z "Months");
      try reflexivity; try done; try lia.
    + solve_well_formed.
    + simpl. lia.
Defined.

(** * Sprints generated from a sprint meta *)

#[global] Instance later_start_total : Total later_start.
Proof.
  intros a b. unfold later_start.
  destruct (Sprint.start_date a), (Sprint.start_date b); try tauto. lia.
Qed.

#[global] Instance later_start_trans : Transitive later_start.
Proof.
  intros a b c. unfold later_start.
  destruct (Sprint.start_date a), (Sprint.start_date b), (Sprint.start_date c);
    try tauto. lia.
Qed.

(** [order_by("-start_date").first()]: a sprint that no other precedes. *)
Lemma first_later_start l :
  match Sql.first (merge_sort later_start l) with
  | Some m => m ∈ l /\ forall s, s ∈ l -> later_start m s
  | None => l = []
  end.
Proof.
  unfold Sql.first.
  pose proof (merge_sort_Permutation later_start l) as Hperm.
  pose proof (StronglySorted_merge_sort later_start l) as Hsorted.
  destruct (merge_sort later_start l) as [|m rest]; simpl.
  - by apply Permutation_nil_l in Hperm.
  - split.
    + rewrite <- Hperm. left.
    + intros s Hs. rewrite <- Hperm in Hs.
      apply StronglySorted_inv in Hsorted as [_ Hall].
      apply elem_of_cons in Hs as [->|Hs].
      * unfold later_start. destruct (Sprint.start_date m); [lia|done].
      * rewrite Forall_forall in Hall. by apply Hall.
Qed.

(** The sprints of one run follow each other. *)
Lemma create_sprints_spec n instance base next_uuid :
  length (create_sprints n instance base next_uuid) = n
  /\ forall i, i < n ->
       create_sprints n instance base next_uuid !! i
       = Some (Sprint.mk (next_uuid + i) (SprintMeta.id instance)
                 (Some (base + Z.of_nat i * SprintMeta.days instance)%Z)
                 (Some (base + Z.of_nat i * SprintMeta.days instance
                        + (SprintMeta.days instance - 1))%Z)
                 (SprintMeta.client instance) false false).
Proof.
  revert base next_uuid. induction n as [|n IH]; intros base next_uuid.
  - split; [done|]. lia.
  - destruct (IH (base + SprintMeta.days instance)%Z (S next_uuid)) as [Hlen Hat].
    split; [simpl; by rewrite Hlen|].
    intros [|i] Hi; simpl.
    + do 2 f_equal; [lia|f_equal; lia..].
    + rewrite Hat by lia. do 2 f_equal; [lia|f_equal; nia..].
Qed.

Lemma stored_visible_first metas instance :
  stored_visible metas instance ->
  is_Some (Sql.first
             (filter (fun r => bool_decide (SprintMeta.id r = SprintMeta.id instance))
                (sprint_meta_objects metas))).
Proof.
  intros (r & Hr & Hid & Hd & Ht).
  assert (r ∈ filter (fun r => bool_decide (SprintMeta.id r = SprintMeta.id instance))
                (sprint_meta_objects metas)) as Hin.
  { apply list_elem_of_filter. split; [by apply bool_decide_pack|].
    unfold sprint_meta_objects. apply list_elem_of_filter. split; [|done].
    by rewrite Hd, Ht. }
  unfold Sql.first. destruct (filter _ _); [by inversion Hin|by eexists].
Qed.

(** X14.  When a visible sprint meta is saved with a number of sprints that
    is at least the number of its visible sprints, all of which have a start
    date, the hook creates exactly the missing sprints.  They start at the
    date of the meta when there was no sprint, and otherwise [days] after
    the latest start among the sprints there were; each lasts [days] days,
    and each starts the day after the one before ends.  Nothing is created
    when no sprint is missing. *)
Theorem sprints_are_generated_back_to_back
    metas sprints next_uuid instance :
  stored_visible metas instance ->
  (forall s, s ∈ current_sprints sprints instance -> is_Some (Sprint.start_date s)) ->
  length (current_sprints sprints instance) <= SprintMeta.sprint_to_generate instance ->
  exists created base,
    create_sprints_from_sprint_meta metas sprints next_uuid false instance
    = inr created
    /\ length created
       = SprintMeta.sprint_to_generate instance
         - length (current_sprints sprints instance)
    /\ (current_sprints sprints instance = [] ->
        base = datetime_date (SprintMeta.started instance))
    /\ (current_sprints sprints instance <> [] ->
        exists m d, m ∈ current_sprints sprints instance
                    /\ Sprint.start_date m = Some d
                    /\ (forall s d', s ∈ current_sprints sprints instance ->
                          Sprint.start_date s = Some d' -> (d' <= d)%Z)
                    /\ base = (d + SprintMeta.days instance)%Z)
    /\ (forall i, i < length created ->
          created !! i
          = Some (Sprint.mk (next_uuid + i) (SprintMeta.id instance)
                    (Some (base + Z.of_nat i * SprintMeta.days instance)%Z)
                    (Some (base + Z.of_nat i * SprintMeta.days instance
                           + (SprintMeta.days instance - 1))%Z)
                    (SprintMeta.client instance) false false))
    /\ (forall i a b, created !! i = Some a -> created !! (S i) = Some b ->
          Sprint.start_date b = (fun e => (e + 1)%Z) <$> Sprint.end_date a).
Proof.
  intros Hvis Hdated Hle.
  unfold create_sprints_from_sprint_meta. fold (current_sprints sprints instance).
  destruct (stored_visible_first metas instance Hvis) as [before ->].
  set (cur := current_sprints sprints instance) in *.
  assert (length (merge_sort later_start cur) = length cur) as Hcount
    by (by rewrite merge_sort_Permutation).
  rewrite Hcount. rewrite bool_decide_eq_false_2 by lia.
  pose proof (first_later_start cur) as Hfirst.
  assert (exists base,
            (cur = [] -> base = datetime_date (SprintMeta.started instance))
            /\ (cur <> [] ->
                exists m d, m ∈ cur /\ Sprint.start_date m = Some d
                            /\ (forall s d', s ∈ cur -> Sprint.start_date s = Some d' ->
                                  (d' <= d)%Z)
                            /\ base = (d + SprintMeta.days instance)%Z)
            /\ match
                 match Sql.first (merge_sort later_start cur) with
                 | Some s => Sprint.start_date s
                 | None => Some (datetime_date (SprintMeta.started instance))
                 end
               with
               | Some d => Some (if bool_decide (length cur <> 0)
                                 then (d + SprintMeta.days instance)%Z else d)
               | None => None
               end = Some base) as (base & Hnil & Hcons & Hbase).
  { destruct (Sql.first (merge_sort later_start cur)) as [m|].
    - destruct Hfirst as [Hm Hmax]. destruct (Hdated m Hm) as [d Hd].
      exists (d + SprintMeta.days instance)%Z. split_and!.
      + intros Hcur. rewrite Hcur in Hm. by inversion Hm.
      + intros _. exists m, d. split_and!; try done.
        intros s d' Hs Hd'. specialize (Hmax s Hs). unfold later_start in Hmax.
        by rewrite Hd, Hd' in Hmax.
      + rewrite Hd. rewrite bool_decide_eq_true_2; [done|].
        destruct cur; [by inversion Hm|done].
    - exists (datetime_date (SprintMeta.started instance)). rewrite Hfirst.
      by split_and!. }
  assert (forall created,
            length created
            = SprintMeta.sprint_to_generate instance - length cur ->
            (forall i, i < length created ->
               created !! i
               = Some (Sprint.mk (next_uuid + i) (SprintMeta.id instance)
                         (Some (base + Z.of_nat i * SprintMeta.days instance)%Z)
                         (Some (base + Z.of_nat i * SprintMeta.days instance
                                + (SprintMeta.days instance - 1))%Z)
                         (SprintMeta.client instance) false false)) ->
            forall i a b, created !! i = Some a -> created !! (S i) = Some b ->
              Sprint.start_date b = (fun e => (e + 1)%Z) <$> Sprint.end_date a)
    as Hnext.
  { intros created Hlen Hat i a b Ha Hb.
    pose proof (lookup_lt_Some _ _ _ Ha) as Hi.
    pose proof (lookup_lt_Some _ _ _ Hb) as HSi.
    rewrite Hat in Ha by done. rewrite Hat in Hb by done. simplify_eq. simpl.
    f_equal. lia. }
  destruct (decide (length cur < SprintMeta.sprint_to_generate instance)) as [Hlt|Hge].
  - rewrite (bool_decide_eq_true_2 _ Hlt).
    destruct (match Sql.first (merge_sort later_start cur) with
              | Some s => Sprint.start_date s
              | None => Some (datetime_date (SprintMeta.started instance))
              end) as [d|]; [|done].
    injection Hbase as Hbase. rewrite Hbase.
    destruct (create_sprints_spec
                (SprintMeta.sprint_to_generate instance - length cur)
                instance base next_uuid) as [Hlen Hat].
    eexists _, base. split; [reflexivity|]. rewrite Hlen.
    split_and!; try done. apply Hnext; [done|]. by rewrite Hlen.
  - rewrite (bool_decide_eq_false_2 _ Hge).
    exists [], base. split; [done|]. split; [simpl; lia|].
    split_and!; try done. simpl. lia.
Qed.

Lemma sprints_witness :
  exists created,
    create_sprints_from_sprint_meta [example_sprint_meta] [example_sprint] 1000
      false example_sprint_meta = inr created
    /\ length created = 2
    /\ created !! 0 = Some (Sprint.mk 1000 1 (Some 114%Z) (Some 127%Z) (Some 7) false false)
    /\ created !! 1 = Some (Sprint.mk 1001 1 (Some 128%Z) (Some 141%Z) (Some 7) false false)
    /\ (forall i a b, created !! i = Some a -> created !! (S i) = Some b ->
          Sprint.start_date b = (fun e => (e + 1)%Z) <$> Sprint.end_date a).
Proof.
  destruct (sprints_are_generated_back_to_back [example_sprint_meta]
              [example_sprint] 1000 example_sprint_meta)
    as (created & base & Hrun & Hlen & _ & Hbase & Hat & Hnext).
  - exists example_sprint_meta. split_and!; try done. by apply list_elem_of_singleton.
  - intros s Hs. vm_compute in Hs. apply list_elem_of_singleton in Hs as ->.
    by eexists.
  - vm_compute. lia.
  - exists created. split; [done|]. split; [done|].
    destruct Hbase as (m & d & Hm & Hd & _ & ->); [done|].
    vm_compute in Hm. apply list_elem_of_singleton in Hm as ->.
    injection Hd as <-.
    split_and!; [by rewrite Hat by (rewrite Hlen; vm_compute; lia)
                |by rewrite Hat by (rewrite Hlen; vm_compute; lia)|done].
Defined.

(** X15.  The other outcomes of the hook.  For a visible sprint meta, a
    number of sprints below the number of its visible sprints is rejected
    with a [ValidationError], and a missing start date on one of its sprints
    makes a growing save raise [TypeError].  For a sprint meta that is a
    template, deleted or not stored, the hook does not look at the sprints
    there are: it creates the full number of sprints from the date of the
    meta.  With [no_sprint_meta_signal] nothing is created. *)
Theorem sprint_generation_rejects_or_restarts metas sprints next_uuid instance :
  (stored_visible metas instance ->
   SprintMeta.sprint_to_generate instance < length (current_sprints sprints instance) ->
   create_sprints_from_sprint_meta metas sprints next_uuid false instance
   = inl ValidationError)
  /\ (stored_visible metas instance ->
      length (current_sprints sprints instance) < SprintMeta.sprint_to_generate instance ->
      (exists s, s ∈ current_sprints sprints instance /\ Sprint.start_date s = None) ->
      create_sprints_from_sprint_meta metas sprints next_uuid false instance
      = inl (Raised TypeError))
  /\ ((forall r, r ∈ metas -> SprintMeta.id r = SprintMeta.id instance ->
                 SprintMeta.is_deleted r = true \/ SprintMeta._template r = true) ->
      exists created,
        create_sprints_from_sprint_meta metas sprints next_uuid false instance
        = inr created
        /\ length created = SprintMeta.sprint_to_generate instance
        /\ forall i, i < SprintMeta.sprint_to_generate instance ->
             created !! i
             = Some (Sprint.mk (next_uuid + i) (SprintMeta.id instance)
                       (Some (datetime_date (SprintMeta.started instance)
                              + Z.of_nat i * SprintMeta.days instance)%Z)
                       (Some (datetime_date (SprintMeta.started instance)
                              + Z.of_nat i * SprintMeta.days instance
                              + (SprintMeta.days instance - 1))%Z)
                       (SprintMeta.client instance) false false))
  /\ create_sprints_from_sprint_meta metas sprints next_uuid true instance = inr [].
Proof.
  split_and!; [| | |done].
  - intros Hvis Hlt. unfold create_sprints_from_sprint_meta.
    fold (current_sprints sprints instance).
    destruct (stored_visible_first metas instance Hvis) as [before ->].
    rewrite bool_decide_eq_true_2; [done|]. by rewrite merge_sort_Permutation.
  - intros Hvis Hlt (s & Hs & Hnone). unfold create_sprints_from_sprint_meta.
    fold (current_sprints sprints instance).
    destruct (stored_visible_first metas instance Hvis) as [before ->].
    assert (length (merge_sort later_start (current_sprints sprints instance))
            = length (current_sprints sprints instance)) as ->
      by (by rewrite merge_sort_Permutation).
    rewrite bool_decide_eq_false_2 by lia. rewrite bool_decide_eq_true_2 by done.
    pose proof (first_later_start (current_sprints sprints instance)) as Hfirst.
    destruct (Sql.first _) as [m|].
    + destruct Hfirst as [_ Hmax]. specialize (Hmax s Hs).
      unfold later_start in Hmax. rewrite Hnone in Hmax.
      by destruct (Sprint.start_date m).
    + rewrite Hfirst in Hs. by inversion Hs.
  - intros Hhidden. unfold create_sprints_from_sprint_meta.
    rewrite filter_none.
    + destruct (create_sprints_spec (SprintMeta.sprint_to_generate instance) instance
                  (datetime_date (SprintMeta.started instance)) next_uuid)
        as [Hlen Hat].
      eexists. by split_and!.
    + intros r [Hlive Hr]%list_elem_of_filter Hid%bool_decide_unpack.
      apply andb_True in Hlive as [Hd%negb_True Ht%negb_True].
      destruct (Hhidden r Hr Hid) as [H|H]; rewrite H in *; done.
Qed.

Lemma sprint_rejection_witness :
  create_sprints_from_sprint_meta [example_sprint_meta]
    [example_sprint; Sprint.mk 11 1 None None (Some 7) false false] 1000 false
    (SprintMeta.mk 1 (100 * day)%Z 1 14 (Some 7) false false)
  = inl ValidationError
  /\ create_sprints_from_sprint_meta [example_sprint_meta]
       [example_sprint; Sprint.mk 11 1 None None (Some 7) false false] 1000 false
       example_sprint_meta
     = inl (Raised TypeError).
Proof.
  split.
  - apply (sprint_generation_rejects_or_restarts [example_sprint_meta]
             [example_sprint; Sprint.mk 11 1 None None (Some 7) false false] 1000
             (SprintMeta.mk 1 (100 * day)%Z 1 14 (Some 7) false false)).
    + exists example_sprint_meta. split_and!; try done.
      by apply list_elem_of_singleton.
    + vm_compute. lia.
  - apply (sprint_generation_rejects_or_restarts [example_sprint_meta]
             [example_sprint; Sprint.mk 11 1 None None (Some 7) false false] 1000
             example_sprint_meta).
    + exists example_sprint_meta. split_and!; try done.
      by apply list_elem_of_singleton.
    + vm_compute. lia.
    + exists (Sprint.mk 11 1 None None (Some 7) false false). split; [|done].
      vm_compute. right. left.
Defined.

(** * Cloning a task *)

(** [duplicate_task_v2_for_project], step by step. *)
Lemma duplicate_task_v2_for_project_unfold d records request_client task
    new_project old_project_start_date _template w :
  duplicate_task_v2_for_project (S d) records request_client task new_project
    old_project_start_date _template w
  = (pk <- uuid4 ;;
     r <- status_step request_client new_project _template (Task.status task)
            (flat_clone pk request_client task new_project old_project_start_date
               _template)
            records ;;
     r <- parent_step
            (fun records related =>
               duplicate_task_v2_for_project d records request_client related
                 new_project old_project_start_date _template)
            pk (Task.id task) (Task.parent_task task) r.1 r.2 ;;
     new_task <- self_reference_step Task.set_dependency pk (Task.id task)
                   (Task.dependency task) r.1 r.2 ;;
     new_task <- self_reference_step Task.set_predecessor pk (Task.id task)
                   (Task.predecessor task) new_task r.2 ;;
     ret (new_task,
          mkRecords (task_status_to_create r.2)
            (dict_set (Task.id task) new_task (tasks_to_create r.2)))) w.
Proof.
  cbn [duplicate_task_v2_for_project]. apply bind_ext. intros pk w1.
  apply bind_ext. intros [nt1 rec1] w2. apply bind_ext. intros [nt2 rec2] w3.
  reflexivity.
Qed.

Lemma dict_get_set_same {V} k (v : V) d : dict_get k (dict_set k v d) = Some v.
Proof.
  unfold dict_get, dict_set. case_bool_decide as Hin.
  - induction d as [|a d IH]; [by apply elem_of_nil in Hin|].
    rewrite fmap_cons, filter_cons. destruct (decide (a.1 = k)) as [Ha|Ha].
    + rewrite (bool_decide_eq_true_2 _ Ha). simpl.
      by rewrite bool_decide_eq_true_2.
    + rewrite (bool_decide_eq_false_2 _ Ha), (bool_decide_eq_false_2 _ Ha).
      apply IH. rewrite fmap_cons in Hin. apply elem_of_cons in Hin as [?|?]; [|done].
      by destruct Ha.
  - rewrite filter_app. rewrite (filter_none _ d).
    + simpl. rewrite filter_cons. simpl. by rewrite bool_decide_eq_true_2.
    + intros a Ha Hk%bool_decide_unpack. apply Hin, list_elem_of_fmap. by exists a.
Qed.

Lemma dict_get_set_other {V} k k' (v : V) d :
  k' <> k -> dict_get k' (dict_set k v d) = dict_get k' d.
Proof.
  intros Hne. unfold dict_get, dict_set. case_bool_decide as Hin.
  - f_equal. f_equal. clear Hin. induction d as [|a d IH]; [done|].
    rewrite fmap_cons, !filter_cons, IH. destruct (decide (a.1 = k)) as [Ha|Ha].
    + rewrite (bool_decide_eq_true_2 _ Ha). simpl.
      rewrite !bool_decide_eq_false_2; [done|congruence|congruence].
    + by rewrite (bool_decide_eq_false_2 _ Ha).
  - rewrite filter_app, filter_cons. simpl.
    rewrite bool_decide_eq_false_2 by congruence. simpl.
    by rewrite filter_nil, app_nil_r.
Qed.

Lemma related_task_stored w r :
  pk_unique Task.id (task_table w) -> r ∈ task_table w ->
  related_task (Task.id r) w = Ok r w.
Proof.
  intros Hu Hr. unfold related_task, bind, get_world.
  assert (filter (fun x => bool_decide (Task.id x = Task.id r)) (task_table w) = [r])
    as ->; [|done].
  apply singleton_of_short; [by apply filter_pk_length'|].
  apply list_elem_of_filter. split; [|done]. by apply bool_decide_pack.
Qed.

Lemma related_task_status_stored w sid :
  sid ∈ TaskStatus.id <$> task_status_table w ->
  exists row, row ∈ task_status_table w /\ TaskStatus.id row = sid
              /\ related_task_status sid w = Ok row w.
Proof.
  intros (row & -> & Hrow)%list_elem_of_fmap.
  unfold related_task_status, bind, get_world.
  destruct (filter _ _) as [|first rest] eqn:E.
  - assert (row ∈ filter (fun r => bool_decide (TaskStatus.id r = TaskStatus.id row))
                     (task_status_table w)) as Hin.
    { apply list_elem_of_filter. split; [|done]. by apply bool_decide_pack. }
    rewrite E in Hin. by apply elem_of_nil in Hin.
  - assert (first ∈ filter (fun r => bool_decide (TaskStatus.id r = TaskStatus.id row))
                       (task_status_table w)) as Hin.
    { rewrite E. apply elem_of_cons. by left. }
    apply list_elem_of_filter in Hin as [Hid%bool_decide_unpack Hin].
    by exists first.
Qed.

(** The status of the clone is the clone registered for the old status,
    made on the spot when there is none yet. *)
Lemma status_step_spec request_client new_project _template old new_task records w :
  (forall sid, old = Some sid -> sid ∈ TaskStatus.id <$> task_status_table w) ->
  (old = None -> Task.status new_task = None) ->
  exists s records' w',
    status_step request_client new_project _template old new_task records w
    = Ok (Task.set_status s new_task, records') w'
    /\ only_drew_uuids w w'
    /\ tasks_to_create records' = tasks_to_create records
    /\ (old = None -> s = None)
    /\ (forall sid, old = Some sid ->
          exists status_clone,
            dict_get sid (task_status_to_create records') = Some status_clone
            /\ s = Some (TaskStatus.id status_clone))
    /\ (forall k v, dict_get k (task_status_to_create records) = Some v ->
                    dict_get k (task_status_to_create records') = Some v).
Proof.
  intros Hstored Hnone. destruct old as [sid|].
  - destruct (related_task_status_stored w sid) as (row & Hrow & Hid & Hrun);
      [by apply Hstored|].
    unfold status_step. erewrite bind_Ok by exact Hrun.
    destruct (dict_get sid (task_status_to_create records)) as [registered|] eqn:E.
    + eexists _, _, _. split; [reflexivity|].
      split; [apply only_drew_uuids_refl|]. split; [done|]. split; [done|].
      split; [|done]. intros ? [= <-]. by exists registered.
    + erewrite bind_Ok by reflexivity.
      eexists _, _, _. split; [reflexivity|].
      split; [apply uuid4_only_drew|]. split; [done|]. split; [done|]. split.
      * intros ? [= <-]. eexists. split; [apply dict_get_set_same|].
        by destruct row.
      * intros k v Hk. cbn [task_status_to_create].
        rewrite dict_get_set_other; [done|]. intros ->. congruence.
  - exists None, records, w. split.
    + unfold status_step, ret. do 2 f_equal.
      specialize (Hnone eq_refl). destruct new_task. simpl in *. by subst.
    + split; [apply only_drew_uuids_refl|]. by split_and!.
Qed.

(** A field that points to the task itself points to the clone itself. *)
Lemma self_reference_step_spec set pk task old new_task records w :
  pk_unique Task.id (task_table w) -> task ∈ task_table w ->
  old = None \/ old = Some (Task.id task) ->
  self_reference_step set pk (Task.id task) old new_task records w
  = Ok (match old with Some _ => set (Some pk) new_task | None => new_task end) w.
Proof.
  intros Hu Htask [->| ->]; [done|]. unfold self_reference_step.
  erewrite bind_Ok by (by apply related_task_stored).
  by rewrite bool_decide_eq_true_2.
Qed.

(** X16.  On a task table with unique keys and no parent cycle, and with a
    recursion limit above the depth of the task, [duplicate_task_v2_for_project]
    of a clonable task returns.  The clone is the task under a fresh key, in
    the new project, with the given template flag and client and its dates
    moved with the start of the project; its status is the clone registered
    for the old status and its parent is the clone registered for the old
    parent, both made on the way when not registered yet; a dependency or
    predecessor on the task itself becomes one on the clone itself.  The clone
    is registered under the old key, and what was registered under other keys
    stays. *)
Theorem clone_of_a_task_points_to_the_registered_clones rank depth records
    request_client task new_project old_project_start_date _template w :
  pk_unique Task.id (task_table w) ->
  acyclic Task.id Task.parent_task rank (task_table w) ->
  clonable (task_table w) (task_status_table w) task ->
  rank (Task.id task) < depth ->
  exists new_task records' w' new_status new_parent,
    duplicate_task_v2_for_project depth records request_client task new_project
      old_project_start_date _template w
    = Ok (new_task, records') w'
    /\ only_drew_uuids w w'
    /\ new_task
       = Task.set_predecessor ((fun _ => next_uuid w) <$> Task.predecessor task)
           (Task.set_dependency ((fun _ => next_uuid w) <$> Task.dependency task)
              (Task.set_parent_task new_parent
                 (Task.set_status new_status
                    (flat_clone (next_uuid w) request_client task new_project
                       old_project_start_date _template))))
    /\ dict_get (Task.id task) (tasks_to_create records') = Some new_task
    /\ (Task.status task = None -> new_status = None)
    /\ (forall sid, Task.status task = Some sid ->
          exists status_clone,
            dict_get sid (task_status_to_create records') = Some status_clone
            /\ new_status = Some (TaskStatus.id status_clone))
    /\ (Task.parent_task task = None -> new_parent = None)
    /\ (forall p, Task.parent_task task = Some p ->
          exists parent_clone,
            dict_get p (tasks_to_create records') = Some parent_clone
            /\ new_parent = Some (Task.id parent_clone))
    /\ (forall k v, k <> Task.id task ->
          dict_get k (tasks_to_create records) = Some v ->
          dict_get k (tasks_to_create records') = Some v)
    /\ (forall k v, dict_get k (task_status_to_create records) = Some v ->
          dict_get k (task_status_to_create records') = Some v).
Proof.
  remember (task_table w) as tasks eqn:Etasks.
  remember (task_status_table w) as statuses eqn:Estatuses.
  intros Hu Hacyc Hclonable. revert task records w Etasks Estatuses Hclonable.
  induction depth as [|d IH]; intros task records w Etasks Estatuses Hclonable Hdepth;
    [lia|].
  destruct Hclonable as [task Htask Hstatus Hdep Hpred Hparent].
  rewrite duplicate_task_v2_for_project_unfold.
  erewrite bind_Ok by reflexivity.
  set (pk := next_uuid w). set (w0 := with_next_uuid (S pk) w).
  set (base := flat_clone pk request_client task new_project old_project_start_date
                 _template).
  assert (only_drew_uuids w w0) as Hw0 by apply uuid4_only_drew.
  destruct (status_step_spec request_client new_project _template (Task.status task)
              base records w0)
    as (s & rec1 & w1 & Hrun1 & Hw1 & Htasks1 & Hs_none & Hs_some & Hkeep1).
  { intros sid Hsid. simpl. rewrite <- Estatuses. by apply Hstatus. }
  { intros Hnone. unfold base, flat_clone. by simpl. }
  erewrite bind_Ok by exact Hrun1. cbn [fst snd].
  assert (task_table w1 = tasks /\ task_status_table w1 = statuses) as [Etasks1 Estatuses1].
  { destruct Hw1 as (Hstored & _). unfold stored in Hstored. simpl in Hstored.
    split; congruence. }
  assert (exists pp rec2 w2,
             parent_step
               (fun records related =>
                  duplicate_task_v2_for_project d records request_client related
                    new_project old_project_start_date _template)
               pk (Task.id task) (Task.parent_task task) (Task.set_status s base)
               rec1 w1
             = Ok (Task.set_parent_task pp (Task.set_status s base), rec2) w2
             /\ only_drew_uuids w1 w2
             /\ (Task.parent_task task = None -> pp = None)
             /\ (forall p, Task.parent_task task = Some p ->
                   exists parent_clone,
                     dict_get p (tasks_to_create rec2) = Some parent_clone
                     /\ pp = Some (Task.id parent_clone))
             /\ (forall k v, dict_get k (tasks_to_create rec1) = Some v ->
                             dict_get k (tasks_to_create rec2) = Some v)
             /\ (forall k v, dict_get k (task_status_to_create rec1) = Some v ->
                             dict_get k (task_status_to_create rec2) = Some v))
    as (pp & rec2 & w2 & Hrun2 & Hw2 & Hp_none & Hp_some & Hkeep2 & Hkeep2').
  { destruct (Task.parent_task task) as [p|] eqn:Ep.
    - destruct (Hparent p eq_refl) as (parent & Hin & Hid & Hcl).
      assert (rank p < rank (Task.id task)) as Hrank
        by exact (acyclic_elim _ _ _ _ _ _ Hacyc Htask Ep).
      unfold parent_step.
      erewrite bind_Ok
        by (rewrite <- Hid; apply related_task_stored; by rewrite Etasks1).
      rewrite bool_decide_eq_false_2 by (intros ->; lia).
      destruct (dict_get p (tasks_to_create rec1)) as [registered|] eqn:E.
      + eexists _, _, _. split; [reflexivity|].
        split; [apply only_drew_uuids_refl|]. split; [done|].
        split; [|done]. intros ? [= <-]. by exists registered.
      + destruct (IH parent rec1 w1) as
          (c & rec2 & w2 & _ & _ & Hrun & Hw & _ & Hreg & _ & _ & _ & _ & Hk & Hk');
          [done|done|done|rewrite Hid; lia|].
        erewrite bind_Ok by exact Hrun. cbn [fst snd].
        eexists _, _, _. split; [reflexivity|]. split; [done|]. split; [done|].
        split; [|split; [|done]].
        * intros ? [= <-]. exists c. by rewrite <- Hid.
        * intros k v Hkv. apply Hk; [|done]. rewrite Hid. intros ->. congruence.
    - exists None, rec1, w1. split.
      + unfold parent_step, ret. do 2 f_equal. unfold base, flat_clone.
        destruct task. simpl in *. by subst.
      + split; [apply only_drew_uuids_refl|]. by split_and!. }
  erewrite bind_Ok by exact Hrun2. cbn [fst snd].
  assert (task_table w2 = tasks) as Etasks2.
  { destruct Hw2 as (Hstored & _). unfold stored in Hstored. simpl in Hstored.
    congruence. }
  erewrite bind_Ok
    by (apply self_reference_step_spec; [by rewrite Etasks2|by rewrite Etasks2|done]).
  erewrite bind_Ok
    by (apply self_reference_step_spec; [by rewrite Etasks2|by rewrite Etasks2|done]).
  unfold ret. eexists _, _, _, s, pp. split; [reflexivity|].
  assert (Task.parent_task task <> Some (Task.id task)) as Hself.
  { intros Ep. pose proof (acyclic_elim _ _ _ _ _ _ Hacyc Htask Ep). lia. }
  split.
  { eapply only_drew_uuids_trans; [exact Hw0|].
    eapply only_drew_uuids_trans; [exact Hw1|exact Hw2]. }
  split.
  { unfold base, flat_clone.
    clear IH. destruct task. simpl in *.
    destruct Hdep as [?|?], Hpred as [?|?]; by simplify_eq/=. }
  cbn [tasks_to_create task_status_to_create].
  split; [apply dict_get_set_same|].
  split; [done|]. split.
  { intros sid Hsid. destruct (Hs_some sid Hsid) as (sc & Hsc & ->).
    exists sc. split; [by apply Hkeep2'|done]. }
  split; [done|]. split.
  { intros p Ep. destruct (Hp_some p Ep) as (pc & Hpc & ->).
    exists pc. split; [|done]. rewrite dict_get_set_other; [done|]. congruence. }
  split.
  - intros k v Hk Hkv. rewrite dict_get_set_other by done.
    apply Hkeep2. by rewrite Htasks1.
  - intros k v Hkv. by apply Hkeep2', Hkeep1.
Qed.

Lemma clone_of_a_task_witness :
  let task :=
    Task.set_dependency (Some 3)
      (Task.set_status (Some 50)
         (example_task 3 (Some 2) 1 None None false false)) in
  exists new_task records' parent_clone status_clone,
    returned (duplicate_task_v2_for_project 4 (mkRecords [] []) (Some 7) task
                new_example_project None false chained_world)
    = Some (new_task, records')
    /\ Task.id new_task = 1000
    /\ Task.dependency new_task = Some 1000
    /\ dict_get 2 (tasks_to_create records') = Some parent_clone
    /\ Task.parent_task new_task = Some (Task.id parent_clone)
    /\ dict_get 50 (task_status_to_create records') = Some status_clone
    /\ Task.status new_task = Some (TaskStatus.id status_clone).
Proof.
  intros task.
  destruct (clone_of_a_task_points_to_the_registered_clones (fun i => i) 4
              (mkRecords [] []) (Some 7) task new_example_project None false
              chained_world)
    as (new_task & records' & w' & new_status & new_parent & Hrun & _ & Hshape
        & _ & _ & Hstatus & _ & Hparent & _).
  - unfold pk_unique. by apply (bool_decide_unpack _).
  - unfold acyclic. repeat (apply Forall_cons; split; [simpl; try done; lia|]).
    by apply Forall_nil.
  - apply clonable_task;
      [solve_elem_of|intros ? [= <-]; solve_elem_of|by right|by left|].
    intros ? [= <-]. eexists. split; [|split; [|apply clonable_task]];
      [solve_elem_of|reflexivity|solve_elem_of|intros ? [= <-]; solve_elem_of
      |by left|by left|].
    intros ? [= <-]. eexists. split; [|split; [|apply clonable_task]];
      [solve_elem_of|reflexivity|solve_elem_of|done|by left|by left|done].
  - simpl. lia.
  - destruct (Hparent 2 eq_refl) as (parent_clone & Hpc & ->).
    destruct (Hstatus 50 eq_refl) as (status_clone & Hsc & ->).
    exists new_task, records', parent_clone, status_clone.
    rewrite Hrun. split; [done|]. rewrite Hshape. by split_and!.
Defined.

(** * The tasks of a status, in tree order *)

(** Recursive queries whose recursive term works row by row. *)
Section RecursiveBind.
Context {A : Type} (f : A -> list A).

Lemma with_recursive_bind_Forall (P : A -> Prop) levels working rows :
(forall t x, P t -> x ∈ f t -> P x) ->
Forall P working ->
Sql.with_recursive (fun working => working ≫= f) levels working = Some rows ->
Forall P rows.
Proof.
intros HP. revert working rows.
induction levels as [|n IH]; intros working rows Hall Hrun.
- destruct working; simplify_eq/=. constructor.
- destruct working as [|w0 working]; [simplify_eq/=; constructor|].
  rewrite with_recursive_cons in Hrun.
  destruct (Sql.with_recursive _ n _) as [r|] eqn:E; [|done].
  injection Hrun as <-. change (Forall P ((w0 :: working) ++ r)).
  apply Forall_app. split; [done|]. apply (fun H => IH _ _ H E).
  apply Forall_forall. intros x (t & Hx & Ht)%list_elem_of_bind.
  apply (HP t); [|done]. by apply (proj1 (Forall_forall _ _) Hall).
Qed.

Lemma with_recursive_bind_working levels working rows x :
Sql.with_recursive (fun working => working ≫= f) levels working = Some rows ->
x ∈ working -> x ∈ rows.
Proof.
intros Hrun Hx. destruct levels as [|n], working as [|w0 working];
  simplify_eq/=; try by apply elem_of_nil in Hx.
destruct (Sql.with_recursive _ n _) as [r|] eqn:E; simplify_eq/=.
change (x ∈ (w0 :: working) ++ r). apply elem_of_app. by left.
Qed.

(** The result is closed under the recursive term. *)
Lemma with_recursive_bind_closed levels working rows t x :
Sql.with_recursive (fun working => working ≫= f) levels working = Some rows ->
t ∈ rows -> x ∈ f t -> x ∈ rows.
Proof.
revert working rows. induction levels as [|n IH]; intros working rows Hrun Ht Hx.
- destruct working; simplify_eq/=. by apply elem_of_nil in Ht.
- destruct working as [|w0 working]; [simplify_eq/=; by apply elem_of_nil in Ht|].
  rewrite with_recursive_cons in Hrun.
  destruct (Sql.with_recursive _ n _) as [r|] eqn:E; [|done].
  injection Hrun as <-. change (t ∈ (w0 :: working) ++ r) in Ht.
  change (x ∈ (w0 :: working) ++ r).
  apply elem_of_app. right. apply elem_of_app in Ht as [Ht|Ht].
  + apply (with_recursive_bind_working _ _ _ _ E).
    apply list_elem_of_bind. by exists t.
  + by apply (IH _ _ E).
Qed.

(** No row comes twice when each round goes one level down and two rows
  never share a row below them. *)
Lemma with_recursive_bind_NoDup (P : A -> Prop) (level : A -> nat) levels k
  working rows :
(forall t x, P t -> x ∈ f t -> P x) ->
(forall t x, x ∈ f t -> level x = S (level t)) ->
(forall t, NoDup (f t)) ->
(forall t1 t2 x, P t1 -> P t2 -> x ∈ f t1 -> x ∈ f t2 -> t1 = t2) ->
Forall P working -> Forall (fun x => level x = k) working -> NoDup working ->
Sql.with_recursive (fun working => working ≫= f) levels working = Some rows ->
NoDup rows /\ Forall (fun x => k <= level x) rows.
Proof.
intros HP Hlevel Hnd Hdisj. revert k working rows.
induction levels as [|n IH]; intros k working rows Hall Hk Hworking Hrun.
- destruct working; simplify_eq/=. split; constructor.
- destruct working as [|w0 working]; [simplify_eq/=; split; constructor|].
  rewrite with_recursive_cons in Hrun.
  destruct (Sql.with_recursive _ n _) as [r|] eqn:E; [|done].
  injection Hrun as <-. change (w0 :: working ++ r) with ((w0 :: working) ++ r).
  destruct (fun H1 H2 H3 => IH (S k) _ _ H1 H2 H3 E) as [Hr Hlow].
  + apply Forall_forall. intros x (t & Hx & Ht)%list_elem_of_bind.
    apply (HP t); [|done]. by apply (proj1 (Forall_forall _ _) Hall).
  + apply Forall_forall. intros x (t & Hx & Ht)%list_elem_of_bind.
    rewrite (Hlevel t x Hx). f_equal.
    by apply (proj1 (Forall_forall _ _) Hk).
  + apply NoDup_bind; [|by intros|done].
    intros t1 t2 x Ht1 Ht2 Hx1 Hx2.
    apply (Hdisj t1 t2 x); try done;
      by apply (proj1 (Forall_forall _ _) Hall).
  + split.
    * apply NoDup_app. split_and!; [done| |done].
      intros x Hx Hxr.
      pose proof (proj1 (Forall_forall _ _) Hk x Hx) as H1.
      pose proof (proj1 (Forall_forall _ _) Hlow x Hxr) as H2.
      simpl in *. lia.
    * apply Forall_app. split.
      -- eapply Forall_impl; [exact Hk|]. intros x Hx. simpl in *. lia.
      -- eapply Forall_impl; [exact Hlow|]. intros x Hx. simpl in *. lia.
Qed.
End RecursiveBind.

Lemma entry_lt_trichotomy a b : entry_lt a b \/ a = b \/ entry_lt b a.
Proof.
  destruct a as [a1 a2], b as [b1 b2]. unfold entry_lt. simpl.
  destruct (Z.lt_trichotomy a1 b1) as [?|[->|?]]; [by left;left| |by right;right;left].
  destruct (Nat.lt_trichotomy a2 b2) as [?|[->|?]];
    [left; right; done|by right; left|right; right; right; done].
Qed.

Lemma entry_lt_trans a b c : entry_lt a b -> entry_lt b c -> entry_lt a c.
Proof. unfold entry_lt. intros [?|[? ?]] [?|[? ?]]; [left|left|left|right]; lia. Qed.

Lemma entry_lt_irrefl a : ~ entry_lt a a.
Proof. unfold entry_lt. lia. Qed.

#[global] Instance path_le_total : Total path_le.
Proof.
  intros p. induction p as [|a p IH]; intros [|b q]; simpl; auto.
  destruct (entry_lt_trichotomy a b) as [?|[->|?]]; [by left; left| |by right; left].
  destruct (IH q); [left|right]; by right.
Qed.

#[global] Instance path_le_trans : Transitive path_le.
Proof.
  intros p. induction p as [|a p IH]; intros [|b q] [|c r]; simpl; try done.
  intros [Hab|[-> Hpq]] [Hbc|[-> Hqr]]; [left|by left|by left|right].
  - by eapply entry_lt_trans.
  - split; [done|]. by eapply IH.
Qed.

#[global] Instance by_path_total : Total by_path.
Proof. intros a b. apply path_le_total. Qed.

#[global] Instance by_path_trans : Transitive by_path.
Proof. intros a b c. apply path_le_trans. Qed.

(** A path does not come after the paths it is a proper prefix of. *)
Lemma path_le_prefix p q : q <> [] -> ~ path_le (p ++ q) p.
Proof.
  intros Hq. induction p as [|a p IH]; simpl.
  - destruct q as [|b q]; [by destruct Hq|simpl; by intros []].
  - intros [Hlt|[_ Hle]]; [by apply entry_lt_irrefl in Hlt|by apply IH].
Qed.

Lemma in_project_tree_in_table table project_id x path :
  in_project_tree table project_id x path -> x ∈ table.
Proof. by destruct 1. Qed.

(** A task has one path. *)
Lemma in_project_tree_unique table project_id x p1 p2 :
  pk_unique Task.id table ->
  in_project_tree table project_id x p1 -> in_project_tree table project_id x p2 ->
  p1 = p2.
Proof.
  intros Hu H1. revert p2.
  induction H1 as [n Hn Hp Hs|t path n Ht IH Hn Hp Hs]; intros p2 H2;
    inversion H2 as [? _ Hp' _|t' path' ? Ht' _ Hp' _]; subst; try congruence.
  assert (t = t') as <-.
  { apply (pk_unique_inj Task.id table); try done;
      [by eapply in_project_tree_in_table|by eapply in_project_tree_in_table
      |congruence]. }
  by rewrite (IH _ Ht').
Qed.

Lemma elem_of_comes_before {A} (rows : list A) a b :
  a ∈ rows -> b ∈ rows -> a <> b -> comes_before rows a b \/ comes_before rows b a.
Proof.
  intros Ha Hb Hab. apply list_elem_of_split in Ha as (l1 & l2 & ->).
  apply elem_of_app in Hb as [Hb|Hb].
  - right. apply list_elem_of_split in Hb as (k1 & k2 & ->).
    exists k1, k2, l2. by rewrite <- app_assoc.
  - apply elem_of_cons in Hb as [->|Hb]; [done|].
    left. apply list_elem_of_split in Hb as (k1 & k2 & ->). by exists l1, k1, k2.
Qed.

Lemma StronglySorted_comes_before {A} (R : relation A) rows a b :
  StronglySorted R rows -> comes_before rows a b -> R a b.
Proof.
  intros Hsorted (l1 & l2 & l3 & ->).
  apply StronglySorted_app_1_r in Hsorted.
  apply StronglySorted_inv in Hsorted as [_ Hall].
  apply (proj1 (Forall_forall _ _) Hall), elem_of_app. right. by left.
Qed.

(** Rows sorted by their own paths are sorted by the paths of their tasks. *)
Lemma sorted_by_path_fst table project_id (l : list (Task.t * list (Z * uuid))) :
  pk_unique Task.id table ->
  Forall (fun x => in_project_tree table project_id x.1 x.2) l ->
  StronglySorted by_path l ->
  StronglySorted
    (fun a b => forall pa pb,
       in_project_tree table project_id a pa ->
       in_project_tree table project_id b pb -> path_le pa pb)
    (fst <$> l).
Proof.
  intros Hu. induction l as [|x l IH]; intros HP Hs; [constructor|].
  apply Forall_cons in HP as [Hpx HPl].
  apply StronglySorted_inv in Hs as [Hl Hx].
  rewrite fmap_cons. constructor; [by apply IH|].
  apply Forall_fmap, Forall_forall. intros y Hy pa pb Ha Hb.
  pose proof (proj1 (Forall_forall _ _) Hx y Hy) as Hle.
  pose proof (proj1 (Forall_forall _ _) HPl y Hy) as Hpy.
  simpl in Ha, Hb.
  rewrite (in_project_tree_unique _ _ _ pa x.2 Hu Ha Hpx).
  by rewrite (in_project_tree_unique _ _ _ pb y.2 Hu Hb Hpy).
Qed.

(** X17.  On a well-formed task table, [Task.get_all_tasks_of_a_status]
    (without owner) returns exactly the tasks of the status that are reached
    from a top-level task of the project through tasks that are all of the
    project, not deleted and not templates, whatever the status of the tasks
    on the way; no task comes twice.  The rows come in the order of their
    paths of (order, key) pairs from the top: a task comes before every task
    of the result below it, and siblings come by ascending order. *)
Theorem tasks_of_a_status_come_in_tree_order rank bound table project_id
    task_status_id :
  well_formed_tasks rank bound table ->
  exists rows,
    get_all_tasks_of_a_status bound table project_id task_status_id = Some rows
    /\ (forall x, x ∈ rows <->
          Task.status x = Some task_status_id
          /\ exists path, in_project_tree table project_id x path)
    /\ NoDup rows
    /\ StronglySorted
         (fun a b => forall pa pb,
            in_project_tree table project_id a pa ->
            in_project_tree table project_id b pb -> path_le pa pb)
         rows
    /\ (forall a b pa q,
          a ∈ rows -> b ∈ rows ->
          in_project_tree table project_id a pa ->
          in_project_tree table project_id b (pa ++ q) -> q <> [] ->
          comes_before rows a b).
Proof.
  intros (Hu & Hacyc & Hb). unfold get_all_tasks_of_a_status. cbv zeta.
  match goal with
  | |- context [Sql.with_recursive (fun working => working ≫= ?g) _ ?a] =>
      set (f := g); set (anchor := a)
  end.
  assert (forall t x, x ∈ f t <->
            exists n, x = (n, t.2 ++ [path_entry n]) /\ n ∈ table
                      /\ Task.parent_task n = Some (Task.id t.1)
                      /\ shown project_id n) as Hf.
  { intros t x. unfold f. rewrite list_elem_of_fmap.
    split; intros (n & -> & Hn); exists n; (split; [done|]).
    - apply list_elem_of_filter in Hn as [Hn Hin].
      apply andb_True in Hn as [[[Hp%bool_decide_unpack Hpr%bool_decide_unpack]
        %andb_True Hd%negb_True]%andb_True Ht%negb_True].
      unfold shown. split_and!; try done;
        [by destruct (Task.is_deleted n)|by destruct (Task._template n)].
    - destruct Hn as (Hin & Hp & Hpr & Hd & Ht).
      apply list_elem_of_filter. split; [|done].
      by rewrite Hd, Ht, (bool_decide_eq_true_2 _ Hp), (bool_decide_eq_true_2 _ Hpr). }
  assert (forall x, x ∈ anchor <->
            exists n, x = (n, [path_entry n]) /\ n ∈ table
                      /\ Task.parent_task n = None /\ shown project_id n)
    as Hanchor.
  { intros x. unfold anchor. rewrite list_elem_of_fmap.
    split; intros (n & -> & Hn); exists n; (split; [done|]).
    - apply list_elem_of_filter in Hn as [Hn Hin].
      apply andb_True in Hn as [[[Hp%bool_decide_unpack Hpr%bool_decide_unpack]
        %andb_True Ht%negb_True]%andb_True Hd%negb_True].
      unfold shown. split_and!; try done;
        [by destruct (Task.is_deleted n)|by destruct (Task._template n)].
    - destruct Hn as (Hin & Hp & Hpr & Hd & Ht).
      apply list_elem_of_filter. split; [|done].
      by rewrite Hd, Ht, (bool_decide_eq_true_2 _ Hp), (bool_decide_eq_true_2 _ Hpr). }
  set (P := fun x : Task.t * list (Z * uuid) =>
              in_project_tree table project_id x.1 x.2).
  assert (forall t x, P t -> x ∈ f t -> P x) as HP.
  { intros t x Ht (n & -> & Hn & Hp & Hs)%Hf. by eapply in_project_tree_child. }
  assert (Forall P anchor) as HPanchor.
  { apply Forall_forall. intros x (n & -> & Hn & Hp & Hs)%Hanchor.
    by apply in_project_tree_root. }
  destruct (with_recursive_terminates (fun working => working ≫= f)
              (fun x => rank (Task.id x.1)) bound) with
    (levels := bound) (k := 0) (working := anchor) as [all Hall].
  { intros working x (t & (n & -> & Hn & Hp & Hs)%Hf & Ht)%list_elem_of_bind.
    simpl. split; [by eapply ranked_below_elim|].
    exists t. split; [done|]. by eapply acyclic_elim. }
  { intros x (n & -> & Hn & _)%Hanchor. simpl.
    split; [lia|by eapply ranked_below_elim]. }
  { lia. }
  rewrite Hall. cbn [mbind option_bind].
  pose proof (with_recursive_bind_Forall f P _ _ _ HP HPanchor Hall) as HPall.
  assert (forall x path, in_project_tree table project_id x path -> (x, path) ∈ all)
    as Hcomplete.
  { induction 1 as [n Hn Hp Hs|t path n Ht IH Hn Hp Hs].
    - apply (with_recursive_bind_working f _ _ _ _ Hall), Hanchor. by exists n.
    - apply (with_recursive_bind_closed f _ _ _ (t, path) _ Hall IH), Hf.
      by exists n. }
  assert (NoDup all) as Hnodup.
  { eapply (with_recursive_bind_NoDup f P (fun x => length x.2) bound 1 anchor all);
      try done.
    - intros t x (n & -> & _)%Hf. simpl. rewrite length_app. simpl. lia.
    - intros t. unfold f. apply NoDup_fmap_2_strong; [by intros ?? _ _ [= ->]|].
      apply NoDup_filter. by eapply pk_unique_NoDup.
    - intros [t1 p1] [t2 p2] x Ht1 Ht2 (n & -> & _ & Hp1 & _)%Hf
        (n' & [= <- Hpath] & _ & Hp2 & _)%Hf.
      simpl in *. apply app_inj_tail in Hpath as [-> _].
      f_equal. apply (pk_unique_inj Task.id table); try done;
        [by eapply in_project_tree_in_table|by eapply in_project_tree_in_table
        |congruence].
    - apply Forall_forall. by intros x (n & -> & _)%Hanchor.
    - unfold anchor. apply NoDup_fmap_2_strong; [by intros ?? _ _ [= ->]|].
      apply NoDup_filter. by eapply pk_unique_NoDup. }
  set (selected := filter _ all).
  assert (forall x, x ∈ merge_sort by_path selected <->
                    P x /\ Task.status x.1 = Some task_status_id) as Hsorted_in.
  { intros x. rewrite merge_sort_Permutation. unfold selected.
    rewrite list_elem_of_filter, bool_decide_spec. split.
    - intros [Hs Hx]. split; [|done]. by apply (proj1 (Forall_forall _ _) HPall).
    - intros [Hx Hs]. split; [done|]. destruct x as [x path]. by apply Hcomplete. }
  assert (forall x y, x ∈ merge_sort by_path selected ->
                      y ∈ merge_sort by_path selected -> x.1 = y.1 -> x = y) as Hinj.
  { intros [x p1] [y p2] [Hx _]%Hsorted_in [Hy _]%Hsorted_in Hxy. simpl in *. subst.
    f_equal. by eapply in_project_tree_unique. }
  assert (StronglySorted
            (fun a b => forall pa pb,
               in_project_tree table project_id a pa ->
               in_project_tree table project_id b pb -> path_le pa pb)
            (fst <$> merge_sort by_path selected)) as Hsorted.
  { apply sorted_by_path_fst; [done| |apply StronglySorted_merge_sort; apply _].
    apply Forall_forall. by intros x [? _]%Hsorted_in. }
  assert (forall x, x ∈ fst <$> merge_sort by_path selected <->
            Task.status x = Some task_status_id
            /\ exists path, in_project_tree table project_id x path) as Hrows.
  { intros x. rewrite list_elem_of_fmap. split.
    - intros ([y path] & -> & [Hy Hs]%Hsorted_in). split; [done|]. by exists path.
    - intros (Hs & path & Hpath). exists (x, path). split; [done|].
      by apply Hsorted_in. }
  eexists. split; [reflexivity|]. split; [exact Hrows|].
  split.
  { apply NoDup_fmap_2_strong; [exact Hinj|].
    rewrite merge_sort_Permutation. by apply NoDup_filter. }
  split; [exact Hsorted|].
  intros a b pa q Ha Hin Hpa Hpb Hq.
  destruct (elem_of_comes_before _ a b Ha Hin) as [Hab|Hba]; [|done|].
  { intros ->. pose proof (in_project_tree_unique _ _ _ _ _ Hu Hpa Hpb) as Heq.
    apply (f_equal length) in Heq. rewrite length_app in Heq.
    destruct q; [done|simpl in Heq; lia]. }
  exfalso. apply (path_le_prefix pa q Hq).
  by apply (StronglySorted_comes_before _ _ b a Hsorted Hba).
Qed.

Lemma tasks_of_a_status_witness :
  exists rows,
    get_all_tasks_of_a_status 8 board_tasks 100 50 = Some rows
    /\ Task.id <$> rows = [2; 1; 4; 3]
    /\ NoDup rows.
Proof.
  destruct (tasks_of_a_status_come_in_tree_order (fun i => i) 8 board_tasks 100 50)
    as (rows & Hrun & _ & Hnodup & _).
  - solve_well_formed.
  - exists rows. split; [done|]. split; [|done].
    vm_compute in Hrun. by injection Hrun as <-.
Defined.
